(** * csv2sql: CSV to SQL DDL+DML

    A shallow embedding of the converter of suntong/csv2sql and the
    properties of its type inference, row serialization and statement
    generation.

    The repository holds three drafts of the same converter:
    - [MainGo]   : src/main.go (inline type detection, [Config]);
    - [Part002]  : src/unnamed/part_002 ([refineType], [Config] with
                   [MaxSampleSize]);
    - [Part001]  : the Go half of src/unnamed/part_001 ([OptsT] based).
    Code that is textually identical in several drafts is embedded once
    and shared.

    Go strings are byte sequences; they are modelled by [string], whose
    characters are bytes.  Go's [int] is 64 bits wide; every integer
    below is a length, a counter or a configuration value far from the
    bounds, and is modelled by [Z]. *)

From Stdlib Require Import ZArith Lia DecimalString Ascii.
From Stdlib Require DecimalZ.
From stdpp Require Import gmap strings list.

Local Open Scope Z_scope.

(* ================================================================== *)
(** * The fragment of the Go standard library the converter calls      *)
(* ================================================================== *)

Module Go.

(** ** Byte classes *)

Definition byteIn (lo hi : N) (c : ascii) : bool :=
  ((lo <=? N_of_ascii c) && (N_of_ascii c <=? hi))%N.

Definition isDigit (c : ascii) : bool := byteIn 48 57 c.    (* 0-9 *)
Definition isUpper (c : ascii) : bool := byteIn 65 90 c.    (* A-Z *)
Definition isLower (c : ascii) : bool := byteIn 97 122 c.   (* a-z *)
Definition isLetter (c : ascii) : bool := isUpper c || isLower c.
Definition isUnderscore (c : ascii) : bool := (N_of_ascii c =? 95)%N.

(** The character class [a-zA-Z0-9_] of [sanitizeRegex]. *)
Definition isWord (c : ascii) : bool := isLetter c || isDigit c || isUnderscore c.

(** The character class [a-zA-Z_] of [leadingRegex]. *)
Definition isLeading (c : ascii) : bool := isLetter c || isUnderscore c.

Definition byteIs (n : N) (c : ascii) : bool := (N_of_ascii c =? n)%N.

(** ** package strings *)

(** [len(s)]: the number of bytes. *)
Definition len (s : string) : Z := Z.of_nat (String.length s).

Fixpoint rev_onto (s acc : string) : string :=
  match s with
  | EmptyString => acc
  | String c r => rev_onto r (String c acc)
  end.

Definition reverse (s : string) : string := rev_onto s EmptyString.

(** [unicode.IsSpace] on the runes of one, two and three bytes.  The
    White_Space runes are U+0009..U+000D, U+0020, U+0085, U+00A0,
    U+1680, U+2000..U+200A, U+2028, U+2029, U+202F, U+205F, U+3000;
    none needs four bytes in UTF-8. *)
Definition space1 (c : ascii) : bool := byteIn 9 13 c || byteIs 32 c.

Definition space2 (c1 c2 : ascii) : bool :=
  byteIs 194 c1 && (byteIs 133 c2 || byteIs 160 c2).

Definition space3 (c1 c2 c3 : ascii) : bool :=
  (byteIs 225 c1 && byteIs 154 c2 && byteIs 128 c3)
  || (byteIs 226 c1 && byteIs 128 c2
      && (byteIn 128 138 c3 || byteIs 168 c3 || byteIs 169 c3 || byteIs 175 c3))
  || (byteIs 226 c1 && byteIs 129 c2 && byteIs 159 c3)
  || (byteIs 227 c1 && byteIs 128 c2 && byteIs 128 c3).

(** Leading white space: drop whole UTF-8 encoded space runes. *)
Fixpoint TrimLeftSpace (s : string) : string :=
  match s with
  | EmptyString => EmptyString
  | String c1 r1 =>
      if space1 c1 then TrimLeftSpace r1
      else match r1 with
           | EmptyString => s
           | String c2 r2 =>
               if space2 c1 c2 then TrimLeftSpace r2
               else match r2 with
                    | EmptyString => s
                    | String c3 r3 =>
                        if space3 c1 c2 c3 then TrimLeftSpace r3 else s
                    end
           end
  end.

(** Trailing white space, on the reversed string: the last rune is found
    by walking back to its first byte. *)
Fixpoint TrimLeftSpaceRev (s : string) : string :=
  match s with
  | EmptyString => EmptyString
  | String c1 r1 =>
      if space1 c1 then TrimLeftSpaceRev r1
      else match r1 with
           | EmptyString => s
           | String c2 r2 =>
               if space2 c2 c1 then TrimLeftSpaceRev r2
               else match r2 with
                    | EmptyString => s
                    | String c3 r3 =>
                        if space3 c3 c2 c1 then TrimLeftSpaceRev r3 else s
                    end
           end
  end.

Definition TrimRightSpace (s : string) : string :=
  reverse (TrimLeftSpaceRev (reverse s)).

(** [strings.TrimSpace]. *)
Definition TrimSpace (s : string) : string := TrimRightSpace (TrimLeftSpace s).

Fixpoint TrimLeftByte (p : ascii -> bool) (s : string) : string :=
  match s with
  | EmptyString => EmptyString
  | String c r => if p c then TrimLeftByte p r else s
  end.

(** [strings.Trim(s, "_")]. *)
Definition TrimUnderscores (s : string) : string :=
  reverse (TrimLeftByte isUnderscore (reverse (TrimLeftByte isUnderscore s))).

Definition lowerByte (c : ascii) : ascii :=
  if isUpper c then ascii_of_N (N_of_ascii c + 32) else c.

(** [strings.ToLower] on strings of ASCII bytes, the only ones it is
    applied to (see [replaceRuns_word] below). *)
Fixpoint ToLower (s : string) : string :=
  match s with
  | EmptyString => EmptyString
  | String c r => String (lowerByte c) (ToLower r)
  end.

(** [strings.ReplaceAll(s, old, new)] for a one-byte [old]. *)
Fixpoint ReplaceAllByte (old : ascii) (new : string) (s : string) : string :=
  match s with
  | EmptyString => EmptyString
  | String c r =>
      if Ascii.eqb c old then new +:+ ReplaceAllByte old new r
      else String c (ReplaceAllByte old new r)
  end.

(** [strings.HasPrefix(s, prefix)]. *)
Definition HasPrefix (s p : string) : bool := String.prefix p s.

(** [strings.Join(elems, sep)]. *)
Definition Join (elems : list string) (sep : string) : string :=
  String.concat sep elems.

(** The line feed of the format strings. *)
Definition nl : string := String (ascii_of_N 10) EmptyString.

(** ** package fmt: the verb %d *)

Definition itoa (z : Z) : string := NilZero.string_of_int (Z.to_int z).

(** ** package strconv *)

Fixpoint allDigits (s : string) : bool :=
  match s with
  | EmptyString => true
  | String c r => isDigit c && allDigits r
  end.

Fixpoint digitsValue (acc : Z) (s : string) : Z :=
  match s with
  | EmptyString => acc
  | String c r => digitsValue (10 * acc + (Z.of_N (N_of_ascii c) - 48)) r
  end.

(** [strconv.ParseInt(s, 10, 64)] returns a nil error: an optional sign,
    at least one decimal digit, nothing else, and a value that fits in
    64 signed bits. *)
Definition ParseInt64 (s : string) : bool :=
  match s with
  | EmptyString => false
  | String c r =>
      if byteIs 43 c then                                   (* + *)
        negb (String.eqb r "") && allDigits r && (digitsValue 0 r <? 2 ^ 63)
      else if byteIs 45 c then                              (* - *)
        negb (String.eqb r "") && allDigits r && (digitsValue 0 r <=? 2 ^ 63)
      else allDigits s && (digitsValue 0 s <? 2 ^ 63)
  end.

(** [strconv.Atoi(s)]: the value, or [None] for a non-nil error. *)
Definition Atoi (s : string) : option Z :=
  if ParseInt64 s then
    match s with
    | String c r =>
        if byteIs 43 c then Some (digitsValue 0 r)
        else if byteIs 45 c then Some (- digitsValue 0 r)
        else Some (digitsValue 0 s)
    | EmptyString => None
    end
  else None.

(** [strings.Index(s, sep)] for a one-byte [sep]; [None] is -1. *)
Fixpoint IndexByte (sep : ascii) (s : string) : option nat :=
  match s with
  | EmptyString => None
  | String c r =>
      if Ascii.eqb c sep then Some 0%nat
      else match IndexByte sep r with Some i => Some (S i) | None => None end
  end.

(** ** package regexp: the five anchored date patterns of [isDate] *)

Inductive tok := D | C (c : ascii).

Fixpoint matchToks (p : list tok) (s : string) : option string :=
  match p with
  | [] => Some s
  | t :: p' =>
      match s with
      | EmptyString => None
      | String c r =>
          let ok := match t with D => isDigit c | C c' => Ascii.eqb c c' end in
          if ok then matchToks p' r else None
      end
  end.

Definition fullMatch (p : list tok) (s : string) : bool :=
  match matchToks p s with
  | Some EmptyString => true
  | _ => false
  end.

(** The pattern ends in an optional [Z]. *)
Definition fullMatchOptZ (p : list tok) (s : string) : bool :=
  match matchToks p s with
  | Some r => String.eqb r "" || String.eqb r "Z"
  | None => false
  end.

End Go.

(** What the converter needs from [strconv.ParseFloat] and
    [strings.EqualFold], which depend on floating-point rounding and on
    the Unicode case-folding tables.  The development is parametric in
    them. *)
Record GoRuntime := {
  (** [strconv.ParseFloat(s, 64)] returns a nil error *)
  ParseFloat64 : string -> bool;
  (** [strings.EqualFold(s, t)] *)
  EqualFold : string -> string -> bool
}.

(** An instance to run the converter on inputs of ASCII bytes.
    [decimalLiteral] accepts an optional sign, digits with an optional
    point and an optional exponent; the other strings [ParseFloat]
    accepts (Inf, Infinity, NaN, hexadecimal floats, digits separated by
    underscores) and the literals it rejects as out of range are not
    used in the examples.  [foldEq] folds the letters A-Z, which is what
    [EqualFold] does on ASCII strings. *)
Module RunAscii.

Fixpoint skipDigits (s : string) : string :=
  match s with
  | EmptyString => EmptyString
  | String c r => if Go.isDigit c then skipDigits r else s
  end.

Definition startsWithDigit (s : string) : bool :=
  match s with String c _ => Go.isDigit c | _ => false end.

Definition unsign (s : string) : string :=
  match s with
  | String c r => if Go.byteIs 43 c || Go.byteIs 45 c then r else s
  | _ => s
  end.

Definition exponentOk (s : string) : bool :=
  match s with
  | EmptyString => true
  | String c r =>
      (Go.byteIs 101 c || Go.byteIs 69 c)
      && startsWithDigit (unsign r)
      && String.eqb (skipDigits (unsign r)) ""
  end.

Definition decimalLiteral (s : string) : bool :=
  let m := unsign s in
  let afterInt := skipDigits m in
  match afterInt with
  | String c r =>
      if Go.byteIs 46 c then
        (startsWithDigit m || startsWithDigit r) && exponentOk (skipDigits r)
      else startsWithDigit m && exponentOk afterInt
  | EmptyString => startsWithDigit m
  end.

Fixpoint foldEq (s t : string) : bool :=
  match s, t with
  | EmptyString, EmptyString => true
  | String a s', String b t' =>
      Ascii.eqb (Go.lowerByte a) (Go.lowerByte b) && foldEq s' t'
  | _, _ => false
  end.

Definition runtime : GoRuntime :=
  {| ParseFloat64 := decimalLiteral; EqualFold := foldEq |}.

End RunAscii.

(* ================================================================== *)
(** * encoding/csv: the record reader                                   *)
(* ================================================================== *)

Module csv.

(** What the reader's scanner makes of the next record of the input: its
    fields, or a quoting error together with the fields read so far. *)
Inductive Line :=
  | Parsed (fields : list string)
  | Malformed (fields : list string).

Inductive ParseError := ErrFieldCount | ErrQuote.

(** [csv.Reader]: the unread input and the exported field
    [FieldsPerRecord].  [NewReader] leaves [FieldsPerRecord] at 0, and no
    draft of the converter assigns it. *)
Record Reader := {
  input : list Line;
  FieldsPerRecord : Z
}.

Definition NewReader (lines : list Line) : Reader :=
  {| input := lines; FieldsPerRecord := 0 |}.

(** The result of [Read]: [io.EOF], a record with a nil error, or a
    record with a [*ParseError]. *)
Inductive ReadResult :=
  | EOF
  | Record (record : list string)
  | Failed (record : list string) (err : ParseError).

(** The end of [Reader.readRecord].  The package documents the field:
    if FieldsPerRecord is positive, Read requires each record to have
    the given number of fields; if it is 0, Read sets it to the number
    of fields in the first record, so that future records must have the
    same field count; if it is negative, no check is made.  And [Read]:
    if the record has an unexpected number of fields, Read returns the
    record along with the error ErrFieldCount. *)
Definition readRecord (fpr : Z) (l : Line) : ReadResult * Z :=
  let fields := match l with Parsed fs | Malformed fs => fs end in
  let n := Z.of_nat (length fields) in
  let fpr' := if fpr =? 0 then n else fpr in
  match l with
  | Malformed fs => (Failed fs ErrQuote, fpr')
  | Parsed fs =>
      if (0 <? fpr) && negb (n =? fpr) then (Failed fs ErrFieldCount, fpr')
      else (Record fs, fpr')
  end.

Definition Read (r : Reader) : ReadResult * Reader :=
  match input r with
  | [] => (EOF, r)
  | l :: ls =>
      let '(res, fpr') := readRecord (FieldsPerRecord r) l in
      (res, {| input := ls; FieldsPerRecord := fpr' |})
  end.

End csv.

(** An open input file: the records the scanner finds in it, with and
    without [TrimLeadingSpace].  Every [csv.NewReader(file)] after
    [file.Seek(0, 0)] starts again from the first record. *)
Record File := {
  records : bool -> list csv.Line
}.

(* ================================================================== *)
(** * Results, errors and the log                                       *)
(* ================================================================== *)

Inductive error :=
  | ErrReadingHeader (e : option csv.ParseError)     (* None: io.EOF *)
  | ErrReadingFirstRow (e : option csv.ParseError)
  | ErrSkippingHeader (e : option csv.ParseError)
  | ErrReadingRecord (e : csv.ParseError)
  | ErrColumnCountMismatch (expected got : nat)
  | ErrReadingHeaders (e : error)
  | ErrDeterminingColumnTypes (e : error)
  | ErrGeneratingInsertStatements (e : error).

(** [Panic] is a run-time panic: an index out of range. *)
Inductive result (A : Type) :=
  | Ok (a : A)
  | Err (e : error)
  | Panic.
Arguments Ok {A} a.
Arguments Err {A} e.
Arguments Panic {A}.

(* ================================================================== *)
(** * Code shared verbatim by the three drafts                         *)
(* ================================================================== *)

Module Shared.

(** [isDate]: the string matches one of five anchored patterns. *)
Definition date_ymd : list Go.tok :=
  [Go.D; Go.D; Go.D; Go.D; Go.C "-"; Go.D; Go.D; Go.C "-"; Go.D; Go.D].
Definition date_mdy : list Go.tok :=
  [Go.D; Go.D; Go.C "/"; Go.D; Go.D; Go.C "/"; Go.D; Go.D; Go.D; Go.D].
Definition clock : list Go.tok :=
  [Go.D; Go.D; Go.C ":"; Go.D; Go.D; Go.C ":"; Go.D; Go.D].

Definition isDate (s : string) : bool :=
  Go.fullMatch date_ymd s
  || Go.fullMatch date_mdy s
  || Go.fullMatch (date_ymd ++ [Go.C " "] ++ clock) s
  || Go.fullMatch (date_mdy ++ [Go.C " "] ++ clock) s
  || Go.fullMatchOptZ (date_ymd ++ [Go.C "T"] ++ clock) s.

Definition isInteger (s : string) : bool := Go.ParseInt64 s.

Section WithRuntime.
Variable R : GoRuntime.

Definition isDecimal (s : string) : bool := ParseFloat64 R s.

(** The test [value == "" || strings.EqualFold(value, NullString)]. *)
Definition isNull (NullString value : string) : bool :=
  String.eqb value "" || EqualFold R value NullString.

(** The two [strings.ReplaceAll] calls of the serializer. *)
Definition escape (value : string) : string :=
  Go.ReplaceAllByte "\" "\\" (Go.ReplaceAllByte "'" "''" value).

(** The literal appended to [values] for one field of a column that is
    not skipped (generateInsertStatements, "Prepare values"). *)
Definition valueLiteral (NullString columnType value : string) : string :=
  let value := Go.TrimSpace value in
  if isNull NullString value then "NULL"
  else
    let escaped := escape value in
    if (String.eqb columnType "INT" || String.eqb columnType "DECIMAL(20,6)")
       && ParseFloat64 R value
    then escaped
    else "'" +:+ escaped +:+ "'".

(** The loop [for i, value := range record] building [values];
    [columnTypes[i]] panics when [columnTypes] is the shorter. *)
Fixpoint prepareValues (NullString : string) (record columnTypes : list string)
  : option (list string) :=
  match record, columnTypes with
  | [], _ => Some []
  | value :: record', t :: columnTypes' =>
      match prepareValues NullString record' columnTypes' with
      | None => None
      | Some values =>
          if String.eqb t "SKIP" then Some values
          else Some (valueLiteral NullString t value :: values)
      end
  | _ :: _, [] => None
  end.

End WithRuntime.

(** [formatInsertColumns]: the back-quoted names of the columns that are
    not skipped. *)
Fixpoint insertColumns (headers columnTypes : list string) : option (list string) :=
  match headers, columnTypes with
  | [], _ => Some []
  | h :: headers', t :: columnTypes' =>
      match insertColumns headers' columnTypes' with
      | None => None
      | Some cols =>
          if negb (String.eqb t "SKIP") then Some (("`" +:+ h +:+ "`") :: cols)
          else Some cols
      end
  | _ :: _, [] => None
  end.

Definition formatInsertColumns (headers columnTypes : list string) : option string :=
  match insertColumns headers columnTypes with
  | Some cols => Some (Go.Join cols ", ")
  | None => None
  end.

(** [formatBatchInsert]. *)
Definition formatBatchInsert (TableName : string) (headers columnTypes rows : list string)
  : option string :=
  match formatInsertColumns headers columnTypes with
  | Some cols =>
      Some ("INSERT INTO `" +:+ TableName +:+ "` (" +:+ cols +:+ ") VALUES" +:+ Go.nl
            +:+ Go.Join rows ("," +:+ Go.nl) +:+ ";" +:+ Go.nl)
  | None => None
  end.

(** The single-row statement of the non-batch branch. *)
Definition formatSingleInsert (TableName : string) (headers columnTypes values : list string)
  : option string :=
  match formatInsertColumns headers columnTypes with
  | Some cols =>
      Some ("INSERT INTO `" +:+ TableName +:+ "` (" +:+ cols +:+ ") VALUES ("
            +:+ Go.Join values ", " +:+ ");" +:+ Go.nl)
  | None => None
  end.

(** The column definitions of [generateCreateTable]. *)
Fixpoint columnDefs (headers columnTypes : list string) : option (list string) :=
  match headers, columnTypes with
  | [], _ => Some []
  | h :: headers', t :: columnTypes' =>
      match columnDefs headers' columnTypes' with
      | None => None
      | Some cols =>
          if String.eqb t "SKIP" then Some cols
          else Some (("  `" +:+ h +:+ "` " +:+ t) :: cols)
      end
  | _ :: _, [] => None
  end.

(** The PRIMARY KEY entry appended to [columns]. *)
Definition primaryKeyClause (PrimaryKeys : list string) : string :=
  "  PRIMARY KEY (" +:+ Go.Join (map (fun pk => "`" +:+ pk +:+ "`") PrimaryKeys) ", " +:+ ")".

Definition tableOptions : string :=
  Go.nl +:+ ") ENGINE=InnoDB DEFAULT CHARSET=utf8mb4 COLLATE=utf8mb4_unicode_ci;".

(** [generateCreateTable] from the line [CREATE TABLE] on. *)
Definition createTableBody (TableName : string) (PrimaryKeys headers columnTypes : list string)
  : option string :=
  match columnDefs headers columnTypes with
  | None => None
  | Some columns =>
      let columns :=
        if 0 <? Z.of_nat (length PrimaryKeys)
        then columns ++ [primaryKeyClause PrimaryKeys]
        else columns in
      Some ("CREATE TABLE `" +:+ TableName +:+ "` (" +:+ Go.nl
            +:+ Go.Join columns ("," +:+ Go.nl) +:+ tableOptions)
  end.

(** [headers[i] = fmt.Sprintf("column_%d", i+1)]. *)
Definition columnName (i : nat) : string := "column_" +:+ Go.itoa (Z.of_nat i + 1).

(** [sanitizeRegex.ReplaceAllString(s, "_")] for the pattern
    [[^a-zA-Z0-9_]+]: every maximal run of bytes outside the class
    becomes one underscore.  ([inRun] holds after a byte of a run.) *)
Fixpoint replaceRuns (inRun : bool) (s : string) : string :=
  match s with
  | EmptyString => EmptyString
  | String c r =>
      if Go.isWord c then String c (replaceRuns false r)
      else if inRun then replaceRuns true r
      else String "_" (replaceRuns true r)
  end.

(** [leadingRegex.MatchString(s)] for the pattern [^[^a-zA-Z_]]. *)
Definition leadingMatch (s : string) : bool :=
  match s with
  | EmptyString => false
  | String c _ => negb (Go.isLeading c)
  end.

(** [sanitizeColumnName] of part_001 and part_002. *)
Definition sanitizeColumnName (name : string) : string :=
  let name := replaceRuns false (Go.TrimSpace name) in
  let name := Go.TrimUnderscores name in
  let name := if leadingMatch name then "_" +:+ name else name in
  Go.ToLower name.

End Shared.

(* ================================================================== *)
(** * src/unnamed/part_002                                              *)
(* ================================================================== *)

Module Part002.

Record Config := {
  InputFile : string;
  TableName : string;
  Delimiter : ascii;
  HasHeader : bool;
  VarcharLength : Z;
  TextThreshold : Z;
  BatchInsert : bool;
  BatchSize : Z;
  NullString : string;
  ForceTypes : gmap string string;
  SkipColumns : gmap string bool;
  PrimaryKeys : list string;
  MaxSampleSize : Z
}.

Definition DefaultConfig : Config := {|
  InputFile := "";
  TableName := "";
  Delimiter := ",";
  HasHeader := true;
  VarcharLength := 255;
  TextThreshold := 500;
  BatchInsert := true;
  BatchSize := 100;
  NullString := "NULL";
  ForceTypes := ∅;
  SkipColumns := ∅;
  PrimaryKeys := [];
  MaxSampleSize := 1000
|}.

Definition sanitizeColumnName := Shared.sanitizeColumnName.

(** The loop of [readHeaders] over the raw header. *)
Fixpoint headerNames (i : nat) (rawHeaders : list string) : list string :=
  match rawHeaders with
  | [] => []
  | h :: rest =>
      let name := sanitizeColumnName h in
      (if String.eqb name "" then Shared.columnName i else name)
        :: headerNames (S i) rest
  end.

Fixpoint syntheticNames (i : nat) (firstRow : list string) : list string :=
  match firstRow with
  | [] => []
  | _ :: rest => Shared.columnName i :: syntheticNames (S i) rest
  end.

Definition readError (res : csv.ReadResult) : option csv.ParseError :=
  match res with csv.Failed _ e => Some e | _ => None end.

(** [readHeaders].  Without a header the first row is read from the
    caller's reader; the reader opened afterwards is assigned to the
    local variable only, so the caller's reader stays behind that row. *)
Definition readHeaders (c : Config) (reader : csv.Reader)
  : result (list string) * csv.Reader :=
  let '(res, reader') := csv.Read reader in
  match res with
  | csv.Record fields =>
      if HasHeader c then (Ok (headerNames 0 fields), reader')
      else (Ok (syntheticNames 0 fields), reader')
  | _ =>
      if HasHeader c then (Err (ErrReadingHeader (readError res)), reader')
      else (Err (ErrReadingFirstRow (readError res)), reader')
  end.

Section WithRuntime.
Variable R : GoRuntime.
Variable c : Config.

(** The value of [c.config.SkipColumns[h]]: false for a missing key. *)
Definition skipped (h : string) : bool := default false (SkipColumns c !! h).

Definition forced (h : string) : bool := bool_decide (is_Some (ForceTypes c !! h)).

(** The first loop of [determineColumnTypes]. *)
Definition initialType (h : string) : string :=
  match ForceTypes c !! h with
  | Some forcedType => forcedType
  | None => if skipped h then "SKIP" else "TEXT"
  end.

Definition initialTypes (headers : list string) : list string :=
  map initialType headers.

(** The second loop: every type starts with VARCHAR or is SKIP. *)
Definition allForced (columnTypes : list string) : bool :=
  forallb (fun t => negb (negb (Go.HasPrefix t "VARCHAR") && negb (String.eqb t "SKIP")))
          columnTypes.

Definition refineType (currentType value : string) : string :=
  if Shared.isInteger value then "BIGINT"
  else if Shared.isDecimal R value then "DECIMAL(20,6)"
  else if Shared.isDate value then
    if 10 <? Go.len value then "DATETIME" else "DATE"
  else
    let length := Go.len value in
    if TextThreshold c <? length then "TEXT"
    else if VarcharLength c <? length then
      "VARCHAR(" +:+ Go.itoa ((length `quot` 50 + 1) * 50) +:+ ")"
    else "VARCHAR(" +:+ Go.itoa (VarcharLength c) +:+ ")".

(** One iteration of [for i, value := range record]. *)
Definition refineField (header columnType value : string) : string :=
  if String.eqb columnType "SKIP" then columnType
  else if forced header then columnType
  else
    let value := Go.TrimSpace value in
    if Shared.isNull R (NullString c) value then columnType
    else refineType columnType value.

(** The loop over a record that has as many fields as there are
    headers; [columnTypes] was made with that length too. *)
Fixpoint refineRecord (headers columnTypes record : list string) : list string :=
  match headers, columnTypes, record with
  | h :: headers', t :: columnTypes', value :: record' =>
      refineField h t value :: refineRecord headers' columnTypes' record'
  | _, _, _ => columnTypes
  end.

Definition skipMessage (got expected : nat) : string :=
  "Skipping row with " +:+ Go.itoa (Z.of_nat got) +:+ " columns (expected "
  +:+ Go.itoa (Z.of_nat expected) +:+ ")".

(** The sampling loop; [log] collects the lines of [log.Printf]. *)
Fixpoint sample (headers : list string) (lines : list csv.Line) (fpr : Z)
    (columnTypes : list string) (sampleCount : Z) (log : list string)
  : result (list string) * list string :=
  match lines with
  | [] => (Ok columnTypes, log)
  | l :: lines' =>
      match csv.readRecord fpr l with
      | (csv.EOF, _) => (Ok columnTypes, log)
      | (csv.Failed _ e, _) => (Err (ErrReadingRecord e), log)
      | (csv.Record record, fpr') =>
          if negb (length record =? length headers)%nat then
            sample headers lines' fpr' columnTypes sampleCount
                   (log ++ [skipMessage (length record) (length headers)])
          else
            let columnTypes := refineRecord headers columnTypes record in
            let sampleCount := sampleCount + 1 in
            if MaxSampleSize c <=? sampleCount then (Ok columnTypes, log)
            else sample headers lines' fpr' columnTypes sampleCount log
      end
  end.

Definition determineColumnTypes (reader : csv.Reader) (headers : list string)
  : result (list string) * list string :=
  let columnTypes := initialTypes headers in
  if allForced columnTypes then (Ok columnTypes, [])
  else sample headers (csv.input reader) (csv.FieldsPerRecord reader) columnTypes 0 [].

Definition generateCreateTable (headers columnTypes : list string) : option string :=
  Shared.createTableBody (TableName c) (PrimaryKeys c) headers columnTypes.

Definition formatInsertColumns := Shared.formatInsertColumns.

Definition formatBatchInsert (headers columnTypes rows : list string) : option string :=
  Shared.formatBatchInsert (TableName c) headers columnTypes rows.

(** The row loop of [generateInsertStatements]: [sb] is the text
    written so far, [batchRows] the buffered tuples. *)
Fixpoint insertLoop (headers columnTypes : list string) (lines : list csv.Line)
    (fpr : Z) (sb : string) (batchRows : list string) : result string :=
  match lines with
  | [] =>
      if 0 <? Z.of_nat (length batchRows) then
        match formatBatchInsert headers columnTypes batchRows with
        | Some stmt => Ok (sb +:+ stmt)
        | None => Panic
        end
      else Ok sb
  | l :: lines' =>
      match csv.readRecord fpr l with
      | (csv.EOF, _) => Ok sb
      | (csv.Failed _ e, _) => Err (ErrReadingRecord e)
      | (csv.Record record, fpr') =>
          if negb (length record =? length headers)%nat then
            Err (ErrColumnCountMismatch (length headers) (length record))
          else
            match Shared.prepareValues R (NullString c) record columnTypes with
            | None => Panic
            | Some values =>
                if BatchInsert c then
                  let batchRows := batchRows ++ ["(" +:+ Go.Join values ", " +:+ ")"] in
                  if BatchSize c <=? Z.of_nat (length batchRows) then
                    match formatBatchInsert headers columnTypes batchRows with
                    | Some stmt => insertLoop headers columnTypes lines' fpr' (sb +:+ stmt) []
                    | None => Panic
                    end
                  else insertLoop headers columnTypes lines' fpr' sb batchRows
                else
                  match Shared.formatSingleInsert (TableName c) headers columnTypes values with
                  | Some stmt => insertLoop headers columnTypes lines' fpr' (sb +:+ stmt) batchRows
                  | None => Panic
                  end
            end
      end
  end.

(** [generateInsertStatements]: a fresh reader on the rewound file,
    without [TrimLeadingSpace]. *)
Definition generateInsertStatements (file : File) (headers columnTypes : list string)
  : result string :=
  let reader := csv.NewReader (records file false) in
  if HasHeader c then
    match csv.Read reader with
    | (csv.Record _, reader') =>
        insertLoop headers columnTypes (csv.input reader') (csv.FieldsPerRecord reader') "" []
    | (res, _) => Err (ErrSkippingHeader (readError res))
    end
  else insertLoop headers columnTypes (csv.input reader) (csv.FieldsPerRecord reader) "" [].

(** [Convert], from the opened file on.  The result carries the DDL and
    the DML text; the second component is the log. *)
Definition Convert (file : File) : result (string * string) * list string :=
  let reader := csv.NewReader (records file true) in
  match readHeaders c reader with
  | (Ok headers, reader) =>
      match determineColumnTypes reader headers with
      | (Ok columnTypes, log) =>
          match generateCreateTable headers columnTypes with
          | None => (Panic, log)
          | Some createTable =>
              match generateInsertStatements file headers columnTypes with
              | Ok inserts => (Ok (createTable, inserts), log)
              | Err e => (Err (ErrGeneratingInsertStatements e), log)
              | Panic => (Panic, log)
              end
          end
      | (Err e, log) => (Err (ErrDeterminingColumnTypes e), log)
      | (Panic, log) => (Panic, log)
      end
  | (Err e, _) => (Err (ErrReadingHeaders e), [])
  | (Panic, _) => (Panic, [])
  end.

End WithRuntime.

End Part002.

(* ================================================================== *)
(** * src/main.go                                                       *)
(* ================================================================== *)

Module MainGo.

Record Config := {
  InputFile : string;
  TableName : string;
  Delimiter : ascii;
  HasHeader : bool;
  VarcharLength : Z;
  TextThreshold : Z;
  BatchInsert : bool;
  BatchSize : Z;
  NullString : string;
  ForceTypes : gmap string string;
  SkipColumns : gmap string bool;
  PrimaryKeys : list string
}.

Definition DefaultConfig : Config := {|
  InputFile := "";
  TableName := "";
  Delimiter := ",";
  HasHeader := true;
  VarcharLength := 255;
  TextThreshold := 500;
  BatchInsert := true;
  BatchSize := 100;
  NullString := "NULL";
  ForceTypes := ∅;
  SkipColumns := ∅;
  PrimaryKeys := []
|}.

(** The rune loop of [sanitizeColumnName] on ASCII bytes: letters,
    digits and the underscore are kept, white space becomes an
    underscore, everything else is dropped.  A byte above 127 starts a
    rune whose class comes from the Unicode tables: [None]. *)
Fixpoint keepRunes (name : string) : option string :=
  match name with
  | EmptyString => Some EmptyString
  | String r rest =>
      if Go.byteIn 128 255 r then None
      else
        match keepRunes rest with
        | None => None
        | Some sb =>
            if Go.isLetter r || Go.isDigit r || Go.isUnderscore r then Some (String r sb)
            else if Go.space1 r then Some (String "_" sb)
            else Some sb
        end
  end.

Definition sanitizeColumnName (name : string) : option string :=
  match keepRunes (Go.TrimSpace name) with
  | None => None
  | Some result =>
      if String.eqb result "" then Some "column"
      else
        let result :=
          match result with
          | String r0 _ => if Go.isDigit r0 then "col_" +:+ result else result
          | EmptyString => result
          end in
        Some (Go.ToLower result)
  end.

Section WithRuntime.
Variable R : GoRuntime.
Variable c : Config.

Definition skipped (h : string) : bool := default false (SkipColumns c !! h).

Definition forced (h : string) : bool := bool_decide (is_Some (ForceTypes c !! h)).

Definition initialType (h : string) : string :=
  match ForceTypes c !! h with
  | Some forcedType => forcedType
  | None => if skipped h then "SKIP" else "VARCHAR(255)"
  end.

Definition initialTypes (headers : list string) : list string :=
  map initialType headers.

Definition allForced (columnTypes : list string) : bool :=
  forallb (fun t => negb (negb (Go.HasPrefix t "VARCHAR") && negb (String.eqb t "SKIP")))
          columnTypes.

(** [extractVarcharLength].  The slice [typeDef[start+1 : end]] panics
    when [end] is left of [start+1]: [None]. *)
Definition extractVarcharLength (typeDef : string) : option Z :=
  match Go.IndexByte "(" typeDef, Go.IndexByte ")" typeDef with
  | Some start, Some end_ =>
      if (end_ <? S start)%nat then None
      else
        match Go.Atoi (String.substring (S start) (end_ - S start) typeDef) with
        | Some length => Some length
        | None => Some (VarcharLength c)
        end
  | _, _ => Some (VarcharLength c)
  end.

(** [newLength := ((length / 50) + 1) * 50] and the choice that follows. *)
Definition widened (length : Z) : string :=
  let newLength := (length `quot` 50 + 1) * 50 in
  if 65535 <? newLength then "TEXT"
  else "VARCHAR(" +:+ Go.itoa newLength +:+ ")".

(** The body of the field loop of [determineColumnTypes] from
    [currentType := columnTypes[i]] on: the new value of
    [columnTypes[i]]. *)
Definition classify (currentType value : string) : option string :=
  if Go.ParseInt64 value then
    Some (if String.eqb currentType "VARCHAR(255)" then "INT" else currentType)
  else if ParseFloat64 R value then
    Some (if String.eqb currentType "VARCHAR(255)" || String.eqb currentType "INT"
          then "DECIMAL(20,6)" else currentType)
  else if Shared.isDate value then
    Some (if 10 <? Go.len value then "DATETIME" else "DATE")
  else
    let length := Go.len value in
    if String.eqb currentType "VARCHAR(255)" then
      if TextThreshold c <? length then Some "TEXT"
      else if VarcharLength c <? length then Some (widened length)
      else Some currentType
    else if Go.HasPrefix currentType "VARCHAR(" then
      match extractVarcharLength currentType with
      | None => None
      | Some capacity =>
          if capacity <? length then
            if TextThreshold c <? length then Some "TEXT" else Some (widened length)
          else Some currentType
      end
    else Some currentType.

Definition refineField (header columnType value : string) : option string :=
  if String.eqb columnType "SKIP" then Some columnType
  else if forced header then Some columnType
  else
    let value := Go.TrimSpace value in
    if Shared.isNull R (NullString c) value then Some columnType
    else classify columnType value.

Fixpoint refineRecord (headers columnTypes record : list string) : option (list string) :=
  match headers, columnTypes, record with
  | h :: headers', t :: columnTypes', value :: record' =>
      match refineField h t value with
      | None => None
      | Some t' =>
          match refineRecord headers' columnTypes' record' with
          | None => None
          | Some ts => Some (t' :: ts)
          end
      end
  | _, _, _ => Some columnTypes
  end.

Definition maxSampleSize : Z := 1000.

Fixpoint sample (headers : list string) (lines : list csv.Line) (fpr : Z)
    (columnTypes : list string) (sampleSize : Z) : result (list string) :=
  match lines with
  | [] => Ok columnTypes
  | l :: lines' =>
      match csv.readRecord fpr l with
      | (csv.EOF, _) => Ok columnTypes
      | (csv.Failed _ e, _) => Err (ErrReadingRecord e)
      | (csv.Record record, fpr') =>
          if negb (length record =? length headers)%nat then
            Err (ErrColumnCountMismatch (length headers) (length record))
          else
            match refineRecord headers columnTypes record with
            | None => Panic
            | Some columnTypes =>
                let sampleSize := sampleSize + 1 in
                if maxSampleSize <=? sampleSize then Ok columnTypes
                else sample headers lines' fpr' columnTypes sampleSize
            end
      end
  end.

(** [determineColumnTypes]; [reader] is the reader the loop reads from
    (when [firstRow] is not nil, the one made of that row and of the
    standard input). *)
Definition determineColumnTypes (reader : csv.Reader) (headers : list string)
  : result (list string) :=
  let columnTypes := initialTypes headers in
  if allForced columnTypes then Ok columnTypes
  else sample headers (csv.input reader) (csv.FieldsPerRecord reader) columnTypes 0.

End WithRuntime.

End MainGo.

(* ================================================================== *)
(** * src/unnamed/part_001, the converter                               *)
(* ================================================================== *)

Module Part001.

(** The options of [OptsT] the two functions below read, and the
    fields of [CSVToMySQLConverter]. *)
Record CSVToMySQLConverter := {
  TableName : string;
  PrimaryKeys : list string;
  NoHeader : bool;
  NoBatchInsert : bool;
  BatchSize : Z;
  NullString : string;
  ForceTypes : gmap string string;
  SkipColumns : gmap string bool
}.

Section WithRuntime.
Variable R : GoRuntime.
Variable c : CSVToMySQLConverter.

Definition generateCreateTable (headers columnTypes : list string) : option string :=
  match Shared.createTableBody (TableName c) (PrimaryKeys c) headers columnTypes with
  | Some body => Some ("-- DROP TABLE " +:+ TableName c +:+ ";" +:+ Go.nl +:+ body)
  | None => None
  end.

Definition formatBatchInsert (headers columnTypes rows : list string) : option string :=
  Shared.formatBatchInsert (TableName c) headers columnTypes rows.

Definition nullField (field : string) : bool :=
  Shared.isNull R (NullString c) (Go.TrimSpace field).

(** The block "Skip empty rows"; [record[0]] panics on a record
    without fields. *)
Definition emptyRow (record : list string) : option bool :=
  match record with
  | [] => None
  | f0 :: [] => Some (nullField f0)
  | f0 :: f1 :: _ => Some (nullField f0 && nullField f1)
  end.

(** The row loop of [generateInsertStatements].  The warnings go to
    the standard error and output streams, not to the returned text. *)
Fixpoint insertLoop (headers columnTypes : list string) (lines : list csv.Line)
    (fpr : Z) (sb : string) (batchRows : list string) : result string :=
  match lines with
  | [] =>
      if 0 <? Z.of_nat (length batchRows) then
        match formatBatchInsert headers columnTypes batchRows with
        | Some stmt => Ok (sb +:+ stmt)
        | None => Panic
        end
      else Ok sb
  | l :: lines' =>
      match csv.readRecord fpr l with
      | (csv.EOF, _) => Ok sb
      | (csv.Failed _ _, fpr') => insertLoop headers columnTypes lines' fpr' sb batchRows
      | (csv.Record record, fpr') =>
          if negb (length record =? length headers)%nat then
            insertLoop headers columnTypes lines' fpr' sb batchRows
          else
            match emptyRow record with
            | None => Panic
            | Some true => insertLoop headers columnTypes lines' fpr' sb batchRows
            | Some false =>
                match Shared.prepareValues R (NullString c) record columnTypes with
                | None => Panic
                | Some values =>
                    if negb (NoBatchInsert c) then
                      let batchRows := batchRows ++ ["(" +:+ Go.Join values ", " +:+ ")"] in
                      if BatchSize c <=? Z.of_nat (length batchRows) then
                        match formatBatchInsert headers columnTypes batchRows with
                        | Some stmt =>
                            insertLoop headers columnTypes lines' fpr' (sb +:+ stmt) []
                        | None => Panic
                        end
                      else insertLoop headers columnTypes lines' fpr' sb batchRows
                    else
                      match Shared.formatSingleInsert (TableName c) headers columnTypes values with
                      | Some stmt =>
                          insertLoop headers columnTypes lines' fpr' (sb +:+ stmt) batchRows
                      | None => Panic
                      end
                end
            end
      end
  end.

(** [generateInsertStatements]: the header, when there is one, is read
    and its error ignored. *)
Definition generateInsertStatements (file : File) (headers columnTypes : list string)
  : result string :=
  let reader := csv.NewReader (records file false) in
  let reader := if negb (NoHeader c) then snd (csv.Read reader) else reader in
  insertLoop headers columnTypes (csv.input reader) (csv.FieldsPerRecord reader) "" [].

End WithRuntime.

End Part001.

(* ================================================================== *)
(** * Definitions used to state the properties                          *)
(* ================================================================== *)

Module Spec.

Definition nonSkip (t : string) : bool := negb (String.eqb t "SKIP").

(** The columns that are not skipped, each with its header, its type and
    its field of [record], in header order. *)
Definition keptColumns (headers columnTypes record : list string)
  : list (string * (string * string)) :=
  List.filter (fun x => nonSkip (fst (snd x))) (zip headers (zip columnTypes record)).

Definition columnDef (x : string * (string * string)) : string :=
  "  `" +:+ fst x +:+ "` " +:+ fst (snd x).

Definition quotedName (x : string * (string * string)) : string :=
  "`" +:+ fst x +:+ "`".

Definition literalOf (R : GoRuntime) (NullString : string)
    (x : string * (string * string)) : string :=
  Shared.valueLiteral R NullString (fst (snd x)) (snd (snd x)).

(** The value tuple of a record, as text. *)
Definition tupleOf (R : GoRuntime) (NullString : string)
    (headers columnTypes record : list string) : string :=
  "(" +:+ Go.Join (map (literalOf R NullString)
                       (keptColumns headers columnTypes record)) ", " +:+ ")".

(** The text of the batch statement and of the single-row statement for
    given tuples. *)
Definition batchStatement (TableName : string) (headers columnTypes : list string)
    (rows : list string) : string :=
  "INSERT INTO `" +:+ TableName +:+ "` ("
  +:+ Go.Join (map quotedName (keptColumns headers columnTypes headers)) ", "
  +:+ ") VALUES" +:+ Go.nl +:+ Go.Join rows ("," +:+ Go.nl) +:+ ";" +:+ Go.nl.

Definition singleStatement (TableName : string) (headers columnTypes : list string)
    (tuple : string) : string :=
  "INSERT INTO `" +:+ TableName +:+ "` ("
  +:+ Go.Join (map quotedName (keptColumns headers columnTypes headers)) ", "
  +:+ ") VALUES " +:+ tuple +:+ ";" +:+ Go.nl.

(** Grouping of the tuples by a buffer flushed when it holds [n]
    entries; [buf] is what the buffer holds at the start. *)
Fixpoint chunksFrom (n : Z) (buf rows : list string) : list (list string) :=
  match rows with
  | [] => match buf with [] => [] | _ => [buf] end
  | row :: rows' =>
      let buf := buf ++ [row] in
      if n <=? Z.of_nat (length buf) then buf :: chunksFrom n [] rows'
      else chunksFrom n buf rows'
  end.

Fixpoint concatText (l : list string) : string :=
  match l with
  | [] => ""
  | s :: l' => s +:+ concatText l'
  end.

(** What the two replacements of the serializer do to one byte. *)
Definition escapeByte (b : ascii) : string :=
  if Ascii.eqb b "'" then "''"
  else if Ascii.eqb b "\" then "\\"
  else String b EmptyString.

Fixpoint escapeBytes (s : string) : string :=
  match s with
  | EmptyString => EmptyString
  | String b r => escapeByte b +:+ escapeBytes r
  end.

(** A column whose type the sampling loop leaves alone: its type is
    forced, or it is SKIP. *)
Definition pinned (ForceTypes : gmap string string) (h t : string) : Prop :=
  is_Some (ForceTypes !! h) \/ t = "SKIP".

(** The states of [FieldsPerRecord] in which a reader accepts records
    with as many fields as there are headers: not set yet, or set to
    that number. *)
Definition fprOk (headers : list string) (fpr : Z) : Prop :=
  fpr = 0 \/ fpr = Z.of_nat (length headers).

(** A field that the serializer writes as NULL. *)
Definition nullField (R : GoRuntime) (NullString field : string) : bool :=
  Shared.isNull R NullString (Go.TrimSpace field).

(** ** The identifier sanitizer, in words *)

(** Every byte outside [a-zA-Z0-9_] replaced by an underscore, one for
    one. *)
Fixpoint replaceEach (s : string) : string :=
  match s with
  | EmptyString => EmptyString
  | String c r => String (if Go.isWord c then c else "_"%char) (replaceEach r)
  end.

(** The sanitizer with the one-for-one replacement. *)
Definition sanitizeEach (name : string) : string :=
  let name := replaceEach (Go.TrimSpace name) in
  let name := Go.TrimUnderscores name in
  let name := if Shared.leadingMatch name then "_" +:+ name else name in
  Go.ToLower name.

(** Every maximal run of bytes outside [a-zA-Z0-9_] replaced by one
    underscore: mark the bytes ([None] for a byte outside the class),
    drop a mark that follows a mark, write the marks as underscores. *)
Fixpoint marks (s : string) : list (option ascii) :=
  match s with
  | EmptyString => []
  | String c r => (if Go.isWord c then Some c else None) :: marks r
  end.

Fixpoint squeeze (l : list (option ascii)) : list (option ascii) :=
  match l with
  | None :: ((None :: _) as l') => squeeze l'
  | x :: l' => x :: squeeze l'
  | [] => []
  end.

Fixpoint render (l : list (option ascii)) : string :=
  match l with
  | [] => EmptyString
  | Some c :: l' => String c (render l')
  | None :: l' => String "_" (render l')
  end.

Definition replaceRunsSpec (s : string) : string := render (squeeze (marks s)).

(** No two neighbouring bytes are both outside [a-zA-Z0-9_]. *)
Fixpoint noAdjacent (s : string) : bool :=
  match s with
  | String c1 ((String c2 _) as r) =>
      negb (negb (Go.isWord c1) && negb (Go.isWord c2)) && noAdjacent r
  | _ => true
  end.

(** Every byte of the string is in the class. *)
Fixpoint allBytes (p : ascii -> bool) (s : string) : bool :=
  match s with
  | EmptyString => true
  | String c r => p c && allBytes p r
  end.

(** The class [a-z0-9_]. *)
Definition isLowerWord (c : ascii) : bool :=
  Go.isLower c || Go.isDigit c || Go.isUnderscore c.

(** The string is empty or starts with a byte of [a-zA-Z0-9_]. *)
Definition startsWord (s : string) : bool :=
  match s with
  | EmptyString => true
  | String c _ => Go.isWord c
  end.

(** [n] copies of a byte. *)
Fixpoint repeatByte (n : nat) (b : ascii) : string :=
  match n with
  | O => EmptyString
  | S n' => String b (repeatByte n' b)
  end.

(** A file whose records all parse, the same with and without
    [TrimLeadingSpace]. *)
Definition fileOf (rows : list (list string)) : File :=
  {| records := fun _ => map csv.Parsed rows |}.

End Spec.

(** Configurations and inputs of the examples. *)
Module Ex.

Definition config (table : string) : Part002.Config := {|
  Part002.InputFile := "input.csv";
  Part002.TableName := table;
  Part002.Delimiter := ",";
  Part002.HasHeader := true;
  Part002.VarcharLength := 255;
  Part002.TextThreshold := 500;
  Part002.BatchInsert := true;
  Part002.BatchSize := 100;
  Part002.NullString := "NULL";
  Part002.ForceTypes := ∅;
  Part002.SkipColumns := ∅;
  Part002.PrimaryKeys := [];
  Part002.MaxSampleSize := 1000
|}.

(** The example configuration of [main]: forced types, a skipped column
    and a primary key. *)
Definition mainConfig : Part002.Config := {|
  Part002.InputFile := "input.csv";
  Part002.TableName := "my_table";
  Part002.Delimiter := ",";
  Part002.HasHeader := true;
  Part002.VarcharLength := 255;
  Part002.TextThreshold := 500;
  Part002.BatchInsert := true;
  Part002.BatchSize := 100;
  Part002.NullString := "NULL";
  Part002.ForceTypes :=
    <["id" := "INT AUTO_INCREMENT"]>
      (<["price" := "DECIMAL(10,2)"]> (<["description" := "TEXT"]> ∅));
  Part002.SkipColumns := <["internal_code" := true]> ∅;
  Part002.PrimaryKeys := ["id"];
  Part002.MaxSampleSize := 1000
|}.

(** A large TEXT threshold, so that long values stay VARCHAR. *)
Definition wideConfig : Part002.Config := {|
  Part002.InputFile := "input.csv";
  Part002.TableName := "t";
  Part002.Delimiter := ",";
  Part002.HasHeader := true;
  Part002.VarcharLength := 255;
  Part002.TextThreshold := 70000;
  Part002.BatchInsert := true;
  Part002.BatchSize := 100;
  Part002.NullString := "NULL";
  Part002.ForceTypes := ∅;
  Part002.SkipColumns := ∅;
  Part002.PrimaryKeys := [];
  Part002.MaxSampleSize := 1000
|}.

Definition converter (table : string) (pks : list string) : Part001.CSVToMySQLConverter := {|
  Part001.TableName := table;
  Part001.PrimaryKeys := pks;
  Part001.NoHeader := false;
  Part001.NoBatchInsert := false;
  Part001.BatchSize := 100;
  Part001.NullString := "NULL";
  Part001.ForceTypes := ∅;
  Part001.SkipColumns := ∅
|}.

(** A configuration whose primary key names a skipped column and a
    column that is in no header. *)
Definition ghostKeyConfig : Part002.Config := {|
  Part002.InputFile := "input.csv";
  Part002.TableName := "t";
  Part002.Delimiter := ",";
  Part002.HasHeader := true;
  Part002.VarcharLength := 255;
  Part002.TextThreshold := 500;
  Part002.BatchInsert := true;
  Part002.BatchSize := 100;
  Part002.NullString := "NULL";
  Part002.ForceTypes := ∅;
  Part002.SkipColumns := <["id" := true]> ∅;
  Part002.PrimaryKeys := ["id"; "ghost"];
  Part002.MaxSampleSize := 1000
|}.

(** A value of 300 bytes and one of 65500 bytes, neither a number nor
    a date. *)
Definition text300 : string := Spec.repeatByte (Z.to_nat 300) "x".
Definition text65500 : string := Spec.repeatByte (Z.to_nat 65500) "x".

End Ex.

(* ================================================================== *)
(** * More of the drafts                                                *)
(* ================================================================== *)

(** [escapeSQLValue] of part_001 and part_002 (the same text in both;
    no function of either draft calls it). *)
Module Helpers.

Definition escapeSQLValue (R : GoRuntime) (value : string) : string :=
  let trimmed := Go.TrimSpace value in
  if String.eqb trimmed "" || EqualFold R trimmed "NULL" then "NULL"
  else
    let escaped := Go.ReplaceAllByte "'" "''" trimmed in
    let escaped := Go.ReplaceAllByte "\" "\\" escaped in
    "'" +:+ escaped +:+ "'".

End Helpers.

(** Notions used to state what type sampling computes. *)
Module Sampling.

(** The number of rows the sampling loop of part_002 reads at most: the
    counter is compared with [MaxSampleSize] after the row is used, so
    one row is read even for a limit below 1. *)
Definition sampleSize (MaxSampleSize : Z) : nat := Z.to_nat (Z.max 1 MaxSampleSize).

(** The field of a record in column [i]. *)
Definition field (i : nat) (record : list string) : string := nth i record "".

(** The type of one column after its fields have been seen in order. *)
Definition columnType (R : GoRuntime) (c : Part002.Config) (h : string)
    (fields : list string) : string :=
  fold_left (Part002.refineField R c h) fields (Part002.initialType c h).

(** The last field of a column that is not NULL, trimmed. *)
Definition lastValue (R : GoRuntime) (NullString : string) (fields : list string)
  : option string :=
  fold_left (fun acc v => if Spec.nullField R NullString v then acc
                          else Some (Go.TrimSpace v))
            fields None.

(** A line the reader hands over with a nil error once the header of
    [n] fields has been read. *)
Definition accepted (n : nat) (l : csv.Line) : bool :=
  match l with
  | csv.Parsed fields => (length fields =? n)%nat
  | csv.Malformed _ => false
  end.

(** The inverse of the serializer's escaping: a doubled quote or
    backslash is read as one. *)
Fixpoint unescape (s : string) : string :=
  match s with
  | EmptyString => EmptyString
  | String a r =>
      match r with
      | String b r' =>
          if (Ascii.eqb a "'" && Ascii.eqb b "'") || (Ascii.eqb a "\" && Ascii.eqb b "\")
          then String a (unescape r')
          else String a (unescape r)
      | EmptyString => String a EmptyString
      end
  end.

End Sampling.

(* ================================================================== *)
(** * src/unnamed/part_001: headers, type sampling and Convert          *)
(* ================================================================== *)

Module Part001Types.

(** The options of [OptsT] that [Convert], [determineColumnTypes] and
    [refineType] read besides those of [Part001.CSVToMySQLConverter]. *)
Record OptsT := {
  Delimiter : string;
  VarcharLength : Z;
  TextThreshold : Z;
  MaxSampleSize : Z
}.

(** What the sampling loop prints: the warning for a record the reader
    returned with an error, and the line of [log.Printf] for a record of
    another length than the header. *)
Inductive warning :=
  | ReadWarning (err : csv.ParseError) (record : list string)
  | SkippedRow (got expected : nat).

(** [readHeaders]: the text of part_002's, with [!c.NoHeader] for
    [c.config.HasHeader]. *)
Definition readHeaders (c : Part001.CSVToMySQLConverter) (reader : csv.Reader)
  : result (list string) * csv.Reader :=
  let '(res, reader') := csv.Read reader in
  match res with
  | csv.Record fields =>
      if negb (Part001.NoHeader c) then (Ok (Part002.headerNames 0 fields), reader')
      else (Ok (Part002.syntheticNames 0 fields), reader')
  | _ =>
      if negb (Part001.NoHeader c)
      then (Err (ErrReadingHeader (Part002.readError res)), reader')
      else (Err (ErrReadingFirstRow (Part002.readError res)), reader')
  end.

Section WithRuntime.
Variable R : GoRuntime.
Variable c : Part001.CSVToMySQLConverter.
Variable o : OptsT.

Definition skipped (h : string) : bool := default false (Part001.SkipColumns c !! h).

Definition forced (h : string) : bool :=
  bool_decide (is_Some (Part001.ForceTypes c !! h)).

Definition initialType (h : string) : string :=
  match Part001.ForceTypes c !! h with
  | Some forcedType => forcedType
  | None => if skipped h then "SKIP" else "TEXT"
  end.

Definition initialTypes (headers : list string) : list string :=
  map initialType headers.

Definition allForced (columnTypes : list string) : bool :=
  forallb (fun t => negb (negb (Go.HasPrefix t "VARCHAR") && negb (String.eqb t "SKIP")))
          columnTypes.

Definition refineType (currentType value : string) : string :=
  if Shared.isInteger value then "BIGINT"
  else if Shared.isDecimal R value then "DECIMAL(20,6)"
  else if Shared.isDate value then
    if 10 <? Go.len value then "DATETIME" else "DATE"
  else
    let length := Go.len value in
    if TextThreshold o <? length then "TEXT"
    else if VarcharLength o <? length then
      "VARCHAR(" +:+ Go.itoa ((length `quot` 50 + 1) * 50) +:+ ")"
    else "VARCHAR(" +:+ Go.itoa (VarcharLength o) +:+ ")".

Definition refineField (header columnType value : string) : string :=
  if String.eqb columnType "SKIP" then columnType
  else if forced header then columnType
  else
    let value := Go.TrimSpace value in
    if Shared.isNull R (Part001.NullString c) value then columnType
    else refineType columnType value.

Fixpoint refineRecord (headers columnTypes record : list string) : list string :=
  match headers, columnTypes, record with
  | h :: headers', t :: columnTypes', value :: record' =>
      refineField h t value :: refineRecord headers' columnTypes' record'
  | _, _, _ => columnTypes
  end.

(** The sampling loop: a record returned with an error is reported and
    skipped, and so is one of another length than the header; neither
    counts as a sample. *)
Fixpoint sample (headers : list string) (lines : list csv.Line) (fpr : Z)
    (columnTypes : list string) (sampleCount : Z) (warnings : list warning)
  : list string * list warning :=
  match lines with
  | [] => (columnTypes, warnings)
  | l :: lines' =>
      match csv.readRecord fpr l with
      | (csv.EOF, _) => (columnTypes, warnings)
      | (csv.Failed record e, fpr') =>
          sample headers lines' fpr' columnTypes sampleCount
                 (warnings ++ [ReadWarning e record])
      | (csv.Record record, fpr') =>
          if negb (length record =? length headers)%nat then
            sample headers lines' fpr' columnTypes sampleCount
                   (warnings ++ [SkippedRow (length record) (length headers)])
          else
            let columnTypes := refineRecord headers columnTypes record in
            let sampleCount := sampleCount + 1 in
            if MaxSampleSize o <=? sampleCount then (columnTypes, warnings)
            else sample headers lines' fpr' columnTypes sampleCount warnings
      end
  end.

(** [determineColumnTypes]; the error it returns is always nil. *)
Definition determineColumnTypes (reader : csv.Reader) (headers : list string)
  : list string * list warning :=
  let columnTypes := initialTypes headers in
  if allForced columnTypes then (columnTypes, [])
  else sample headers (csv.input reader) (csv.FieldsPerRecord reader) columnTypes 0 [].

(** [Convert], from the opened file on.  [strings.TrimSpace(c.Delimiter)[0]]
    panics for a delimiter that is empty or blank.  The second component
    holds the warnings of the sampling pass. *)
Definition Convert (file : File) : result (string * string) * list warning :=
  if String.eqb (Go.TrimSpace (Delimiter o)) "" then (Panic, [])
  else
    let reader := csv.NewReader (records file true) in
    match readHeaders c reader with
    | (Ok headers, reader) =>
        let '(columnTypes, warnings) := determineColumnTypes reader headers in
        match Part001.generateCreateTable c headers columnTypes with
        | None => (Panic, warnings)
        | Some createTable =>
            match Part001.generateInsertStatements R c file headers columnTypes with
            | Ok inserts => (Ok (createTable, inserts), warnings)
            | Err e => (Err (ErrGeneratingInsertStatements e), warnings)
            | Panic => (Panic, warnings)
            end
        end
    | (Err e, _) => (Err (ErrReadingHeaders e), [])
    | (Panic, _) => (Panic, [])
    end.

(** The configuration of part_002 with the same settings. *)
Definition asConfig : Part002.Config := {|
  Part002.InputFile := "";
  Part002.TableName := Part001.TableName c;
  Part002.Delimiter := ",";
  Part002.HasHeader := negb (Part001.NoHeader c);
  Part002.VarcharLength := VarcharLength o;
  Part002.TextThreshold := TextThreshold o;
  Part002.BatchInsert := negb (Part001.NoBatchInsert c);
  Part002.BatchSize := Part001.BatchSize c;
  Part002.NullString := Part001.NullString c;
  Part002.ForceTypes := Part001.ForceTypes c;
  Part002.SkipColumns := Part001.SkipColumns c;
  Part002.PrimaryKeys := Part001.PrimaryKeys c;
  Part002.MaxSampleSize := MaxSampleSize o
|}.

(** The records the serializer of part_001 writes: those the reader
    accepts after a header of [n] fields, but for the rows it takes for
    empty. *)
Fixpoint writtenRows (n : nat) (lines : list csv.Line) : list (list string) :=
  match lines with
  | [] => []
  | l :: lines' =>
      match l with
      | csv.Parsed record =>
          if (length record =? n)%nat
             && negb (default false (Part001.emptyRow R c record))
          then record :: writtenRows n lines'
          else writtenRows n lines'
      | csv.Malformed _ => writtenRows n lines'
      end
  end.

End WithRuntime.

End Part001Types.

(** Options of the examples for part_001. *)
Module Ex001.

Definition opts : Part001Types.OptsT := {|
  Part001Types.Delimiter := ",";
  Part001Types.VarcharLength := 255;
  Part001Types.TextThreshold := 500;
  Part001Types.MaxSampleSize := 1000
|}.

Definition file : File :=
  {| records := fun _ =>
       [csv.Parsed ["id"; "v"]; csv.Parsed ["1"; "a"]; csv.Malformed ["x"];
        csv.Parsed ["2"]; csv.Parsed ["3"; "2024-01-02"]] |}.

End Ex001.

(* ================================================================== *)
(** * Properties                                                        *)
(* ================================================================== *)

(** ** Strings *)

Lemma append_cons (x : ascii) (a b : string) : String x a +:+ b = String x (a +:+ b).
Proof. reflexivity. Qed.

Lemma append_nil_l (a : string) : "" +:+ a = a.
Proof. reflexivity. Qed.

Lemma append_assoc (a b c : string) : (a +:+ b) +:+ c = a +:+ (b +:+ c).
Proof.
  induction a as [|x a IH]; [reflexivity|].
  now rewrite !append_cons, IH.
Qed.

Lemma append_nil_r (a : string) : a +:+ "" = a.
Proof.
  induction a as [|x a IH]; [reflexivity|].
  now rewrite append_cons, IH.
Qed.

(** ** Skipped columns (C8) and the PRIMARY KEY clause (C10) *)

Lemma filter_sublist {A : Type} (p : A -> bool) (l : list A) :
  sublist (List.filter p l) l.
Proof.
  induction l as [|x l IH]; simpl; [constructor|].
  destruct (p x); now constructor.
Qed.

Lemma keptColumns_cons (h t v : string) (headers columnTypes record : list string) :
  Spec.keptColumns (h :: headers) (t :: columnTypes) (v :: record)
  = if Spec.nonSkip t
    then (h, (t, v)) :: Spec.keptColumns headers columnTypes record
    else Spec.keptColumns headers columnTypes record.
Proof. reflexivity. Qed.

Section Columns.
Variable R : GoRuntime.
Variable NullString : string.

Lemma columnDefs_kept (headers columnTypes record : list string) :
  length columnTypes = length headers ->
  length record = length headers ->
  Shared.columnDefs headers columnTypes
  = Some (map Spec.columnDef (Spec.keptColumns headers columnTypes record)).
Proof.
  revert columnTypes record.
  induction headers as [|h headers IH]; intros [|t ts] [|v vs] Ht Hv;
    try discriminate; [reflexivity|].
  cbn [Shared.columnDefs]. rewrite keptColumns_cons.
  rewrite (IH ts vs) by (simpl in *; congruence).
  unfold Spec.nonSkip. destruct (String.eqb t "SKIP"); reflexivity.
Qed.

Lemma insertColumns_kept (headers columnTypes record : list string) :
  length columnTypes = length headers ->
  length record = length headers ->
  Shared.insertColumns headers columnTypes
  = Some (map Spec.quotedName (Spec.keptColumns headers columnTypes record)).
Proof.
  revert columnTypes record.
  induction headers as [|h headers IH]; intros [|t ts] [|v vs] Ht Hv;
    try discriminate; [reflexivity|].
  cbn [Shared.insertColumns]. rewrite keptColumns_cons.
  rewrite (IH ts vs) by (simpl in *; congruence).
  unfold Spec.nonSkip. destruct (String.eqb t "SKIP"); reflexivity.
Qed.

Lemma prepareValues_kept (headers columnTypes record : list string) :
  length columnTypes = length headers ->
  length record = length headers ->
  Shared.prepareValues R NullString record columnTypes
  = Some (map (Spec.literalOf R NullString)
              (Spec.keptColumns headers columnTypes record)).
Proof.
  revert columnTypes record.
  induction headers as [|h headers IH]; intros [|t ts] [|v vs] Ht Hv;
    try discriminate; [reflexivity|].
  cbn [Shared.prepareValues]. rewrite keptColumns_cons.
  rewrite (IH ts vs) by (simpl in *; congruence).
  unfold Spec.nonSkip. destruct (String.eqb t "SKIP"); reflexivity.
Qed.

Lemma keptColumns_nonSkip (headers columnTypes record : list string) :
  Forall (fun x => fst (snd x) <> "SKIP") (Spec.keptColumns headers columnTypes record).
Proof.
  unfold Spec.keptColumns. apply List.Forall_forall. intros x Hx.
  apply List.filter_In in Hx as [_ Hx]. unfold Spec.nonSkip in Hx.
  apply negb_true_iff, String.eqb_neq in Hx. exact Hx.
Qed.

End Columns.

(** C8. A column whose type is SKIP has no column definition in CREATE
    TABLE, no name in the INSERT column list and no literal in a value
    tuple: with equally long headers, types and record, the three lists
    are the images of one list, the columns whose type is not SKIP in
    header order, so they stay aligned position by position. *)
Theorem C8_skip_columns_absent_and_aligned
    (R : GoRuntime) (c : Part002.Config) (headers columnTypes record : list string) :
  length columnTypes = length headers ->
  length record = length headers ->
  let kept := Spec.keptColumns headers columnTypes record in
  Forall (fun x => fst (snd x) <> "SKIP") kept
  /\ sublist kept (zip headers (zip columnTypes record))
  /\ Shared.columnDefs headers columnTypes = Some (map Spec.columnDef kept)
  /\ Part002.formatInsertColumns headers columnTypes
     = Some (Go.Join (map Spec.quotedName kept) ", ")
  /\ Shared.prepareValues R (Part002.NullString c) record columnTypes
     = Some (map (Spec.literalOf R (Part002.NullString c)) kept)
  /\ Part002.generateCreateTable c headers columnTypes
     = Some ("CREATE TABLE `" +:+ Part002.TableName c +:+ "` (" +:+ Go.nl
             +:+ Go.Join (map Spec.columnDef kept
                          ++ (if 0 <? Z.of_nat (length (Part002.PrimaryKeys c))
                              then [Shared.primaryKeyClause (Part002.PrimaryKeys c)]
                              else []))
                         ("," +:+ Go.nl)
             +:+ Shared.tableOptions).
Proof.
  intros Ht Hr kept. subst kept.
  split; [apply keptColumns_nonSkip|].
  split; [apply filter_sublist|].
  split; [apply columnDefs_kept; assumption|].
  split.
  { unfold Part002.formatInsertColumns, Shared.formatInsertColumns.
    now rewrite (insertColumns_kept headers columnTypes record Ht Hr). }
  split; [apply prepareValues_kept; assumption|].
  unfold Part002.generateCreateTable, Shared.createTableBody.
  rewrite (columnDefs_kept headers columnTypes record Ht Hr).
  destruct (0 <? Z.of_nat (length (Part002.PrimaryKeys c))).
  - reflexivity.
  - now rewrite app_nil_r.
Qed.

Lemma C8_witness :
  let kept := [("id", ("BIGINT", "1")); ("name", ("VARCHAR(255)", "Bob"))] in
  Forall (fun x => fst (snd x) <> "SKIP") kept
  /\ sublist kept (zip ["id"; "internal_code"; "name"]
                       (zip ["BIGINT"; "SKIP"; "VARCHAR(255)"] ["1"; "x"; "Bob"]))
  /\ Shared.columnDefs ["id"; "internal_code"; "name"] ["BIGINT"; "SKIP"; "VARCHAR(255)"]
     = Some ["  `id` BIGINT"; "  `name` VARCHAR(255)"]
  /\ Part002.formatInsertColumns ["id"; "internal_code"; "name"]
       ["BIGINT"; "SKIP"; "VARCHAR(255)"]
     = Some "`id`, `name`"
  /\ Shared.prepareValues RunAscii.runtime "NULL" ["1"; "x"; "Bob"]
       ["BIGINT"; "SKIP"; "VARCHAR(255)"]
     = Some ["'1'"; "'Bob'"]
  /\ Part002.generateCreateTable Ex.mainConfig ["id"; "internal_code"; "name"]
       ["BIGINT"; "SKIP"; "VARCHAR(255)"]
     = Some ("CREATE TABLE `my_table` (" +:+ Go.nl
             +:+ Go.Join ["  `id` BIGINT"; "  `name` VARCHAR(255)"; "  PRIMARY KEY (`id`)"]
                         ("," +:+ Go.nl)
             +:+ Shared.tableOptions).
Proof.
  exact (C8_skip_columns_absent_and_aligned RunAscii.runtime Ex.mainConfig
           ["id"; "internal_code"; "name"] ["BIGINT"; "SKIP"; "VARCHAR(255)"]
           ["1"; "x"; "Bob"] eq_refl eq_refl).
Defined.

(** ** The value literals of the serializer (C1) *)

Lemma ReplaceAllByte_app (old : ascii) (new a b : string) :
  Go.ReplaceAllByte old new (a +:+ b)
  = Go.ReplaceAllByte old new a +:+ Go.ReplaceAllByte old new b.
Proof.
  induction a as [|x a IH]; [reflexivity|].
  rewrite append_cons. cbn [Go.ReplaceAllByte].
  destruct (Ascii.eqb x old).
  - now rewrite IH, append_assoc.
  - now rewrite IH, append_cons.
Qed.

(** The serializer doubles every single quote and every backslash and
    leaves every other byte as it is. *)
Lemma escape_bytewise (R : GoRuntime) (value : string) :
  Shared.escape value = Spec.escapeBytes value.
Proof.
  unfold Shared.escape.
  induction value as [|b r IH]; [reflexivity|].
  cbn [Go.ReplaceAllByte Spec.escapeBytes]. unfold Spec.escapeByte.
  destruct (Ascii.eqb b "'") eqn:Hq.
  - rewrite ReplaceAllByte_app, IH. reflexivity.
  - cbn [Go.ReplaceAllByte]. destruct (Ascii.eqb b "\") eqn:Hb.
    + now rewrite IH.
    + now rewrite IH.
Qed.

(** The literal of a field that is not NULL: unquoted exactly for the
    types INT and DECIMAL(20,6) with a value that parses as a float. *)
Lemma valueLiteral_not_null (R : GoRuntime) (NullString columnType value : string) :
  Shared.isNull R NullString (Go.TrimSpace value) = false ->
  Shared.valueLiteral R NullString columnType value
  = if (String.eqb columnType "INT" || String.eqb columnType "DECIMAL(20,6)")
       && ParseFloat64 R (Go.TrimSpace value)
    then Spec.escapeBytes (Go.TrimSpace value)
    else "'" +:+ Spec.escapeBytes (Go.TrimSpace value) +:+ "'".
Proof.
  intros Hnull. unfold Shared.valueLiteral. rewrite Hnull.
  now rewrite (escape_bytewise R).
Qed.

Lemma valueLiteral_null (R : GoRuntime) (NullString columnType value : string) :
  Shared.isNull R NullString (Go.TrimSpace value) = true ->
  Shared.valueLiteral R NullString columnType value = "NULL".
Proof. intros Hnull. unfold Shared.valueLiteral. now rewrite Hnull. Qed.

(** C1. The serializer leaves a value unquoted only in a column of type
    INT or DECIMAL(20,6).  In a BIGINT column, the type [refineType]
    gives to integers, every value that is not NULL is written between
    single quotes, also one that parses as a number: the file with the
    header [id] and the row [42] yields the type BIGINT and the tuple
    ('42'). *)
Theorem C1_bigint_value_is_quoted :
  (forall (R : GoRuntime) (NullString value : string),
      Shared.valueLiteral R NullString "BIGINT" value
      = if Shared.isNull R NullString (Go.TrimSpace value) then "NULL"
        else "'" +:+ Shared.escape (Go.TrimSpace value) +:+ "'")
  /\ Part002.refineType RunAscii.runtime (Ex.config "t") "TEXT" "42" = "BIGINT"
  /\ ParseFloat64 RunAscii.runtime "42" = true
  /\ Shared.valueLiteral RunAscii.runtime "NULL" "BIGINT" "42" = "'42'"
  /\ Part002.Convert RunAscii.runtime (Ex.config "t") (Spec.fileOf [["id"]; ["42"]])
     = (Ok ("CREATE TABLE `t` (" +:+ Go.nl +:+ "  `id` BIGINT" +:+ Shared.tableOptions,
            "INSERT INTO `t` (`id`) VALUES" +:+ Go.nl +:+ "('42');" +:+ Go.nl),
        []).
Proof.
  split.
  { intros R NullString value. unfold Shared.valueLiteral.
    destruct (Shared.isNull R NullString (Go.TrimSpace value)); reflexivity. }
  repeat split; vm_compute; reflexivity.
Qed.

(** ** The value classifier (C2, C3) *)

(** [refineType] never reads its first argument. *)
Lemma refineType_ignores_currentType
    (R : GoRuntime) (c : Part002.Config) (currentType currentType' value : string) :
  Part002.refineType R c currentType value = Part002.refineType R c currentType' value.
Proof. reflexivity. Qed.

(** C2. [refineType] replaces the current type by the class of the
    value alone, so the type of a column can narrow: a VARCHAR widened
    to 350 falls back to the configured length, DECIMAL(20,6) becomes
    BIGINT, DATETIME becomes DATE, and a column sampled with a date-time
    and then a date ends as DATE.  In main.go a date replaces TEXT,
    INT and DATETIME alike. *)
Theorem C2_refineType_narrows :
  (forall (R : GoRuntime) (c : Part002.Config) (currentType currentType' value : string),
      Part002.refineType R c currentType value
      = Part002.refineType R c currentType' value)
  /\ Part002.refineType RunAscii.runtime (Ex.config "t") "TEXT" "abc" = "VARCHAR(255)"
  /\ Part002.refineType RunAscii.runtime (Ex.config "t") "VARCHAR(350)" "abc"
     = "VARCHAR(255)"
  /\ Part002.refineType RunAscii.runtime (Ex.config "t") "DECIMAL(20,6)" "7" = "BIGINT"
  /\ Part002.refineType RunAscii.runtime (Ex.config "t") "DATETIME" "2024-01-05" = "DATE"
  /\ Part002.determineColumnTypes RunAscii.runtime (Ex.config "t")
       {| csv.input := [csv.Parsed ["2024-01-06 10:00:00"]; csv.Parsed ["2024-01-05"]];
          csv.FieldsPerRecord := 1 |}
       ["d"]
     = (Ok ["DATE"], [])
  /\ Part002.determineColumnTypes RunAscii.runtime (Ex.config "t")
       {| csv.input := [csv.Parsed [Ex.text300]; csv.Parsed ["abc"]];
          csv.FieldsPerRecord := 1 |}
       ["d"]
     = (Ok ["VARCHAR(255)"], [])
  /\ MainGo.classify RunAscii.runtime MainGo.DefaultConfig "TEXT" "2024-01-05"
     = Some "DATE"
  /\ MainGo.classify RunAscii.runtime MainGo.DefaultConfig "INT" "2024-01-05"
     = Some "DATE"
  /\ MainGo.classify RunAscii.runtime MainGo.DefaultConfig "DATETIME" "2024-01-05"
     = Some "DATE".
Proof.
  split; [reflexivity|].
  repeat split; vm_compute; reflexivity.
Qed.

(** The capacity [refineType] and main.go compute for a length. *)
Lemma widened_capacity (L : Z) :
  0 <= L ->
  (L `quot` 50 + 1) * 50 = L + 50 - L `mod` 50
  /\ (L `mod` 50 = 0 -> (L `quot` 50 + 1) * 50 = L + 50).
Proof.
  intros HL. rewrite Z.quot_div_nonneg by lia.
  pose proof (Z.div_mod L 50 ltac:(lia)). split; lia.
Qed.

(** C3. For a text value of 300 bytes, with the default VARCHAR length
    255 and TEXT threshold 500, both drafts give VARCHAR(350), not
    VARCHAR(300): the capacity is (L/50 + 1) * 50.  [refineType] has no
    limit at 65535: with a threshold of 70000 a value of 65500 bytes
    gives VARCHAR(65550), where main.go gives TEXT. *)
Theorem C3_capacity_of_multiple_of_50 :
  Go.len Ex.text300 = 300
  /\ Part002.refineType RunAscii.runtime (Ex.config "t") "VARCHAR(255)" Ex.text300
     = "VARCHAR(350)"
  /\ MainGo.classify RunAscii.runtime MainGo.DefaultConfig "VARCHAR(255)" Ex.text300
     = Some "VARCHAR(350)"
  /\ Go.len Ex.text65500 = 65500
  /\ Part002.refineType RunAscii.runtime Ex.wideConfig "VARCHAR(255)" Ex.text65500
     = "VARCHAR(65550)"
  /\ MainGo.widened 65500 = "TEXT".
Proof. repeat split; vm_compute; reflexivity. Qed.

(** ** Forced and skipped columns during sampling (C4) *)

Section Sampling002.
Variable R : GoRuntime.
Variable c : Part002.Config.

Lemma forced_is_Some (h : string) :
  Part002.forced c h = true <-> is_Some (Part002.ForceTypes c !! h).
Proof. unfold Part002.forced. apply bool_decide_eq_true. Qed.

Lemma refineField_pinned (h t v : string) :
  Spec.pinned (Part002.ForceTypes c) h t -> Part002.refineField R c h t v = t.
Proof.
  intros [Hf | ->]; unfold Part002.refineField.
  - apply forced_is_Some in Hf. rewrite Hf.
    destruct (String.eqb t "SKIP"); reflexivity.
  - reflexivity.
Qed.

Lemma refineRecord_length (headers columnTypes record : list string) :
  length (Part002.refineRecord R c headers columnTypes record) = length columnTypes.
Proof.
  revert columnTypes record.
  induction headers as [|h hs IH]; intros [|t ts] [|v vs]; simpl; auto.
Qed.

Lemma refineRecord_pinned (headers columnTypes record : list string)
    (i : nat) (h t : string) :
  headers !! i = Some h -> columnTypes !! i = Some t ->
  Spec.pinned (Part002.ForceTypes c) h t ->
  Part002.refineRecord R c headers columnTypes record !! i = Some t.
Proof.
  revert columnTypes record i.
  induction headers as [|h0 hs IH]; intros [|t0 ts] [|v vs] i Hh Ht Hp;
    try discriminate; try exact Ht.
  destruct i as [|i]; cbn [Part002.refineRecord].
  - injection Hh as ->. injection Ht as ->.
    simpl. now rewrite (refineField_pinned h t v Hp).
  - apply (IH ts vs i); assumption.
Qed.

(** The sampling loop keeps the number of types and the type of every
    pinned column. *)
Lemma sample_pinned (headers : list string) (lines : list csv.Line) :
  forall (fpr : Z) (columnTypes : list string) (sampleCount : Z) (log : list string)
         (types : list string) (log' : list string),
    Part002.sample R c headers lines fpr columnTypes sampleCount log = (Ok types, log') ->
    length types = length columnTypes
    /\ forall (i : nat) (h t : string),
        headers !! i = Some h -> columnTypes !! i = Some t ->
        Spec.pinned (Part002.ForceTypes c) h t -> types !! i = Some t.
Proof.
  induction lines as [|l lines IH]; intros fpr ts n log types log' H.
  - injection H as <- _. auto.
  - cbn [Part002.sample] in H.
    destruct (csv.readRecord fpr l) as [[|record|record e] fpr'] eqn:Hread.
    + injection H as <- _. auto.
    + destruct (negb (length record =? length headers)%nat).
      * apply IH in H. exact H.
      * destruct (Part002.MaxSampleSize c <=? n + 1).
        -- injection H as <- _. split; [apply refineRecord_length|].
           intros i h t Hh Ht Hp. now apply (refineRecord_pinned _ _ _ i h t).
        -- apply IH in H as [Hlen Hkeep]. split.
           ++ now rewrite Hlen, refineRecord_length.
           ++ intros i h t Hh Ht Hp. apply (Hkeep i h t Hh); [|exact Hp].
              now apply (refineRecord_pinned _ _ _ i h t).
    + discriminate.
Qed.

Lemma initialTypes_lookup (headers : list string) (i : nat) (h : string) :
  headers !! i = Some h ->
  Part002.initialTypes c headers !! i = Some (Part002.initialType c h).
Proof.
  intros Hh. unfold Part002.initialTypes.
  change (map (Part002.initialType c) headers) with (Part002.initialType c <$> headers).
  now rewrite list_lookup_fmap, Hh.
Qed.

Lemma determineColumnTypes_pinned (reader : csv.Reader) (headers types log : list string) :
  Part002.determineColumnTypes R c reader headers = (Ok types, log) ->
  length types = length headers
  /\ forall (i : nat) (h : string),
      headers !! i = Some h ->
      Spec.pinned (Part002.ForceTypes c) h (Part002.initialType c h) ->
      types !! i = Some (Part002.initialType c h).
Proof.
  unfold Part002.determineColumnTypes. intros H.
  assert (Hlen : length (Part002.initialTypes c headers) = length headers)
    by (unfold Part002.initialTypes; apply length_map).
  destruct (Part002.allForced (Part002.initialTypes c headers)).
  - injection H as <- _. split; [exact Hlen|].
    intros i h Hh _. now apply initialTypes_lookup.
  - apply sample_pinned in H as [Hl Hkeep]. split; [congruence|].
    intros i h Hh Hp. apply (Hkeep i h _ Hh); [|exact Hp].
    now apply initialTypes_lookup.
Qed.

End Sampling002.

Section SamplingMain.
Variable R : GoRuntime.
Variable c : MainGo.Config.

Lemma main_forced_is_Some (h : string) :
  MainGo.forced c h = true <-> is_Some (MainGo.ForceTypes c !! h).
Proof. unfold MainGo.forced. apply bool_decide_eq_true. Qed.

Lemma main_refineField_pinned (h t v : string) :
  Spec.pinned (MainGo.ForceTypes c) h t -> MainGo.refineField R c h t v = Some t.
Proof.
  intros [Hf | ->]; unfold MainGo.refineField.
  - apply main_forced_is_Some in Hf. rewrite Hf.
    destruct (String.eqb t "SKIP"); reflexivity.
  - reflexivity.
Qed.

Lemma main_refineRecord_pinned (headers : list string) :
  forall (columnTypes record types : list string),
    MainGo.refineRecord R c headers columnTypes record = Some types ->
    length types = length columnTypes
    /\ forall (i : nat) (h t : string),
        headers !! i = Some h -> columnTypes !! i = Some t ->
        Spec.pinned (MainGo.ForceTypes c) h t -> types !! i = Some t.
Proof.
  induction headers as [|h0 hs IH]; intros [|t0 ts] [|v vs] types H;
    try (injection H as <-; now auto).
  cbn [MainGo.refineRecord] in H.
  destruct (MainGo.refineField R c h0 t0 v) as [t'|] eqn:Hf; [|discriminate].
  destruct (MainGo.refineRecord R c hs ts vs) as [ts'|] eqn:Hr; [|discriminate].
  injection H as <-. apply IH in Hr as [Hlen Hkeep]. split.
  - simpl. now rewrite Hlen.
  - intros [|i] h t Hh Ht Hp.
    + injection Hh as ->. injection Ht as ->.
      rewrite (main_refineField_pinned h t v Hp) in Hf. now injection Hf as <-.
    + now apply (Hkeep i h t).
Qed.

Lemma main_sample_pinned (headers : list string) (lines : list csv.Line) :
  forall (fpr : Z) (columnTypes : list string) (sampleSize : Z) (types : list string),
    MainGo.sample R c headers lines fpr columnTypes sampleSize = Ok types ->
    length types = length columnTypes
    /\ forall (i : nat) (h t : string),
        headers !! i = Some h -> columnTypes !! i = Some t ->
        Spec.pinned (MainGo.ForceTypes c) h t -> types !! i = Some t.
Proof.
  induction lines as [|l lines IH]; intros fpr ts n types H.
  - injection H as <-. auto.
  - cbn [MainGo.sample] in H.
    destruct (csv.readRecord fpr l) as [[|record|record e] fpr'] eqn:Hread.
    + injection H as <-. auto.
    + destruct (negb (length record =? length headers)%nat); [discriminate|].
      destruct (MainGo.refineRecord R c headers ts record) as [ts'|] eqn:Hr;
        [|discriminate].
      apply main_refineRecord_pinned in Hr as [Hlen' Hkeep'].
      destruct (MainGo.maxSampleSize <=? n + 1).
      * injection H as <-. auto.
      * apply IH in H as [Hlen Hkeep]. split; [congruence|].
        intros i h t Hh Ht Hp. apply (Hkeep i h t Hh); [|exact Hp].
        now apply (Hkeep' i h t).
    + discriminate.
Qed.

Lemma main_determineColumnTypes_pinned (reader : csv.Reader) (headers types : list string) :
  MainGo.determineColumnTypes R c reader headers = Ok types ->
  length types = length headers
  /\ forall (i : nat) (h : string),
      headers !! i = Some h ->
      Spec.pinned (MainGo.ForceTypes c) h (MainGo.initialType c h) ->
      types !! i = Some (MainGo.initialType c h).
Proof.
  unfold MainGo.determineColumnTypes. intros H.
  assert (Hlen : length (MainGo.initialTypes c headers) = length headers)
    by (unfold MainGo.initialTypes; apply length_map).
  assert (Hinit : forall i h, headers !! i = Some h ->
            MainGo.initialTypes c headers !! i = Some (MainGo.initialType c h)).
  { intros i h Hh. unfold MainGo.initialTypes.
    change (map (MainGo.initialType c) headers) with (MainGo.initialType c <$> headers).
    now rewrite list_lookup_fmap, Hh. }
  destruct (MainGo.allForced (MainGo.initialTypes c headers)).
  - injection H as <-. split; [exact Hlen|]. intros i h Hh _. now apply Hinit.
  - apply main_sample_pinned in H as [Hl Hkeep]. split; [congruence|].
    intros i h Hh Hp. apply (Hkeep i h _ Hh); [|exact Hp]. now apply Hinit.
Qed.

End SamplingMain.

(** C4, as the code has it.  A forced type is the initial type of its
    column and is still its type when sampling returns; a column that is
    not forced and is in the skip set is SKIP before and after; every
    other column starts at TEXT in part_002 and at the literal
    VARCHAR(255) in main.go, whatever [VarcharLength] is. *)
Theorem C4_initial_types_and_forced_types
    (R : GoRuntime)
    (c : Part002.Config) (reader : csv.Reader) (headers types log : list string)
    (m : MainGo.Config) (reader' : csv.Reader) (headers' types' : list string) :
  Part002.determineColumnTypes R c reader headers = (Ok types, log) ->
  MainGo.determineColumnTypes R m reader' headers' = Ok types' ->
  (length types = length headers
   /\ forall (i : nat) (h : string),
       headers !! i = Some h ->
       (forall t, Part002.ForceTypes c !! h = Some t ->
                  Part002.initialTypes c headers !! i = Some t /\ types !! i = Some t)
       /\ (Part002.ForceTypes c !! h = None -> Part002.SkipColumns c !! h = Some true ->
           Part002.initialTypes c headers !! i = Some "SKIP" /\ types !! i = Some "SKIP")
       /\ (Part002.ForceTypes c !! h = None -> Part002.SkipColumns c !! h <> Some true ->
           Part002.initialTypes c headers !! i = Some "TEXT"))
  /\ (length types' = length headers'
      /\ forall (i : nat) (h : string),
          headers' !! i = Some h ->
          (forall t, MainGo.ForceTypes m !! h = Some t ->
                     MainGo.initialTypes m headers' !! i = Some t /\ types' !! i = Some t)
          /\ (MainGo.ForceTypes m !! h = None -> MainGo.SkipColumns m !! h = Some true ->
              MainGo.initialTypes m headers' !! i = Some "SKIP"
              /\ types' !! i = Some "SKIP")
          /\ (MainGo.ForceTypes m !! h = None -> MainGo.SkipColumns m !! h <> Some true ->
              MainGo.initialTypes m headers' !! i = Some "VARCHAR(255)")).
Proof.
  intros H H'.
  apply determineColumnTypes_pinned in H as [Hlen Hkeep].
  apply main_determineColumnTypes_pinned in H' as [Hlen' Hkeep'].
  split; (split; [assumption|]); intros i h Hh.
  - rewrite (initialTypes_lookup c headers i h Hh).
    specialize (Hkeep i h Hh). unfold Spec.pinned in Hkeep.
    unfold Part002.initialType, Part002.skipped in *.
    split; [|split].
    + intros t0 Ht. rewrite Ht in *. split; [reflexivity|]. apply Hkeep. left. eauto.
    + intros Hn Hs. rewrite Hn, Hs in *. split; [reflexivity|]. apply Hkeep. now right.
    + intros Hn Hs. rewrite Hn.
      destruct (Part002.SkipColumns c !! h) as [[|]|]; simpl; congruence.
  - assert (Hinit : MainGo.initialTypes m headers' !! i = Some (MainGo.initialType m h)).
    { unfold MainGo.initialTypes.
      change (map (MainGo.initialType m) headers')
        with (MainGo.initialType m <$> headers').
      now rewrite list_lookup_fmap, Hh. }
    rewrite Hinit. specialize (Hkeep' i h Hh). unfold Spec.pinned in Hkeep'.
    unfold MainGo.initialType, MainGo.skipped in *.
    split; [|split].
    + intros t0 Ht. rewrite Ht in *. split; [reflexivity|]. apply Hkeep'. left. eauto.
    + intros Hn Hs. rewrite Hn, Hs in *. split; [reflexivity|]. apply Hkeep'. now right.
    + intros Hn Hs. rewrite Hn.
      destruct (MainGo.SkipColumns m !! h) as [[|]|]; simpl; congruence.
Qed.

(** With the default configuration a column that is neither forced nor
    skipped starts at TEXT in part_002, not at VARCHAR(255); in main.go
    it starts at VARCHAR(255) also when [VarcharLength] is 100. *)
Lemma C4_counterexample :
  ~ (forall (c : Part002.Config) (h : string),
        Part002.ForceTypes c !! h = None ->
        Part002.skipped c h = false ->
        Part002.initialType c h
        = "VARCHAR(" +:+ Go.itoa (Part002.VarcharLength c) +:+ ")").
Proof.
  intros H. specialize (H (Ex.config "t") "name" eq_refl eq_refl).
  vm_compute in H. discriminate H.
Qed.

Lemma C4_witness :
  Part002.determineColumnTypes RunAscii.runtime Ex.mainConfig
    {| csv.input := [csv.Parsed ["7"; "8"; "zz"]]; csv.FieldsPerRecord := 3 |}
    ["id"; "name"; "internal_code"]
  = (Ok ["INT AUTO_INCREMENT"; "BIGINT"; "SKIP"], [])
  /\ Part002.initialTypes Ex.mainConfig ["id"; "name"; "internal_code"]
     = ["INT AUTO_INCREMENT"; "TEXT"; "SKIP"]
  /\ MainGo.determineColumnTypes RunAscii.runtime MainGo.DefaultConfig
       {| csv.input := [csv.Parsed ["7"]]; csv.FieldsPerRecord := 1 |} ["n"]
     = Ok ["VARCHAR(255)"]
  /\ (Part002.initialTypes Ex.mainConfig ["id"; "name"; "internal_code"] !! 0%nat
      = Some "INT AUTO_INCREMENT"
      /\ ["INT AUTO_INCREMENT"; "BIGINT"; "SKIP"] !! 0%nat = Some "INT AUTO_INCREMENT").
Proof.
  split; [reflexivity|]. split; [reflexivity|]. split; [reflexivity|].
  pose proof (C4_initial_types_and_forced_types RunAscii.runtime
                Ex.mainConfig
                {| csv.input := [csv.Parsed ["7"; "8"; "zz"]]; csv.FieldsPerRecord := 3 |}
                ["id"; "name"; "internal_code"]
                ["INT AUTO_INCREMENT"; "BIGINT"; "SKIP"] []
                MainGo.DefaultConfig
                {| csv.input := [csv.Parsed ["7"]]; csv.FieldsPerRecord := 1 |}
                ["n"] ["VARCHAR(255)"]
                eq_refl eq_refl) as [[_ H] _].
  destruct (H 0%nat "id" eq_refl) as [Hforced _].
  exact (Hforced "INT AUTO_INCREMENT" eq_refl).
Defined.

(** ** Rows with a wrong number of fields (C5) *)

(** A reader that has read the header returns a record with a nil error
    only when it has as many fields as the header. *)
Lemma readRecord_field_count (fpr : Z) (l : csv.Line) (record : list string) (fpr' : Z) :
  0 < fpr ->
  csv.readRecord fpr l = (csv.Record record, fpr') ->
  Z.of_nat (length record) = fpr /\ fpr' = fpr.
Proof.
  intros Hpos. unfold csv.readRecord.
  destruct l as [fs|fs]; [|discriminate].
  assert (Hz : (fpr =? 0) = false) by (apply Z.eqb_neq; lia).
  assert (Hp : (0 <? fpr) = true) by (apply Z.ltb_lt; lia).
  rewrite Hz, Hp. simpl.
  destruct (Z.of_nat (length fs) =? fpr) eqn:He; simpl; [|discriminate].
  intros H. injection H as <- <-. apply Z.eqb_eq in He. auto.
Qed.

(** In the sampling loop the branch that skips a row with a warning is
    never taken: the log comes back as it was. *)
Lemma sample_never_skips (R : GoRuntime) (c : Part002.Config)
    (headers : list string) (lines : list csv.Line) :
  forall (columnTypes : list string) (sampleCount : Z) (log : list string),
    0 < Z.of_nat (length headers) ->
    snd (Part002.sample R c headers lines (Z.of_nat (length headers))
                        columnTypes sampleCount log) = log.
Proof.
  induction lines as [|l lines IH]; intros ts n log Hpos; [reflexivity|].
  cbn [Part002.sample].
  destruct (csv.readRecord (Z.of_nat (length headers)) l)
    as [[|record|record e] fpr'] eqn:Hread; try reflexivity.
  apply readRecord_field_count in Hread as [Hn ->]; [|exact Hpos].
  apply Nat2Z.inj in Hn. rewrite Hn, Nat.eqb_refl. simpl.
  destruct (Part002.MaxSampleSize c <=? n + 1); [reflexivity|].
  now apply IH.
Qed.

(** C5. A row with a wrong number of fields is fatal in both passes of
    part_002.  The reader that returned the header returns such a row
    with the error ErrFieldCount, which the sampling loop returns as its
    own error before it compares the lengths: the conversion of a file
    with the header [id,name] and the rows [1] and [2,Bob] fails in
    [determineColumnTypes], with an empty log.  Behind the sample
    window the same row fails the serializer. *)
Theorem C5_short_row_aborts_sampling :
  (forall R : GoRuntime,
      Part002.Convert R (Ex.config "t")
        (Spec.fileOf [["id"; "name"]; ["1"]; ["2"; "Bob"]])
      = (Err (ErrDeterminingColumnTypes (ErrReadingRecord csv.ErrFieldCount)), []))
  /\ Part002.Convert RunAscii.runtime
       {| Part002.InputFile := "input.csv"; Part002.TableName := "t";
          Part002.Delimiter := ","; Part002.HasHeader := true;
          Part002.VarcharLength := 255; Part002.TextThreshold := 500;
          Part002.BatchInsert := true; Part002.BatchSize := 100;
          Part002.NullString := "NULL"; Part002.ForceTypes := ∅;
          Part002.SkipColumns := ∅; Part002.PrimaryKeys := [];
          Part002.MaxSampleSize := 1 |}
       (Spec.fileOf [["id"; "name"]; ["1"; "Al"]; ["2"]])
     = (Err (ErrGeneratingInsertStatements (ErrReadingRecord csv.ErrFieldCount)), []).
Proof.
  split.
  - intros R. vm_compute. reflexivity.
  - vm_compute. reflexivity.
Qed.

(** ** The row loop of the serializer (C6, C7) *)

Lemma chunksFrom_concat (n : Z) (rows : list string) :
  forall buf : list string, concat (Spec.chunksFrom n buf rows) = buf ++ rows.
Proof.
  induction rows as [|row rows IH]; intros buf.
  - destruct buf; simpl; now rewrite ?app_nil_r.
  - cbn [Spec.chunksFrom].
    destruct (n <=? Z.of_nat (length (buf ++ [row]))).
    + cbn [concat]. rewrite IH. simpl. now rewrite <- app_assoc.
    + rewrite IH. now rewrite <- app_assoc.
Qed.

Lemma chunksFrom_bounds (n : Z) (rows : list string) :
  forall buf : list string,
    1 <= n -> Z.of_nat (length buf) < n ->
    Forall (fun b => 1 <= Z.of_nat (length b) <= n) (Spec.chunksFrom n buf rows).
Proof.
  induction rows as [|row rows IH]; intros buf Hn Hbuf.
  - destruct buf as [|x buf]; constructor; [|constructor].
    simpl length in *. lia.
  - cbn [Spec.chunksFrom].
    assert (Hlen : Z.of_nat (length (buf ++ [row])) = Z.of_nat (length buf) + 1)
      by (rewrite length_app; simpl; lia).
    destruct (n <=? Z.of_nat (length (buf ++ [row]))) eqn:Hfull.
    + constructor; [lia|]. apply IH; simpl; lia.
    + apply Z.leb_gt in Hfull. apply IH; lia.
Qed.

(** Every batch but the last holds exactly [n] tuples. *)
Lemma chunksFrom_full (n : Z) (rows : list string) :
  forall (buf : list string) (i : nat) (b : list string),
    1 <= n -> Z.of_nat (length buf) < n ->
    Spec.chunksFrom n buf rows !! i = Some b ->
    (S i < length (Spec.chunksFrom n buf rows))%nat ->
    Z.of_nat (length b) = n.
Proof.
  induction rows as [|row rows IH]; intros buf i b Hn Hbuf Hb Hi.
  - destruct buf; simpl in Hi; lia.
  - cbn [Spec.chunksFrom] in Hb, Hi.
    assert (Hlen : Z.of_nat (length (buf ++ [row])) = Z.of_nat (length buf) + 1)
      by (rewrite length_app; simpl; lia).
    destruct (n <=? Z.of_nat (length (buf ++ [row]))) eqn:Hfull.
    + destruct i as [|i].
      * injection Hb as <-. apply Z.leb_le in Hfull. lia.
      * simpl in Hb, Hi. apply (IH [] i b); simpl; try lia; assumption.
    + apply Z.leb_gt in Hfull. apply (IH (buf ++ [row]) i b); try lia; assumption.
Qed.

Lemma readRecord_ok (headers record : list string) (fpr : Z) :
  Spec.fprOk headers fpr ->
  length record = length headers ->
  exists fpr', csv.readRecord fpr (csv.Parsed record) = (csv.Record record, fpr')
               /\ Spec.fprOk headers fpr'.
Proof.
  intros [-> | ->] Hlen; unfold csv.readRecord.
  - simpl. eexists. split; [reflexivity|]. right. now rewrite Hlen.
  - rewrite Hlen, Z.eqb_refl. simpl. rewrite andb_false_r.
    eexists. split; [reflexivity|].
    destruct (Z.of_nat (length headers) =? 0); now right.
Qed.

Lemma formatBatchInsert_statement (TableName : string)
    (headers columnTypes rows : list string) :
  length columnTypes = length headers ->
  Shared.formatBatchInsert TableName headers columnTypes rows
  = Some (Spec.batchStatement TableName headers columnTypes rows).
Proof.
  intros Ht. unfold Shared.formatBatchInsert, Shared.formatInsertColumns.
  now rewrite (insertColumns_kept headers columnTypes headers Ht eq_refl).
Qed.

Lemma formatSingleInsert_statement (R : GoRuntime) (TableName NullString : string)
    (headers columnTypes record : list string) :
  length columnTypes = length headers ->
  length record = length headers ->
  Shared.formatSingleInsert TableName headers columnTypes
    (map (Spec.literalOf R NullString) (Spec.keptColumns headers columnTypes record))
  = Some (Spec.singleStatement TableName headers columnTypes
            (Spec.tupleOf R NullString headers columnTypes record)).
Proof.
  intros Ht Hr. unfold Shared.formatSingleInsert, Shared.formatInsertColumns.
  rewrite (insertColumns_kept headers columnTypes headers Ht eq_refl).
  unfold Spec.singleStatement, Spec.tupleOf. f_equal.
  change (") VALUES (") with (") VALUES " +:+ "(").
  change (");" +:+ Go.nl) with (")" +:+ (";" +:+ Go.nl)).
  now rewrite !append_assoc.
Qed.

Section InsertLoop002.
Variable R : GoRuntime.
Variable c : Part002.Config.
Variables headers columnTypes : list string.
Hypothesis Htypes : length columnTypes = length headers.

Let tuple := Spec.tupleOf R (Part002.NullString c) headers columnTypes.
Let batch := Spec.batchStatement (Part002.TableName c) headers columnTypes.
Let single := Spec.singleStatement (Part002.TableName c) headers columnTypes.

(** Batch mode: the text is the batch statements of the groups the
    buffer makes of the tuples, in order. *)
Lemma insertLoop_batch (rows : list (list string)) :
  Part002.BatchInsert c = true ->
  Forall (fun r => length r = length headers) rows ->
  forall (fpr : Z) (sb : string) (buf : list string),
    Spec.fprOk headers fpr ->
    Part002.insertLoop R c headers columnTypes (map csv.Parsed rows) fpr sb buf
    = Ok (sb +:+ Spec.concatText
                   (map batch (Spec.chunksFrom (Part002.BatchSize c) buf (map tuple rows)))).
Proof.
  intros Hbatch Hrows. induction Hrows as [|r rows Hr Hrows IH]; intros fpr sb buf Hfpr.
  - cbn [map Part002.insertLoop Spec.chunksFrom].
    destruct buf as [|x buf].
    + simpl. now rewrite append_nil_r.
    + change (0 <? Z.of_nat (length (x :: buf))) with true. cbv iota.
      unfold Part002.formatBatchInsert.
      rewrite formatBatchInsert_statement by exact Htypes.
      cbn [map Spec.concatText]. now rewrite append_nil_r.
  - cbn [map Part002.insertLoop Spec.chunksFrom].
    destruct (readRecord_ok headers r fpr Hfpr Hr) as (fpr' & -> & Hfpr').
    rewrite Hr, Nat.eqb_refl. cbn [negb].
    rewrite (prepareValues_kept R (Part002.NullString c) headers columnTypes r Htypes Hr).
    rewrite Hbatch.
    change ("(" +:+ Go.Join (map (Spec.literalOf R (Part002.NullString c))
                                 (Spec.keptColumns headers columnTypes r)) ", " +:+ ")")
      with (tuple r).
    destruct (Part002.BatchSize c <=? Z.of_nat (length (buf ++ [tuple r]))).
    + unfold Part002.formatBatchInsert.
      rewrite formatBatchInsert_statement by exact Htypes.
      rewrite (IH fpr' _ [] Hfpr'). cbn [map Spec.concatText].
      now rewrite append_assoc.
    + now rewrite (IH fpr' sb _ Hfpr').
Qed.

(** Single-row mode: one statement per row, in order. *)
Lemma insertLoop_single (rows : list (list string)) :
  Part002.BatchInsert c = false ->
  Forall (fun r => length r = length headers) rows ->
  forall (fpr : Z) (sb : string),
    Spec.fprOk headers fpr ->
    Part002.insertLoop R c headers columnTypes (map csv.Parsed rows) fpr sb []
    = Ok (sb +:+ Spec.concatText (map (fun r => single (tuple r)) rows)).
Proof.
  intros Hbatch Hrows. induction Hrows as [|r rows Hr Hrows IH]; intros fpr sb Hfpr.
  - simpl. now rewrite append_nil_r.
  - cbn [map Part002.insertLoop].
    destruct (readRecord_ok headers r fpr Hfpr Hr) as (fpr' & -> & Hfpr').
    rewrite Hr, Nat.eqb_refl. cbn [negb].
    rewrite (prepareValues_kept R (Part002.NullString c) headers columnTypes r Htypes Hr).
    rewrite Hbatch.
    rewrite (formatSingleInsert_statement R _ _ headers columnTypes r Htypes Hr).
    rewrite (IH fpr' _ Hfpr'). cbn [Spec.concatText].
    now rewrite append_assoc.
Qed.

(** The rows [generateInsertStatements] serializes: those after the
    header, when there is one. *)
Lemma generateInsertStatements_rows (file : File) (headerRow : list string)
    (rows : list (list string)) :
  records file false
  = map csv.Parsed (if Part002.HasHeader c then headerRow :: rows else rows) ->
  length headerRow = length headers ->
  exists fpr,
    Spec.fprOk headers fpr
    /\ Part002.generateInsertStatements R c file headers columnTypes
       = Part002.insertLoop R c headers columnTypes (map csv.Parsed rows) fpr "" [].
Proof.
  intros Hfile Hhead. unfold Part002.generateInsertStatements.
  rewrite Hfile. destruct (Part002.HasHeader c).
  - unfold csv.Read, csv.NewReader. cbn [csv.input csv.FieldsPerRecord map].
    destruct (readRecord_ok headers headerRow 0 (or_introl eq_refl) Hhead)
      as (fpr' & -> & Hfpr').
    exists fpr'. split; [exact Hfpr'|reflexivity].
  - exists 0. split; [now left|reflexivity].
Qed.

End InsertLoop002.

(** C7. In batch mode, for a batch size of at least 1 and rows that all
    have as many fields as there are headers, the text returned is the
    sequence of the batch statements of some groups of tuples; every
    group has at least 1 and at most [BatchSize] tuples, every group
    but the last has exactly [BatchSize], and the groups put end to end
    are the tuples of the rows in input order, so each row is in exactly
    one statement.  Without rows there is no group and no statement. *)
Theorem C7_batches_bounded_and_complete
    (R : GoRuntime) (c : Part002.Config) (file : File)
    (headerRow : list string) (rows : list (list string))
    (headers columnTypes : list string) :
  Part002.BatchInsert c = true ->
  1 <= Part002.BatchSize c ->
  records file false
  = map csv.Parsed (if Part002.HasHeader c then headerRow :: rows else rows) ->
  length headerRow = length headers ->
  length columnTypes = length headers ->
  Forall (fun r => length r = length headers) rows ->
  exists batches : list (list string),
    Forall (fun b => 1 <= Z.of_nat (length b) <= Part002.BatchSize c) batches
    /\ (forall (i : nat) (b : list string),
           batches !! i = Some b -> (S i < length batches)%nat ->
           Z.of_nat (length b) = Part002.BatchSize c)
    /\ concat batches
       = map (Spec.tupleOf R (Part002.NullString c) headers columnTypes) rows
    /\ Part002.generateInsertStatements R c file headers columnTypes
       = Ok (Spec.concatText
               (map (Spec.batchStatement (Part002.TableName c) headers columnTypes)
                    batches)).
Proof.
  intros Hbatch Hsize Hfile Hhead Htypes Hrows.
  destruct (generateInsertStatements_rows R c headers columnTypes file headerRow rows
              Hfile Hhead) as (fpr & Hfpr & ->).
  exists (Spec.chunksFrom (Part002.BatchSize c) []
            (map (Spec.tupleOf R (Part002.NullString c) headers columnTypes) rows)).
  split; [apply chunksFrom_bounds; simpl; lia|].
  split.
  { intros i b Hb Hi. eapply (chunksFrom_full _ _ [] i b); [exact Hsize|simpl; lia|exact Hb|exact Hi]. }
  split; [apply chunksFrom_concat|].
  now rewrite (insertLoop_batch R c headers columnTypes Htypes rows Hbatch Hrows
                 fpr "" [] Hfpr).
Qed.

Lemma C7_witness :
  exists batches : list (list string),
    Forall (fun b => 1 <= Z.of_nat (length b) <= 2) batches
    /\ (forall (i : nat) (b : list string),
           batches !! i = Some b -> (S i < length batches)%nat ->
           Z.of_nat (length b) = 2)
    /\ concat batches = ["('1', 'a')"; "('2', NULL)"; "('3', 'c')"]
    /\ Part002.generateInsertStatements RunAscii.runtime
         {| Part002.InputFile := "input.csv"; Part002.TableName := "t";
            Part002.Delimiter := ","; Part002.HasHeader := true;
            Part002.VarcharLength := 255; Part002.TextThreshold := 500;
            Part002.BatchInsert := true; Part002.BatchSize := 2;
            Part002.NullString := "NULL"; Part002.ForceTypes := ∅;
            Part002.SkipColumns := ∅; Part002.PrimaryKeys := [];
            Part002.MaxSampleSize := 1000 |}
         (Spec.fileOf [["id"; "name"]; ["1"; "a"]; ["2"; ""]; ["3"; "c"]])
         ["id"; "name"] ["BIGINT"; "VARCHAR(255)"]
       = Ok (Spec.concatText
               (map (Spec.batchStatement "t" ["id"; "name"] ["BIGINT"; "VARCHAR(255)"])
                    batches)).
Proof.
  apply (C7_batches_bounded_and_complete RunAscii.runtime
           {| Part002.InputFile := "input.csv"; Part002.TableName := "t";
              Part002.Delimiter := ","; Part002.HasHeader := true;
              Part002.VarcharLength := 255; Part002.TextThreshold := 500;
              Part002.BatchInsert := true; Part002.BatchSize := 2;
              Part002.NullString := "NULL"; Part002.ForceTypes := ∅;
              Part002.SkipColumns := ∅; Part002.PrimaryKeys := [];
              Part002.MaxSampleSize := 1000 |}
           (Spec.fileOf [["id"; "name"]; ["1"; "a"]; ["2"; ""]; ["3"; "c"]])
           ["id"; "name"] [["1"; "a"]; ["2"; ""]; ["3"; "c"]]
           ["id"; "name"] ["BIGINT"; "VARCHAR(255)"]).
  - reflexivity.
  - simpl. lia.
  - reflexivity.
  - reflexivity.
  - reflexivity.
  - repeat constructor.
Defined.

(** ** Rows of NULL fields (C6) *)

Lemma keptColumns_field (headers columnTypes record : list string)
    (x : string * (string * string)) :
  In x (Spec.keptColumns headers columnTypes record) -> In (snd (snd x)) record.
Proof.
  unfold Spec.keptColumns. intros Hx. apply List.filter_In in Hx as [Hx _].
  destruct x as [h [t v]]. apply list_elem_of_In in Hx.
  apply elem_of_zip_r, elem_of_zip_r in Hx. now apply list_elem_of_In.
Qed.

Lemma null_literals (R : GoRuntime) (NullString : string)
    (headers columnTypes record : list string) :
  Forall (fun f => Spec.nullField R NullString f = true) record ->
  map (Spec.literalOf R NullString) (Spec.keptColumns headers columnTypes record)
  = replicate (length (Spec.keptColumns headers columnTypes record)) "NULL".
Proof.
  intros Hnull.
  assert (H : forall x, In x (Spec.keptColumns headers columnTypes record) ->
                        Spec.literalOf R NullString x = "NULL").
  { intros x Hx. apply keptColumns_field in Hx.
    rewrite List.Forall_forall in Hnull. apply Hnull in Hx.
    unfold Spec.literalOf. now apply valueLiteral_null. }
  induction (Spec.keptColumns headers columnTypes record) as [|x l IH];
    [reflexivity|].
  cbn [map length replicate]. rewrite H by now left.
  f_equal. apply IH. intros y Hy. apply H. now right.
Qed.

(** In part_001 a row whose first field, and second field when there
    is one, is NULL leaves the text and the buffer as they are. *)
Lemma part001_empty_row_dropped (R : GoRuntime) (c : Part001.CSVToMySQLConverter)
    (headers columnTypes record : list string) (lines : list csv.Line)
    (fpr fpr' : Z) (sb : string) (batchRows : list string) :
  csv.readRecord fpr (csv.Parsed record) = (csv.Record record, fpr') ->
  Part001.emptyRow R c record = Some true ->
  Part001.insertLoop R c headers columnTypes (csv.Parsed record :: lines) fpr sb batchRows
  = Part001.insertLoop R c headers columnTypes lines fpr' sb batchRows.
Proof.
  intros Hread Hempty. cbn [Part001.insertLoop]. rewrite Hread, Hempty.
  destruct (negb (length record =? length headers)%nat); reflexivity.
Qed.

Lemma part001_all_null_empty (R : GoRuntime) (c : Part001.CSVToMySQLConverter)
    (record : list string) :
  record <> [] ->
  Forall (fun f => Spec.nullField R (Part001.NullString c) f = true) record ->
  Part001.emptyRow R c record = Some true.
Proof.
  intros Hne Hnull. destruct record as [|f0 [|f1 rest]]; [congruence| |].
  - inversion Hnull as [|? ? H0 _]; subst. unfold Part001.emptyRow, Part001.nullField.
    unfold Spec.nullField in H0. now rewrite H0.
  - inversion Hnull as [|? ? H0 Hrest]; subst.
    inversion Hrest as [|? ? H1 _]; subst.
    unfold Part001.emptyRow, Part001.nullField.
    unfold Spec.nullField in H0, H1. now rewrite H0, H1.
Qed.




(** ** The identifier sanitizer (C9) *)

Lemma squeeze_None_head (l : list (option ascii)) :
  Spec.squeeze (None :: l) = None :: tail (Spec.squeeze (None :: l)).
Proof.
  induction l as [|[c|] l IH]; [reflexivity|reflexivity|].
  change (Spec.squeeze (None :: None :: l)) with (Spec.squeeze (None :: l)).
  exact IH.
Qed.

(** The scanner of [replaceRuns] writes one underscore per maximal run;
    inside a run it has already written it. *)
Lemma replaceRuns_squeeze (s : string) :
  Shared.replaceRuns false s = Spec.render (Spec.squeeze (Spec.marks s))
  /\ Shared.replaceRuns true s
     = Spec.render (tail (Spec.squeeze (None :: Spec.marks s))).
Proof.
  induction s as [|c r [IHf IHt]]; [split; reflexivity|].
  cbn [Shared.replaceRuns Spec.marks].
  destruct (Go.isWord c) eqn:Hc.
  - rewrite IHf. split; reflexivity.
  - rewrite IHt. split.
    + rewrite squeeze_None_head. reflexivity.
    + reflexivity.
Qed.

Lemma replaceRuns_spec (s : string) :
  Shared.replaceRuns false s = Spec.replaceRunsSpec s.
Proof. apply replaceRuns_squeeze. Qed.

(** Without two neighbouring bytes outside the class, replacing runs
    and replacing bytes one for one agree. *)
Lemma replaceRuns_each (s : string) :
  Spec.noAdjacent s = true ->
  Shared.replaceRuns false s = Spec.replaceEach s
  /\ (Spec.startsWord s = true -> Shared.replaceRuns true s = Spec.replaceEach s).
Proof.
  induction s as [|c r IH]; intros Hs; [split; reflexivity|].
  cbn [Shared.replaceRuns Spec.replaceEach Spec.startsWord].
  assert (Hr : Spec.noAdjacent r = true /\ (Go.isWord c = false -> Spec.startsWord r = true)).
  { destruct r as [|c2 r]; [split; reflexivity|].
    cbn [Spec.noAdjacent Spec.startsWord] in *.
    apply andb_true_iff in Hs as [H1 H2]. split; [exact H2|].
    intros Hc. rewrite Hc in H1. simpl in H1.
    destruct (Go.isWord c2); [reflexivity|discriminate]. }
  destruct Hr as [Hr Hstart]. destruct (IH Hr) as [IHf IHt].
  destruct (Go.isWord c) eqn:Hc.
  - rewrite IHf. split; reflexivity.
  - rewrite (IHt (Hstart eq_refl)). split; [reflexivity|discriminate].
Qed.

Lemma allBytes_rev_onto (p : ascii -> bool) (s acc : string) :
  Spec.allBytes p (Go.rev_onto s acc) = Spec.allBytes p s && Spec.allBytes p acc.
Proof.
  revert acc. induction s as [|c r IH]; intros acc; [reflexivity|].
  cbn [Go.rev_onto Spec.allBytes]. rewrite IH. cbn [Spec.allBytes].
  destruct (p c), (Spec.allBytes p r), (Spec.allBytes p acc); reflexivity.
Qed.

Lemma allBytes_reverse (p : ascii -> bool) (s : string) :
  Spec.allBytes p (Go.reverse s) = Spec.allBytes p s.
Proof. unfold Go.reverse. rewrite allBytes_rev_onto. simpl. apply andb_true_r. Qed.

Lemma allBytes_TrimLeftByte (p q : ascii -> bool) (s : string) :
  Spec.allBytes p s = true -> Spec.allBytes p (Go.TrimLeftByte q s) = true.
Proof.
  induction s as [|c r IH]; [reflexivity|].
  intros H. cbn [Go.TrimLeftByte]. destruct (q c); [|exact H].
  apply IH. cbn [Spec.allBytes] in H. now apply andb_true_iff in H as [_ H].
Qed.

Lemma allBytes_TrimUnderscores (p : ascii -> bool) (s : string) :
  Spec.allBytes p s = true -> Spec.allBytes p (Go.TrimUnderscores s) = true.
Proof.
  intros H. unfold Go.TrimUnderscores.
  rewrite allBytes_reverse. apply allBytes_TrimLeftByte.
  rewrite allBytes_reverse. now apply allBytes_TrimLeftByte.
Qed.

(** [replaceRuns] leaves nothing but bytes of [a-zA-Z0-9_], so
    [strings.ToLower] is applied to ASCII bytes only. *)
Lemma replaceRuns_word (inRun : bool) (s : string) :
  Spec.allBytes Go.isWord (Shared.replaceRuns inRun s) = true.
Proof.
  revert inRun. induction s as [|c r IH]; intros inRun; [reflexivity|].
  cbn [Shared.replaceRuns]. destruct (Go.isWord c) eqn:Hc.
  - cbn [Spec.allBytes]. now rewrite Hc, IH.
  - destruct inRun; [apply IH|]. cbn [Spec.allBytes]. now rewrite IH.
Qed.

Lemma lowerByte_word (c : ascii) :
  Go.isWord c = true -> Spec.isLowerWord (Go.lowerByte c) = true.
Proof.
  destruct c as [[|] [|] [|] [|] [|] [|] [|] [|]]; vm_compute; intros H;
    first [reflexivity | discriminate H].
Qed.

Lemma ToLower_word (s : string) :
  Spec.allBytes Go.isWord s = true ->
  Spec.allBytes Spec.isLowerWord (Go.ToLower s) = true.
Proof.
  induction s as [|c r IH]; [reflexivity|].
  cbn [Spec.allBytes Go.ToLower]. intros H.
  apply andb_true_iff in H as [Hc Hr]. now rewrite lowerByte_word, IH.
Qed.

Lemma sanitizeColumnName_lower_word (name : string) :
  Spec.allBytes Spec.isLowerWord (Shared.sanitizeColumnName name) = true.
Proof.
  unfold Shared.sanitizeColumnName. apply ToLower_word.
  pose proof (allBytes_TrimUnderscores Go.isWord _
                (replaceRuns_word false (Go.TrimSpace name))) as H.
  destruct (Shared.leadingMatch _); [|exact H].
  rewrite append_cons, append_nil_l. cbn [Spec.allBytes]. now rewrite H.
Qed.

(** C9, as the code has it.  The sanitizer of part_001 and part_002
    trims white space, replaces every maximal run of bytes outside
    [a-zA-Z0-9_] by ONE underscore, trims the underscores at both ends,
    puts an underscore before a result that starts with a digit, and
    lowercases: the result has bytes of [a-z0-9_] only.  It agrees with
    the replacement of every such byte by its own underscore when no two
    of them are neighbours.  [Order ID] and [Customer Name] become
    [order_id] and [customer_name], in main.go too. *)
Theorem C9_sanitizer_replaces_runs :
  (forall name : string,
      Part002.sanitizeColumnName name
      = Go.ToLower
          (let t := Go.TrimUnderscores (Spec.replaceRunsSpec (Go.TrimSpace name)) in
           if Shared.leadingMatch t then "_" +:+ t else t))
  /\ (forall name : string,
         Spec.allBytes Spec.isLowerWord (Part002.sanitizeColumnName name) = true)
  /\ (forall name : string,
         Spec.noAdjacent (Go.TrimSpace name) = true ->
         Part002.sanitizeColumnName name = Spec.sanitizeEach name)
  /\ Part002.sanitizeColumnName "Order ID" = "order_id"
  /\ Part002.sanitizeColumnName "Customer Name" = "customer_name"
  /\ MainGo.sanitizeColumnName "Order ID" = Some "order_id"
  /\ MainGo.sanitizeColumnName "Customer Name" = Some "customer_name".
Proof.
  split.
  { intros name. unfold Part002.sanitizeColumnName, Shared.sanitizeColumnName.
    now rewrite replaceRuns_spec. }
  split; [exact sanitizeColumnName_lower_word|].
  split.
  { intros name Hname.
    unfold Part002.sanitizeColumnName, Shared.sanitizeColumnName, Spec.sanitizeEach.
    now rewrite (proj1 (replaceRuns_each _ Hname)). }
  repeat split; vm_compute; reflexivity.
Qed.

(** Two spaces in a row become one underscore, not two; main.go drops
    a hyphen where the one-for-one replacement writes an underscore. *)
Lemma C9_counterexample :
  ~ (forall name : string, Part002.sanitizeColumnName name = Spec.sanitizeEach name)
  /\ ~ (forall name : string,
          MainGo.sanitizeColumnName name = Some (Spec.sanitizeEach name)).
Proof.
  split; intros H.
  - specialize (H "a  b"). vm_compute in H. discriminate H.
  - specialize (H "Order-ID"). vm_compute in H. discriminate H.
Qed.

Lemma C9_witness :
  Part002.sanitizeColumnName "Order ID" = Spec.sanitizeEach "Order ID".
Proof.
  exact (proj1 (proj2 (proj2 C9_sanitizer_replaces_runs)) "Order ID" eq_refl).
Defined.

(** Examples of the two sanitizers. *)
Example sanitize_examples :
  Part002.sanitizeColumnName "a  b" = "a_b"
  /\ Spec.sanitizeEach "a  b" = "a__b"
  /\ Part002.sanitizeColumnName " 9 lives!! " = "_9_lives"
  /\ Part002.sanitizeColumnName "Order-ID" = "order_id"
  /\ MainGo.sanitizeColumnName "Order-ID" = Some "orderid"
  /\ Part002.sanitizeColumnName "%%%" = ""
  /\ MainGo.sanitizeColumnName "%%%" = Some "column".
Proof. repeat split; vm_compute; reflexivity. Qed.

(** ** The PRIMARY KEY clause (C10) *)

(** C10. With a primary key configured, [generateCreateTable] ends the
    column list with a PRIMARY KEY entry that holds the configured
    names, back-quoted, in the configured order, for whatever headers
    and types it is given: the entry is built from [PrimaryKeys] alone,
    and neither the headers nor the skip set are consulted.  part_001
    writes a DROP TABLE comment line first. *)
Theorem C10_primary_key_clause
    (c : Part002.Config) (c1 : Part001.CSVToMySQLConverter)
    (headers columnTypes : list string) :
  Part002.PrimaryKeys c <> [] ->
  Part001.PrimaryKeys c1 <> [] ->
  length columnTypes = length headers ->
  exists defs : list string,
    Shared.columnDefs headers columnTypes = Some defs
    /\ Part002.generateCreateTable c headers columnTypes
       = Some ("CREATE TABLE `" +:+ Part002.TableName c +:+ "` (" +:+ Go.nl
               +:+ Go.Join
                     (defs ++ ["  PRIMARY KEY ("
                               +:+ Go.Join (map (fun pk => "`" +:+ pk +:+ "`")
                                                (Part002.PrimaryKeys c)) ", "
                               +:+ ")"])
                     ("," +:+ Go.nl)
               +:+ Go.nl
               +:+ ") ENGINE=InnoDB DEFAULT CHARSET=utf8mb4 COLLATE=utf8mb4_unicode_ci;")
    /\ Part001.generateCreateTable c1 headers columnTypes
       = Some ("-- DROP TABLE " +:+ Part001.TableName c1 +:+ ";" +:+ Go.nl
               +:+ "CREATE TABLE `" +:+ Part001.TableName c1 +:+ "` (" +:+ Go.nl
               +:+ Go.Join
                     (defs ++ ["  PRIMARY KEY ("
                               +:+ Go.Join (map (fun pk => "`" +:+ pk +:+ "`")
                                                (Part001.PrimaryKeys c1)) ", "
                               +:+ ")"])
                     ("," +:+ Go.nl)
               +:+ Go.nl
               +:+ ") ENGINE=InnoDB DEFAULT CHARSET=utf8mb4 COLLATE=utf8mb4_unicode_ci;").
Proof.
  intros Hpk Hpk1 Hlen.
  exists (map Spec.columnDef (Spec.keptColumns headers columnTypes headers)).
  pose proof (columnDefs_kept headers columnTypes headers Hlen eq_refl) as Hdefs.
  split; [exact Hdefs|].
  unfold Part002.generateCreateTable, Part001.generateCreateTable, Shared.createTableBody.
  rewrite Hdefs.
  destruct (Part002.PrimaryKeys c) as [|pk pks] eqn:Ec; [congruence|].
  destruct (Part001.PrimaryKeys c1) as [|pk1 pks1] eqn:Ec1; [congruence|].
  split; reflexivity.
Qed.

Lemma C10_witness :
  exists defs : list string,
    Shared.columnDefs ["id"; "name"] ["SKIP"; "TEXT"] = Some defs
    /\ Part002.generateCreateTable Ex.ghostKeyConfig ["id"; "name"] ["SKIP"; "TEXT"]
       = Some ("CREATE TABLE `t` (" +:+ Go.nl
               +:+ Go.Join (defs ++ ["  PRIMARY KEY (`id`, `ghost`)"]) ("," +:+ Go.nl)
               +:+ Go.nl
               +:+ ") ENGINE=InnoDB DEFAULT CHARSET=utf8mb4 COLLATE=utf8mb4_unicode_ci;")
    /\ Part001.generateCreateTable (Ex.converter "t" ["id"; "ghost"])
         ["id"; "name"] ["SKIP"; "TEXT"]
       = Some ("-- DROP TABLE t;" +:+ Go.nl
               +:+ "CREATE TABLE `t` (" +:+ Go.nl
               +:+ Go.Join (defs ++ ["  PRIMARY KEY (`id`, `ghost`)"]) ("," +:+ Go.nl)
               +:+ Go.nl
               +:+ ") ENGINE=InnoDB DEFAULT CHARSET=utf8mb4 COLLATE=utf8mb4_unicode_ci;").
Proof.
  exact (C10_primary_key_clause Ex.ghostKeyConfig (Ex.converter "t" ["id"; "ghost"])
           ["id"; "name"] ["SKIP"; "TEXT"]
           ltac:(discriminate) ltac:(discriminate) eq_refl).
Defined.

(** The whole DDL of that configuration: the skipped column [id] is
    not defined, and is still the primary key. *)
Example primary_key_of_skipped_column :
  Part002.Convert RunAscii.runtime Ex.ghostKeyConfig
    (Spec.fileOf [["id"; "name"]; ["1"; "Al"]])
  = (Ok ("CREATE TABLE `t` (" +:+ Go.nl
         +:+ "  `name` VARCHAR(255)," +:+ Go.nl
         +:+ "  PRIMARY KEY (`id`, `ghost`)" +:+ Go.nl
         +:+ ") ENGINE=InnoDB DEFAULT CHARSET=utf8mb4 COLLATE=utf8mb4_unicode_ci;",
         "INSERT INTO `t` (`name`) VALUES" +:+ Go.nl +:+ "('Al');" +:+ Go.nl),
     []).
Proof. vm_compute. reflexivity. Qed.

(** ** Examples *)

(** [TrimSpace] removes the no-break space U+00A0 (bytes C2 A0) and the
    em space U+2003 (bytes E2 80 83) like the ASCII blanks, and leaves a
    lone byte A0 alone. *)
Example TrimSpace_examples :
  Go.TrimSpace (" " +:+ String (ascii_of_N 9) "Order ID  ") = "Order ID"
  /\ Go.TrimSpace (String (ascii_of_N 194) (String (ascii_of_N 160) "x")
                   +:+ String (ascii_of_N 226) (String (ascii_of_N 128)
                         (String (ascii_of_N 131) ""))) = "x"
  /\ Go.TrimSpace (String (ascii_of_N 160) "x") = String (ascii_of_N 160) "x".
Proof. repeat split; vm_compute; reflexivity. Qed.

Example ParseInt64_examples :
  Go.ParseInt64 "42" = true /\ Go.ParseInt64 "-9223372036854775808" = true
  /\ Go.ParseInt64 "9223372036854775808" = false /\ Go.ParseInt64 "+" = false
  /\ Go.ParseInt64 "4.2" = false /\ Go.ParseInt64 "" = false
  /\ Go.ParseInt64 "1_000" = false.
Proof. repeat split; vm_compute; reflexivity. Qed.

Example isDate_examples :
  Shared.isDate "2024-01-05" = true /\ Shared.isDate "01/05/2024" = true
  /\ Shared.isDate "2024-01-06 10:00:00" = true
  /\ Shared.isDate "2024-01-06T10:00:00Z" = true
  /\ Shared.isDate "2024-1-5" = false /\ Shared.isDate "2024-01-05 " = false.
Proof. repeat split; vm_compute; reflexivity. Qed.

(** The scenario of the specification: three columns, two rows, one
    batch statement; the integer and the name are quoted, the decimal
    is not, the empty price is NULL. *)
Example convert_scenario :
  Part002.Convert RunAscii.runtime (Ex.config "t")
    (Spec.fileOf [["id"; "name"; "price"]; ["1"; "Alice"; "19.99"]; ["2"; "Bob"; ""]])
  = (Ok ("CREATE TABLE `t` (" +:+ Go.nl
         +:+ "  `id` BIGINT," +:+ Go.nl
         +:+ "  `name` VARCHAR(255)," +:+ Go.nl
         +:+ "  `price` DECIMAL(20,6)" +:+ Go.nl
         +:+ ") ENGINE=InnoDB DEFAULT CHARSET=utf8mb4 COLLATE=utf8mb4_unicode_ci;",
         "INSERT INTO `t` (`id`, `name`, `price`) VALUES" +:+ Go.nl
         +:+ "('1', 'Alice', 19.99)," +:+ Go.nl
         +:+ "('2', 'Bob', NULL);" +:+ Go.nl),
     []).
Proof. vm_compute. reflexivity. Qed.

(** Quotes and backslashes are doubled. *)
Example escape_examples :
  Shared.valueLiteral RunAscii.runtime "NULL" "TEXT" "O'Brien" = "'O''Brien'"
  /\ Shared.valueLiteral RunAscii.runtime "NULL" "TEXT" "a\b" = "'a\\b'"
  /\ Shared.valueLiteral RunAscii.runtime "NULL" "INT" " 42 " = "42"
  /\ Shared.valueLiteral RunAscii.runtime "NULL" "DECIMAL(20,6)" "n/a" = "'n/a'"
  /\ Shared.valueLiteral RunAscii.runtime "NULL" "TEXT" " null " = "NULL".
Proof. repeat split; vm_compute; reflexivity. Qed.

(* ================================================================== *)
(** * Further properties of part_002                                    *)
(* ================================================================== *)

(** ** What type sampling computes *)

Section SamplingFold.
Variable R : GoRuntime.
Variable c : Part002.Config.

Lemma refineRecord_lookup (headers columnTypes record : list string)
    (i : nat) (h t v : string) :
  headers !! i = Some h -> columnTypes !! i = Some t -> record !! i = Some v ->
  Part002.refineRecord R c headers columnTypes record !! i
  = Some (Part002.refineField R c h t v).
Proof.
  revert columnTypes record i.
  induction headers as [|h0 hs IH]; intros [|t0 ts] [|v0 vs] i Hh Ht Hv;
    try discriminate.
  destruct i as [|i]; cbn [Part002.refineRecord].
  - injection Hh as ->. injection Ht as ->. injection Hv as ->. reflexivity.
  - apply (IH ts vs i); assumption.
Qed.

Lemma field_lookup (i : nat) (record : list string) :
  (i < length record)%nat -> record !! i = Some (Sampling.field i record).
Proof.
  revert i. induction record as [|v vs IH]; intros [|i] Hi; simpl in *;
    try lia; [reflexivity|].
  apply IH. lia.
Qed.

(** The sampling loop, on rows that all have the header's field count,
    folds [refineRecord] over the first rows. *)
Lemma sample_fold (headers : list string) (rows : list (list string)) :
  Forall (fun r => length r = length headers) rows ->
  forall (fpr : Z) (columnTypes : list string) (sampleCount : Z) (log : list string),
    Spec.fprOk headers fpr ->
    Part002.sample R c headers (map csv.Parsed rows) fpr columnTypes sampleCount log
    = (Ok (fold_left (Part002.refineRecord R c headers)
                     (take (Sampling.sampleSize (Part002.MaxSampleSize c - sampleCount))
                           rows)
                     columnTypes),
       log).
Proof.
  intros Hrows. induction Hrows as [|r rows Hr Hrows IH]; intros fpr ts n log Hfpr.
  - now rewrite take_nil.
  - cbn [map Part002.sample].
    destruct (readRecord_ok headers r fpr Hfpr Hr) as (fpr' & -> & Hfpr').
    rewrite Hr, Nat.eqb_refl. cbn [negb].
    unfold Sampling.sampleSize.
    destruct (Part002.MaxSampleSize c <=? n + 1) eqn:Hmax.
    + apply Z.leb_le in Hmax.
      replace (Z.to_nat (Z.max 1 (Part002.MaxSampleSize c - n))) with 1%nat by lia.
      reflexivity.
    + apply Z.leb_gt in Hmax.
      rewrite (IH fpr' _ (n + 1) log Hfpr'). unfold Sampling.sampleSize.
      replace (Z.to_nat (Z.max 1 (Part002.MaxSampleSize c - n)))
        with (S (Z.to_nat (Z.max 1 (Part002.MaxSampleSize c - (n + 1))))) by lia.
      reflexivity.
Qed.

Lemma fold_refineRecord_length (headers : list string) (rows : list (list string)) :
  forall columnTypes : list string,
    length (fold_left (Part002.refineRecord R c headers) rows columnTypes)
    = length columnTypes.
Proof.
  induction rows as [|r rows IH]; intros ts; [reflexivity|].
  cbn [fold_left]. now rewrite IH, refineRecord_length.
Qed.

(** Column by column: the type at index [i] is the fold of
    [refineField] over the fields at index [i]. *)
Lemma fold_refineRecord_lookup (headers : list string) (rows : list (list string))
    (i : nat) (h : string) :
  headers !! i = Some h ->
  Forall (fun r => length r = length headers) rows ->
  forall (columnTypes : list string) (t : string),
    columnTypes !! i = Some t ->
    fold_left (Part002.refineRecord R c headers) rows columnTypes !! i
    = Some (fold_left (Part002.refineField R c h) (map (Sampling.field i) rows) t).
Proof.
  intros Hh Hrows. induction Hrows as [|r rows Hr Hrows IH]; intros ts t Ht.
  - exact Ht.
  - cbn [fold_left map]. apply IH.
    apply refineRecord_lookup; [exact Hh|exact Ht|].
    apply field_lookup. rewrite Hr. now apply lookup_lt_Some in Hh.
Qed.

(** [refineType] never answers SKIP. *)
Lemma refineType_not_SKIP (currentType value : string) :
  Part002.refineType R c currentType value <> "SKIP".
Proof.
  unfold Part002.refineType.
  destruct (Shared.isInteger value); [discriminate|].
  destruct (Shared.isDecimal R value); [discriminate|].
  destruct (Shared.isDate value).
  - destruct (10 <? Go.len value); discriminate.
  - destruct (Part002.TextThreshold c <? Go.len value); [discriminate|].
    destruct (Part002.VarcharLength c <? Go.len value); discriminate.
Qed.

Lemma refineField_not_SKIP (h t v : string) :
  t <> "SKIP" -> Part002.refineField R c h t v <> "SKIP".
Proof.
  intros Ht. unfold Part002.refineField.
  destruct (String.eqb t "SKIP"); [exact Ht|].
  destruct (Part002.forced c h); [exact Ht|].
  destruct (Shared.isNull R (Part002.NullString c) (Go.TrimSpace v)); [exact Ht|].
  apply refineType_not_SKIP.
Qed.

Lemma fold_last_Some (NullString : string) (fields : list string) (x : string) :
  exists y,
    fold_left (fun acc v => if Spec.nullField R NullString v then acc
                            else Some (Go.TrimSpace v))
              fields (Some x) = Some y.
Proof.
  revert x. induction fields as [|v fields IH]; intros x; [now exists x|].
  cbn [fold_left]. destruct (Spec.nullField R NullString v); apply IH.
Qed.

(** The last value that is not NULL decides the type of a column that
    is neither forced nor skipped. *)
Lemma fold_refineField_last (h : string) (fields : list string) :
  Part002.forced c h = false ->
  forall (t : string) (last : option string),
    t <> "SKIP" ->
    (forall x, last = Some x -> t = Part002.refineType R c "TEXT" x) ->
    fold_left (Part002.refineField R c h) fields t
    = match fold_left (fun acc v => if Spec.nullField R (Part002.NullString c) v
                                    then acc else Some (Go.TrimSpace v))
                      fields last with
      | Some v => Part002.refineType R c "TEXT" v
      | None => t
      end.
Proof.
  intros Hf. induction fields as [|v fields IH]; intros t last Ht Hlast.
  - simpl. destruct last as [x|]; [now apply Hlast|reflexivity].
  - cbn [fold_left].
    assert (Hstep : Part002.refineField R c h t v
                    = if Spec.nullField R (Part002.NullString c) v then t
                      else Part002.refineType R c "TEXT" (Go.TrimSpace v)).
    { unfold Part002.refineField, Spec.nullField. rewrite Hf.
      apply String.eqb_neq in Ht. rewrite Ht.
      destruct (Shared.isNull R (Part002.NullString c) (Go.TrimSpace v)); reflexivity. }
    rewrite Hstep.
    destruct (Spec.nullField R (Part002.NullString c) v) eqn:Hnull.
    + now apply IH.
    + rewrite (IH _ (Some (Go.TrimSpace v))).
      * destruct (fold_last_Some (Part002.NullString c) fields (Go.TrimSpace v))
          as [y ->]. reflexivity.
      * apply refineType_not_SKIP.
      * intros x Hx. now injection Hx as <-.
Qed.

End SamplingFold.

Section SamplingProps.
Variable R : GoRuntime.
Variable c : Part002.Config.

Lemma fold_refineField_pinned (h : string) (fields : list string) (t : string) :
  Spec.pinned (Part002.ForceTypes c) h t ->
  fold_left (Part002.refineField R c h) fields t = t.
Proof.
  intros Hp. induction fields as [|v fields IH]; [reflexivity|].
  cbn [fold_left]. now rewrite (refineField_pinned R c h t v Hp).
Qed.

(** When the fast path is taken every column is pinned. *)
Lemma allForced_pinned (headers : list string) (i : nat) (h : string) :
  Part002.allForced (Part002.initialTypes c headers) = true ->
  headers !! i = Some h ->
  Spec.pinned (Part002.ForceTypes c) h (Part002.initialType c h).
Proof.
  intros Hall Hh. unfold Part002.allForced in Hall.
  rewrite forallb_forall in Hall.
  assert (Hin : In (Part002.initialType c h) (Part002.initialTypes c headers)).
  { unfold Part002.initialTypes. apply List.in_map.
    apply list_elem_of_In. now apply (list_elem_of_lookup_2 _ i). }
  apply Hall in Hin. unfold Spec.pinned, Part002.initialType in *.
  destruct (Part002.ForceTypes c !! h) as [t|]; [left; eauto|].
  destruct (Part002.skipped c h); [now right|].
  vm_compute in Hin. discriminate Hin.
Qed.

(** The type of column [i] after sampling rows that all have the
    header's field count. *)
Lemma determineColumnTypes_column (headers : list string) (rows : list (list string))
    (fpr : Z) (i : nat) (h : string) :
  Forall (fun r => length r = length headers) rows ->
  Spec.fprOk headers fpr ->
  headers !! i = Some h ->
  exists types : list string,
    Part002.determineColumnTypes R c
      {| csv.input := map csv.Parsed rows; csv.FieldsPerRecord := fpr |} headers
    = (Ok types, [])
    /\ length types = length headers
    /\ types !! i
       = Some (Sampling.columnType R c h
                 (map (Sampling.field i)
                      (take (Sampling.sampleSize (Part002.MaxSampleSize c)) rows))).
Proof.
  intros Hrows Hfpr Hh. unfold Part002.determineColumnTypes, Sampling.columnType.
  cbn [csv.input csv.FieldsPerRecord].
  assert (Hlen : length (Part002.initialTypes c headers) = length headers)
    by (unfold Part002.initialTypes; apply length_map).
  destruct (Part002.allForced (Part002.initialTypes c headers)) eqn:Hall.
  - eexists. split; [reflexivity|]. split; [exact Hlen|].
    rewrite fold_refineField_pinned by now apply (allForced_pinned headers i).
    now apply initialTypes_lookup.
  - rewrite (sample_fold R c headers rows Hrows fpr _ 0 [] Hfpr).
    rewrite Z.sub_0_r.
    eexists. split; [reflexivity|]. split.
    + now rewrite fold_refineRecord_length.
    + apply fold_refineRecord_lookup; [exact Hh| |now apply initialTypes_lookup].
      apply Forall_take. exact Hrows.
Qed.

(** X1. Columns are inferred independently: the type of a column after
    sampling is the fold of [refineField] over the fields of that column
    in the first max(1, MaxSampleSize) rows, starting from its initial
    type; no other column and no later row takes part. *)
Theorem sampling_is_columnwise (headers : list string) (rows : list (list string))
    (fpr : Z) (i : nat) (h : string) :
  Forall (fun r => length r = length headers) rows ->
  Spec.fprOk headers fpr ->
  headers !! i = Some h ->
  exists types : list string,
    Part002.determineColumnTypes R c
      {| csv.input := map csv.Parsed rows; csv.FieldsPerRecord := fpr |} headers
    = (Ok types, [])
    /\ length types = length headers
    /\ types !! i
       = Some (fold_left (Part002.refineField R c h)
                 (map (Sampling.field i)
                      (take (Sampling.sampleSize (Part002.MaxSampleSize c)) rows))
                 (Part002.initialType c h)).
Proof. apply determineColumnTypes_column. Qed.

(** X2. In a column that is neither forced nor skipped the last sampled
    field that is not NULL decides alone: the type is the class of that
    value, and TEXT when every sampled field is NULL. *)
Theorem last_sampled_value_decides (headers : list string) (rows : list (list string))
    (fpr : Z) (i : nat) (h : string) :
  Forall (fun r => length r = length headers) rows ->
  Spec.fprOk headers fpr ->
  headers !! i = Some h ->
  Part002.ForceTypes c !! h = None ->
  Part002.skipped c h = false ->
  exists types : list string,
    Part002.determineColumnTypes R c
      {| csv.input := map csv.Parsed rows; csv.FieldsPerRecord := fpr |} headers
    = (Ok types, [])
    /\ types !! i
       = Some (match Sampling.lastValue R (Part002.NullString c)
                       (map (Sampling.field i)
                            (take (Sampling.sampleSize (Part002.MaxSampleSize c)) rows))
               with
               | Some v => Part002.refineType R c "TEXT" v
               | None => "TEXT"
               end).
Proof.
  intros Hrows Hfpr Hh Hforce Hskip.
  destruct (determineColumnTypes_column headers rows fpr i h Hrows Hfpr Hh)
    as (types & Hrun & _ & Hi).
  exists types. split; [exact Hrun|]. rewrite Hi. f_equal.
  unfold Sampling.columnType, Sampling.lastValue.
  assert (Hinit : Part002.initialType c h = "TEXT").
  { unfold Part002.initialType. now rewrite Hforce, Hskip. }
  rewrite Hinit. apply fold_refineField_last.
  - unfold Part002.forced. apply bool_decide_eq_false. rewrite Hforce.
    intros [x Hx]. discriminate Hx.
  - discriminate.
  - intros x Hx. discriminate Hx.
Qed.

End SamplingProps.

Lemma sampling_is_columnwise_witness :
  exists types : list string,
    Part002.determineColumnTypes RunAscii.runtime
      {| Part002.InputFile := "input.csv"; Part002.TableName := "t";
         Part002.Delimiter := ","; Part002.HasHeader := true;
         Part002.VarcharLength := 255; Part002.TextThreshold := 500;
         Part002.BatchInsert := true; Part002.BatchSize := 100;
         Part002.NullString := "NULL"; Part002.ForceTypes := ∅;
         Part002.SkipColumns := ∅; Part002.PrimaryKeys := [];
         Part002.MaxSampleSize := 2 |}
      {| csv.input := map csv.Parsed [["1"; "a"]; ["x"; "2.5"]; ["3"; "c"]];
         csv.FieldsPerRecord := 2 |}
      ["id"; "v"]
    = (Ok types, [])
    /\ length types = 2%nat
    /\ types !! 1%nat = Some "DECIMAL(20,6)".
Proof.
  exact (sampling_is_columnwise RunAscii.runtime
           {| Part002.InputFile := "input.csv"; Part002.TableName := "t";
              Part002.Delimiter := ","; Part002.HasHeader := true;
              Part002.VarcharLength := 255; Part002.TextThreshold := 500;
              Part002.BatchInsert := true; Part002.BatchSize := 100;
              Part002.NullString := "NULL"; Part002.ForceTypes := ∅;
              Part002.SkipColumns := ∅; Part002.PrimaryKeys := [];
              Part002.MaxSampleSize := 2 |}
           ["id"; "v"] [["1"; "a"]; ["x"; "2.5"]; ["3"; "c"]] 2 1%nat "v"
           ltac:(repeat constructor) (or_intror eq_refl) eq_refl).
Defined.

Lemma last_sampled_value_decides_witness :
  exists types : list string,
    Part002.determineColumnTypes RunAscii.runtime (Ex.config "t")
      {| csv.input := map csv.Parsed [["1"; "long text"]; ["x"; "7"]; ["3"; ""]];
         csv.FieldsPerRecord := 2 |}
      ["id"; "v"]
    = (Ok types, [])
    /\ types !! 1%nat = Some "BIGINT".
Proof.
  exact (last_sampled_value_decides RunAscii.runtime (Ex.config "t")
           ["id"; "v"] [["1"; "long text"]; ["x"; "7"]; ["3"; ""]] 2 1%nat "v"
           ltac:(repeat constructor) (or_intror eq_refl) eq_refl eq_refl eq_refl).
Defined.

(** ** The sample window, the log and the errors of sampling *)

Section SamplingWindow.
Variable R : GoRuntime.
Variable c : Part002.Config.

Lemma sample_window (headers : list string) (rows : list (list string))
    (more : list csv.Line) :
  Forall (fun r => length r = length headers) rows ->
  forall (fpr : Z) (columnTypes : list string) (sampleCount : Z) (log : list string),
    Spec.fprOk headers fpr ->
    rows <> [] ->
    Part002.MaxSampleSize c <= sampleCount + Z.of_nat (length rows) ->
    Part002.sample R c headers (map csv.Parsed rows ++ more) fpr columnTypes sampleCount log
    = Part002.sample R c headers (map csv.Parsed rows) fpr columnTypes sampleCount log.
Proof.
  intros Hrows. induction Hrows as [|r rows Hr Hrows IH];
    intros fpr ts n log Hfpr Hne Hmax; [congruence|].
  cbn [map app Part002.sample].
  destruct (readRecord_ok headers r fpr Hfpr Hr) as (fpr' & -> & Hfpr').
  rewrite Hr, Nat.eqb_refl. cbn [negb].
  destruct (Part002.MaxSampleSize c <=? n + 1) eqn:Hstop; [reflexivity|].
  apply Z.leb_gt in Hstop. apply IH; [exact Hfpr'| |].
  - intros ->. simpl in Hmax. lia.
  - simpl length in Hmax. lia.
Qed.

(** X3. Nothing behind the sample window is read: once [MaxSampleSize]
    rows of the right field count have been sampled, the lines that
    follow, malformed ones included, change neither the types nor the
    outcome. *)
Theorem sampling_stops_at_the_window (headers : list string)
    (rows : list (list string)) (more : list csv.Line) (fpr : Z) :
  Forall (fun r => length r = length headers) rows ->
  Spec.fprOk headers fpr ->
  rows <> [] ->
  Part002.MaxSampleSize c <= Z.of_nat (length rows) ->
  Part002.determineColumnTypes R c
    {| csv.input := map csv.Parsed rows ++ more; csv.FieldsPerRecord := fpr |} headers
  = Part002.determineColumnTypes R c
      {| csv.input := map csv.Parsed rows; csv.FieldsPerRecord := fpr |} headers.
Proof.
  intros Hrows Hfpr Hne Hmax. unfold Part002.determineColumnTypes.
  cbn [csv.input csv.FieldsPerRecord].
  destruct (Part002.allForced (Part002.initialTypes c headers)); [reflexivity|].
  apply sample_window; first [assumption | lia].
Qed.

(** After a header of at least one field the sampling pass has nothing
    to log: the reader never returns, with a nil error, a record of
    another length, so the branch that skips a row is dead. *)
Lemma sampling_logs_nothing (reader : csv.Reader) (headers : list string) :
  (0 < length headers)%nat ->
  csv.FieldsPerRecord reader = Z.of_nat (length headers) ->
  snd (Part002.determineColumnTypes R c reader headers) = [].
Proof.
  intros Hpos Hfpr. unfold Part002.determineColumnTypes.
  destruct (Part002.allForced (Part002.initialTypes c headers)); [reflexivity|].
  rewrite Hfpr. apply sample_never_skips. lia.
Qed.

Lemma readRecord_rejected (headers : list string) (l : csv.Line) :
  (0 < length headers)%nat ->
  Sampling.accepted (length headers) l = false ->
  exists record e fpr',
    csv.readRecord (Z.of_nat (length headers)) l = (csv.Failed record e, fpr').
Proof.
  intros Hpos Hacc. unfold csv.readRecord.
  destruct l as [fs|fs]; [|eauto].
  simpl in Hacc. apply Nat.eqb_neq in Hacc.
  assert (Hp : (0 <? Z.of_nat (length headers)) = true) by (apply Z.ltb_lt; lia).
  assert (Hn : (Z.of_nat (length fs) =? Z.of_nat (length headers)) = false)
    by (apply Z.eqb_neq; lia).
  rewrite Hp, Hn. simpl. eauto.
Qed.

Lemma sample_rejected (headers : list string) (rows : list (list string))
    (bad : csv.Line) (rest : list csv.Line) :
  (0 < length headers)%nat ->
  Forall (fun r => length r = length headers) rows ->
  Sampling.accepted (length headers) bad = false ->
  forall (columnTypes : list string) (sampleCount : Z) (log : list string),
    sampleCount + Z.of_nat (length rows) < Part002.MaxSampleSize c ->
    exists e,
      Part002.sample R c headers (map csv.Parsed rows ++ bad :: rest)
        (Z.of_nat (length headers)) columnTypes sampleCount log
      = (Err (ErrReadingRecord e), log).
Proof.
  intros Hpos Hrows Hbad. induction Hrows as [|r rows Hr Hrows IH]; intros ts n log Hmax.
  - cbn [map app Part002.sample].
    destruct (readRecord_rejected headers bad Hpos Hbad) as (record & e & fpr' & ->).
    now exists e.
  - cbn [map app Part002.sample].
    destruct (readRecord_ok headers r _ (or_intror eq_refl) Hr) as (fpr' & Hread & Hfpr').
    rewrite Hread.
    apply readRecord_field_count in Hread as [_ ->]; [|lia].
    rewrite Hr, Nat.eqb_refl. cbn [negb].
    simpl length in Hmax.
    destruct (Part002.MaxSampleSize c <=? n + 1) eqn:Hstop.
    + apply Z.leb_le in Hstop. lia.
    + apply IH. lia.
Qed.

(** X4. One malformed row, or one row of another length than the header,
    inside the sample window makes type inference fail with the
    reader's error: the rows sampled before it are of no use. *)
Theorem sampling_fails_on_a_rejected_row (headers : list string)
    (rows : list (list string)) (bad : csv.Line) (rest : list csv.Line) :
  (0 < length headers)%nat ->
  Part002.allForced (Part002.initialTypes c headers) = false ->
  Forall (fun r => length r = length headers) rows ->
  Sampling.accepted (length headers) bad = false ->
  Z.of_nat (length rows) < Part002.MaxSampleSize c ->
  exists e,
    Part002.determineColumnTypes R c
      {| csv.input := map csv.Parsed rows ++ bad :: rest;
         csv.FieldsPerRecord := Z.of_nat (length headers) |} headers
    = (Err (ErrReadingRecord e), []).
Proof.
  intros Hpos Hall Hrows Hbad Hmax. unfold Part002.determineColumnTypes.
  rewrite Hall. cbn [csv.input csv.FieldsPerRecord].
  apply sample_rejected; first [assumption | lia].
Qed.

Lemma refineRecord_not_SKIP (headers columnTypes record : list string)
    (i : nat) (h t : string) :
  headers !! i = Some h -> columnTypes !! i = Some t -> t <> "SKIP" ->
  exists t', Part002.refineRecord R c headers columnTypes record !! i = Some t'
             /\ t' <> "SKIP".
Proof.
  revert columnTypes record i.
  induction headers as [|h0 hs IH]; intros [|t0 ts] [|v vs] i Hh Ht Hne;
    try discriminate; try (exists t; split; [exact Ht|exact Hne]).
  destruct i as [|i]; cbn [Part002.refineRecord].
  - injection Hh as ->. injection Ht as ->. eexists. split; [reflexivity|].
    now apply refineField_not_SKIP.
  - apply (IH ts vs i); assumption.
Qed.

Lemma sample_not_SKIP (headers : list string) (lines : list csv.Line) :
  forall (fpr : Z) (columnTypes : list string) (sampleCount : Z) (log : list string)
         (types : list string) (log' : list string),
    Part002.sample R c headers lines fpr columnTypes sampleCount log = (Ok types, log') ->
    forall (i : nat) (h t : string),
      headers !! i = Some h -> columnTypes !! i = Some t -> t <> "SKIP" ->
      exists t', types !! i = Some t' /\ t' <> "SKIP".
Proof.
  induction lines as [|l lines IH]; intros fpr ts n log types log' H i h t Hh Ht Hne.
  - injection H as <- _. eauto.
  - cbn [Part002.sample] in H.
    destruct (csv.readRecord fpr l) as [[|record|record e] fpr'] eqn:Hread.
    + injection H as <- _. eauto.
    + destruct (negb (length record =? length headers)%nat).
      * apply (IH _ _ _ _ _ _ H i h t); assumption.
      * destruct (refineRecord_not_SKIP headers ts record i h t Hh Ht Hne)
          as (t1 & Ht1 & Hne1).
        destruct (Part002.MaxSampleSize c <=? n + 1).
        -- injection H as <- _. eauto.
        -- apply (IH _ _ _ _ _ _ H i h t1); assumption.
    + discriminate.
Qed.

(** X5. Inference never drops a column: after sampling a column is SKIP if
    and only if it was SKIP before, by the skip set or by a forced type
    SKIP. *)
Theorem sampling_skips_only_configured_columns (reader : csv.Reader)
    (headers types log : list string) (i : nat) (h : string) :
  Part002.determineColumnTypes R c reader headers = (Ok types, log) ->
  headers !! i = Some h ->
  (types !! i = Some "SKIP" <-> Part002.initialType c h = "SKIP").
Proof.
  intros H Hh. split.
  - intros Hskip.
    destruct (String.eqb (Part002.initialType c h) "SKIP") eqn:He;
      [now apply String.eqb_eq in He|].
    apply String.eqb_neq in He. exfalso.
    unfold Part002.determineColumnTypes in H.
    pose proof (initialTypes_lookup c headers i h Hh) as Hinit.
    destruct (Part002.allForced (Part002.initialTypes c headers)).
    + injection H as <- _. congruence.
    + destruct (sample_not_SKIP _ _ _ _ _ _ _ _ H i h _ Hh Hinit He) as (t' & Ht' & Hne).
      congruence.
  - intros Hinit. apply determineColumnTypes_pinned in H as [_ Hkeep].
    rewrite <- Hinit. apply Hkeep; [exact Hh|]. right. exact Hinit.
Qed.

End SamplingWindow.

Lemma sampling_stops_at_the_window_witness :
  Part002.determineColumnTypes RunAscii.runtime
    {| Part002.InputFile := "input.csv"; Part002.TableName := "t";
       Part002.Delimiter := ","; Part002.HasHeader := true;
       Part002.VarcharLength := 255; Part002.TextThreshold := 500;
       Part002.BatchInsert := true; Part002.BatchSize := 100;
       Part002.NullString := "NULL"; Part002.ForceTypes := ∅;
       Part002.SkipColumns := ∅; Part002.PrimaryKeys := [];
       Part002.MaxSampleSize := 2 |}
    {| csv.input := map csv.Parsed [["1"]; ["2"]] ++ [csv.Malformed ["3"]; csv.Parsed ["x"; "y"]];
       csv.FieldsPerRecord := 1 |} ["id"]
  = Part002.determineColumnTypes RunAscii.runtime
      {| Part002.InputFile := "input.csv"; Part002.TableName := "t";
         Part002.Delimiter := ","; Part002.HasHeader := true;
         Part002.VarcharLength := 255; Part002.TextThreshold := 500;
         Part002.BatchInsert := true; Part002.BatchSize := 100;
         Part002.NullString := "NULL"; Part002.ForceTypes := ∅;
         Part002.SkipColumns := ∅; Part002.PrimaryKeys := [];
         Part002.MaxSampleSize := 2 |}
      {| csv.input := map csv.Parsed [["1"]; ["2"]]; csv.FieldsPerRecord := 1 |} ["id"].
Proof.
  apply (sampling_stops_at_the_window RunAscii.runtime _ ["id"] [["1"]; ["2"]]
           [csv.Malformed ["3"]; csv.Parsed ["x"; "y"]] 1).
  - repeat constructor.
  - now right.
  - discriminate.
  - simpl. lia.
Defined.

Lemma sampling_fails_on_a_rejected_row_witness :
  exists e,
    Part002.determineColumnTypes RunAscii.runtime (Ex.config "t")
      {| csv.input := map csv.Parsed [["1"; "a"]] ++ csv.Parsed ["2"] :: [csv.Parsed ["3"; "c"]];
         csv.FieldsPerRecord := Z.of_nat (length ["id"; "v"]) |} ["id"; "v"]
    = (Err (ErrReadingRecord e), []).
Proof.
  apply (sampling_fails_on_a_rejected_row RunAscii.runtime (Ex.config "t")
           ["id"; "v"] [["1"; "a"]] (csv.Parsed ["2"]) [csv.Parsed ["3"; "c"]]).
  - simpl. lia.
  - reflexivity.
  - repeat constructor.
  - reflexivity.
  - simpl. lia.
Defined.

Lemma sampling_skips_only_configured_columns_witness :
  ["INT AUTO_INCREMENT"; "BIGINT"; "SKIP"] !! 2%nat = Some "SKIP"
  <-> Part002.initialType Ex.mainConfig "internal_code" = "SKIP".
Proof.
  apply (sampling_skips_only_configured_columns RunAscii.runtime Ex.mainConfig
           {| csv.input := [csv.Parsed ["7"; "8"; "zz"]]; csv.FieldsPerRecord := 3 |}
           ["id"; "name"; "internal_code"] ["INT AUTO_INCREMENT"; "BIGINT"; "SKIP"] []
           2%nat "internal_code").
  - reflexivity.
  - reflexivity.
Defined.

(** ** The serializer: modes, bounds and errors *)

Lemma chunksFrom_singletons (n : Z) (rows : list string) :
  n <= 1 -> Spec.chunksFrom n [] rows = map (fun row => [row]) rows.
Proof.
  intros Hn. induction rows as [|row rows IH]; [reflexivity|].
  cbn [Spec.chunksFrom map app length].
  destruct (n <=? Z.of_nat 1) eqn:He.
  - now rewrite IH.
  - apply Z.leb_gt in He. lia.
Qed.

Section Serializer002.
Variable R : GoRuntime.
Variable c : Part002.Config.
Variables headers columnTypes : list string.
Hypothesis Htypes : length columnTypes = length headers.

(** X7. Without batching every row gets its own INSERT statement, in input
    order. *)
Theorem single_row_mode_one_statement_per_row (file : File)
    (headerRow : list string) (rows : list (list string)) :
  Part002.BatchInsert c = false ->
  records file false
  = map csv.Parsed (if Part002.HasHeader c then headerRow :: rows else rows) ->
  length headerRow = length headers ->
  Forall (fun r => length r = length headers) rows ->
  Part002.generateInsertStatements R c file headers columnTypes
  = Ok (Spec.concatText
          (map (fun r => Spec.singleStatement (Part002.TableName c) headers columnTypes
                           (Spec.tupleOf R (Part002.NullString c) headers columnTypes r))
               rows)).
Proof.
  intros Hbatch Hfile Hhead Hrows.
  destruct (generateInsertStatements_rows R c headers columnTypes file headerRow rows
              Hfile Hhead) as (fpr & Hfpr & ->).
  now rewrite (insertLoop_single R c headers columnTypes Htypes rows Hbatch Hrows
                 fpr "" Hfpr).
Qed.

(** X8. A batch size of 1, of 0 or below 0 writes one batch statement per
    row: the buffer is flushed as soon as it holds a tuple. *)
Theorem batch_size_below_two_flushes_every_row (file : File)
    (headerRow : list string) (rows : list (list string)) :
  Part002.BatchInsert c = true ->
  Part002.BatchSize c <= 1 ->
  records file false
  = map csv.Parsed (if Part002.HasHeader c then headerRow :: rows else rows) ->
  length headerRow = length headers ->
  Forall (fun r => length r = length headers) rows ->
  Part002.generateInsertStatements R c file headers columnTypes
  = Ok (Spec.concatText
          (map (fun r => Spec.batchStatement (Part002.TableName c) headers columnTypes
                           [Spec.tupleOf R (Part002.NullString c) headers columnTypes r])
               rows)).
Proof.
  intros Hbatch Hsize Hfile Hhead Hrows.
  destruct (generateInsertStatements_rows R c headers columnTypes file headerRow rows
              Hfile Hhead) as (fpr & Hfpr & ->).
  rewrite (insertLoop_batch R c headers columnTypes Htypes rows Hbatch Hrows
             fpr "" [] Hfpr).
  rewrite chunksFrom_singletons by exact Hsize.
  now rewrite !List.map_map.
Qed.

Lemma insertLoop_rejected (rows : list (list string)) (bad : csv.Line)
    (rest : list csv.Line) :
  (0 < length headers)%nat ->
  Forall (fun r => length r = length headers) rows ->
  Sampling.accepted (length headers) bad = false ->
  forall (sb : string) (batchRows : list string),
    exists e,
      Part002.insertLoop R c headers columnTypes (map csv.Parsed rows ++ bad :: rest)
        (Z.of_nat (length headers)) sb batchRows
      = Err (ErrReadingRecord e).
Proof.
  intros Hpos Hrows Hbad. induction Hrows as [|r rows Hr Hrows IH]; intros sb buf.
  - cbn [map app Part002.insertLoop].
    destruct (readRecord_rejected headers bad Hpos Hbad) as (record & e & fpr' & ->).
    now exists e.
  - cbn [map app Part002.insertLoop].
    destruct (readRecord_ok headers r _ (or_intror eq_refl) Hr) as (fpr' & Hread & _).
    rewrite Hread. apply readRecord_field_count in Hread as [_ ->]; [|lia].
    rewrite Hr, Nat.eqb_refl. cbn [negb].
    rewrite (prepareValues_kept R (Part002.NullString c) headers columnTypes r Htypes Hr).
    destruct (Part002.BatchInsert c).
    + destruct (Part002.BatchSize c <=? _).
      * unfold Part002.formatBatchInsert.
        rewrite formatBatchInsert_statement by exact Htypes. apply IH.
      * apply IH.
    + rewrite (formatSingleInsert_statement R _ _ headers columnTypes r Htypes Hr).
      apply IH.
Qed.

(** X9. All or nothing: a malformed row, or a row of another length than
    the header, anywhere in the file makes the serializer return the
    reader's error and no text, whatever it had written or buffered for
    the rows before. *)
Theorem serializer_returns_no_partial_text (file : File) (headerRow : list string)
    (rows : list (list string)) (bad : csv.Line) (rest : list csv.Line) :
  Part002.HasHeader c = true ->
  records file false = csv.Parsed headerRow :: map csv.Parsed rows ++ bad :: rest ->
  length headerRow = length headers ->
  (0 < length headers)%nat ->
  Forall (fun r => length r = length headers) rows ->
  Sampling.accepted (length headers) bad = false ->
  exists e,
    Part002.generateInsertStatements R c file headers columnTypes
    = Err (ErrReadingRecord e).
Proof.
  intros Hheader Hfile Hhead Hpos Hrows Hbad.
  unfold Part002.generateInsertStatements. rewrite Hheader, Hfile.
  unfold csv.Read, csv.NewReader. cbn [csv.input csv.FieldsPerRecord].
  destruct (readRecord_ok headers headerRow 0 (or_introl eq_refl) Hhead)
    as (fpr' & Hread & [Hz | Hfpr']).
  - unfold csv.readRecord in Hread. simpl in Hread. injection Hread as Hr.
    rewrite Hhead in Hr. lia.
  - rewrite Hread, Hfpr'. cbn [csv.input csv.FieldsPerRecord].
    now apply insertLoop_rejected.
Qed.

End Serializer002.

Lemma insertLoop_no_mismatch (R : GoRuntime) (c : Part002.Config)
    (headers columnTypes : list string) (lines : list csv.Line) :
  (0 < length headers)%nat ->
  forall (sb : string) (batchRows : list string) (expected got : nat),
    Part002.insertLoop R c headers columnTypes lines (Z.of_nat (length headers)) sb batchRows
    <> Err (ErrColumnCountMismatch expected got).
Proof.
  intros Hpos. induction lines as [|l lines IH]; intros sb buf a b.
  - cbn [Part002.insertLoop].
    destruct (0 <? Z.of_nat (length buf)); [|discriminate].
    destruct (Part002.formatBatchInsert c headers columnTypes buf); discriminate.
  - cbn [Part002.insertLoop].
    destruct (csv.readRecord (Z.of_nat (length headers)) l)
      as [[|record|record e] fpr'] eqn:Hread; try discriminate.
    apply readRecord_field_count in Hread as [Hn ->]; [|lia].
    apply Nat2Z.inj in Hn. rewrite Hn, Nat.eqb_refl. cbn [negb].
    destruct (Shared.prepareValues R (Part002.NullString c) record columnTypes);
      [|discriminate].
    destruct (Part002.BatchInsert c).
    + destruct (Part002.BatchSize c <=? _); [|apply IH].
      destruct (Part002.formatBatchInsert c headers columnTypes _); [apply IH|discriminate].
    + destruct (Shared.formatSingleInsert _ _ _ _); [apply IH|discriminate].
Qed.


(** X10. The serializer's own error, "column count mismatch", cannot occur
    when the first record it reads has as many fields as there are
    headers: the reader rejects every later record of another length
    before the serializer compares the lengths. *)
Theorem serializer_never_reports_a_mismatch (R : GoRuntime) (c : Part002.Config)
    (file : File) (headers columnTypes : list string) (expected got : nat) :
  (0 < length headers)%nat ->
  match records file false with
  | csv.Parsed first :: _ => length first = length headers
  | _ => True
  end ->
  Part002.generateInsertStatements R c file headers columnTypes
  <> Err (ErrColumnCountMismatch expected got).
Proof.
  intros Hpos Hfirst. unfold Part002.generateInsertStatements.
  unfold csv.Read, csv.NewReader. cbn [csv.input csv.FieldsPerRecord].
  destruct (records file false) as [|[first|first] lines].
  - destruct (Part002.HasHeader c); discriminate.
  - assert (Hread : csv.readRecord 0 (csv.Parsed first)
                    = (csv.Record first, Z.of_nat (length headers))).
    { unfold csv.readRecord. simpl. now rewrite Hfirst. }
    destruct (Part002.HasHeader c).
    + rewrite Hread. cbn [csv.input csv.FieldsPerRecord].
      now apply insertLoop_no_mismatch.
    + cbn [Part002.insertLoop]. rewrite Hread, Hfirst, Nat.eqb_refl. cbn [negb].
      destruct (Shared.prepareValues R (Part002.NullString c) first columnTypes);
        [|discriminate].
      destruct (Part002.BatchInsert c).
      * destruct (Part002.BatchSize c <=? _);
          [|now apply insertLoop_no_mismatch].
        destruct (Part002.formatBatchInsert c headers columnTypes _);
          [now apply insertLoop_no_mismatch|discriminate].
      * destruct (Shared.formatSingleInsert _ _ _ _);
          [now apply insertLoop_no_mismatch|discriminate].
  - destruct (Part002.HasHeader c); cbn; discriminate.
Qed.

Lemma single_row_mode_one_statement_per_row_witness :
  Part002.generateInsertStatements RunAscii.runtime
    {| Part002.InputFile := "input.csv"; Part002.TableName := "t";
       Part002.Delimiter := ","; Part002.HasHeader := true;
       Part002.VarcharLength := 255; Part002.TextThreshold := 500;
       Part002.BatchInsert := false; Part002.BatchSize := 100;
       Part002.NullString := "NULL"; Part002.ForceTypes := ∅;
       Part002.SkipColumns := ∅; Part002.PrimaryKeys := [];
       Part002.MaxSampleSize := 1000 |}
    (Spec.fileOf [["id"; "v"]; ["1"; "a"]; ["2"; ""]]) ["id"; "v"] ["INT"; "TEXT"]
  = Ok ("INSERT INTO `t` (`id`, `v`) VALUES (1, 'a');" +:+ Go.nl
        +:+ "INSERT INTO `t` (`id`, `v`) VALUES (2, NULL);" +:+ Go.nl).
Proof.
  apply (single_row_mode_one_statement_per_row RunAscii.runtime
           {| Part002.InputFile := "input.csv"; Part002.TableName := "t";
              Part002.Delimiter := ","; Part002.HasHeader := true;
              Part002.VarcharLength := 255; Part002.TextThreshold := 500;
              Part002.BatchInsert := false; Part002.BatchSize := 100;
              Part002.NullString := "NULL"; Part002.ForceTypes := ∅;
              Part002.SkipColumns := ∅; Part002.PrimaryKeys := [];
              Part002.MaxSampleSize := 1000 |}
           ["id"; "v"] ["INT"; "TEXT"] eq_refl
           (Spec.fileOf [["id"; "v"]; ["1"; "a"]; ["2"; ""]])
           ["id"; "v"] [["1"; "a"]; ["2"; ""]]).
  - reflexivity.
  - reflexivity.
  - reflexivity.
  - repeat constructor.
Defined.

Lemma batch_size_below_two_flushes_every_row_witness :
  Part002.generateInsertStatements RunAscii.runtime
    {| Part002.InputFile := "input.csv"; Part002.TableName := "t";
       Part002.Delimiter := ","; Part002.HasHeader := true;
       Part002.VarcharLength := 255; Part002.TextThreshold := 500;
       Part002.BatchInsert := true; Part002.BatchSize := 0;
       Part002.NullString := "NULL"; Part002.ForceTypes := ∅;
       Part002.SkipColumns := ∅; Part002.PrimaryKeys := [];
       Part002.MaxSampleSize := 1000 |}
    (Spec.fileOf [["id"]; ["1"]; ["2"]]) ["id"] ["INT"]
  = Ok ("INSERT INTO `t` (`id`) VALUES" +:+ Go.nl +:+ "(1);" +:+ Go.nl
        +:+ "INSERT INTO `t` (`id`) VALUES" +:+ Go.nl +:+ "(2);" +:+ Go.nl).
Proof.
  apply (batch_size_below_two_flushes_every_row RunAscii.runtime
           {| Part002.InputFile := "input.csv"; Part002.TableName := "t";
              Part002.Delimiter := ","; Part002.HasHeader := true;
              Part002.VarcharLength := 255; Part002.TextThreshold := 500;
              Part002.BatchInsert := true; Part002.BatchSize := 0;
              Part002.NullString := "NULL"; Part002.ForceTypes := ∅;
              Part002.SkipColumns := ∅; Part002.PrimaryKeys := [];
              Part002.MaxSampleSize := 1000 |}
           ["id"] ["INT"] eq_refl
           (Spec.fileOf [["id"]; ["1"]; ["2"]]) ["id"] [["1"]; ["2"]]).
  - reflexivity.
  - simpl. lia.
  - reflexivity.
  - reflexivity.
  - repeat constructor.
Defined.

Lemma serializer_returns_no_partial_text_witness :
  exists e,
    Part002.generateInsertStatements RunAscii.runtime (Ex.config "t")
      {| records := fun _ => csv.Parsed ["id"; "v"]
                             :: map csv.Parsed [["1"; "a"]]
                                ++ csv.Malformed ["2"] :: [csv.Parsed ["3"; "c"]] |}
      ["id"; "v"] ["INT"; "TEXT"]
    = Err (ErrReadingRecord e).
Proof.
  apply (serializer_returns_no_partial_text RunAscii.runtime (Ex.config "t")
           ["id"; "v"] ["INT"; "TEXT"] eq_refl
           {| records := fun _ => csv.Parsed ["id"; "v"]
                                  :: map csv.Parsed [["1"; "a"]]
                                     ++ csv.Malformed ["2"] :: [csv.Parsed ["3"; "c"]] |}
           ["id"; "v"] [["1"; "a"]] (csv.Malformed ["2"]) [csv.Parsed ["3"; "c"]]).
  - reflexivity.
  - reflexivity.
  - reflexivity.
  - simpl. lia.
  - repeat constructor.
  - reflexivity.
Defined.

Lemma serializer_never_reports_a_mismatch_witness :
  Part002.generateInsertStatements RunAscii.runtime (Ex.config "t")
    (Spec.fileOf [["id"; "v"]; ["1"]]) ["id"; "v"] ["INT"; "TEXT"]
  <> Err (ErrColumnCountMismatch 2 1).
Proof.
  apply (serializer_never_reports_a_mismatch RunAscii.runtime (Ex.config "t")
           (Spec.fileOf [["id"; "v"]; ["1"]]) ["id"; "v"] ["INT"; "TEXT"] 2 1).
  - simpl. lia.
  - reflexivity.
Defined.

(** ** Escaping *)

Lemma unescape_other (b : ascii) (s : string) :
  Ascii.eqb b "'" = false -> Ascii.eqb b "\" = false ->
  Sampling.unescape (String b s) = String b (Sampling.unescape s).
Proof.
  intros Hq Hb. destruct s as [|b2 r]; [reflexivity|].
  change (Sampling.unescape (String b (String b2 r)))
    with (if (Ascii.eqb b "'" && Ascii.eqb b2 "'") || (Ascii.eqb b "\" && Ascii.eqb b2 "\")
          then String b (Sampling.unescape r)
          else String b (Sampling.unescape (String b2 r))).
  now rewrite Hq, Hb.
Qed.

Lemma unescape_escapeBytes (s : string) : Sampling.unescape (Spec.escapeBytes s) = s.
Proof.
  induction s as [|b r IH]; [reflexivity|].
  cbn [Spec.escapeBytes]. unfold Spec.escapeByte.
  destruct (Ascii.eqb b "'") eqn:Hq.
  - apply Ascii.eqb_eq in Hq. subst b.
    change ("''" +:+ Spec.escapeBytes r)
      with (String "'" (String "'" (Spec.escapeBytes r))).
    cbn [Sampling.unescape]. rewrite IH. reflexivity.
  - destruct (Ascii.eqb b "\") eqn:Hb.
    + apply Ascii.eqb_eq in Hb. subst b.
      change ("\\" +:+ Spec.escapeBytes r)
        with (String "\" (String "\" (Spec.escapeBytes r))).
      cbn [Sampling.unescape]. rewrite IH. reflexivity.
    + rewrite append_cons, append_nil_l.
      now rewrite unescape_other, IH.
Qed.

(** X11. The escaping of the serializer loses nothing: reading every doubled
    quote and every doubled backslash as one gives the value back, so
    two different values never get the same escaped text. *)
Theorem escape_round_trip (value value' : string) :
  Sampling.unescape (Shared.escape value) = value
  /\ (Shared.escape value = Shared.escape value' -> value = value').
Proof.
  assert (H : forall v, Sampling.unescape (Shared.escape v) = v).
  { intros v. rewrite (escape_bytewise RunAscii.runtime). apply unescape_escapeBytes. }
  split; [apply H|].
  intros He. rewrite <- (H value), <- (H value'). now rewrite He.
Qed.

Lemma escape_round_trip_witness :
  Sampling.unescape (Shared.escape "O'Brien \ co") = "O'Brien \ co".
Proof. exact (proj1 (escape_round_trip "O'Brien \ co" "O'Brien \ co")). Defined.

(** X12. The literal of a field that is not NULL is the escaped trimmed
    value, bare or between single quotes, and decodes to the trimmed
    value. *)
Theorem literal_decodes_to_the_trimmed_value (R : GoRuntime)
    (NullString columnType value : string) :
  Shared.isNull R NullString (Go.TrimSpace value) = false ->
  exists e,
    Sampling.unescape e = Go.TrimSpace value
    /\ (Shared.valueLiteral R NullString columnType value = e
        \/ Shared.valueLiteral R NullString columnType value = "'" +:+ e +:+ "'").
Proof.
  intros Hnull. exists (Spec.escapeBytes (Go.TrimSpace value)).
  split; [apply unescape_escapeBytes|].
  rewrite (valueLiteral_not_null R _ _ _ Hnull).
  destruct (_ && _); [now left|now right].
Qed.

Lemma literal_decodes_to_the_trimmed_value_witness :
  exists e,
    Sampling.unescape e = Go.TrimSpace " it's "
    /\ (Shared.valueLiteral RunAscii.runtime "NULL" "TEXT" " it's " = e
        \/ Shared.valueLiteral RunAscii.runtime "NULL" "TEXT" " it's "
           = "'" +:+ e +:+ "'").
Proof.
  exact (literal_decodes_to_the_trimmed_value RunAscii.runtime "NULL" "TEXT" " it's "
           eq_refl).
Defined.

(** X13. [escapeSQLValue] writes NULL for an empty value and for the word
    NULL in any case, and otherwise the escaped trimmed value between
    single quotes: what the serializer writes, with the NULL literal
    fixed to NULL, in a column that is neither INT nor DECIMAL(20,6). *)
Theorem escapeSQLValue_is_the_quoted_literal (R : GoRuntime) (columnType value : string) :
  columnType <> "INT" -> columnType <> "DECIMAL(20,6)" ->
  Helpers.escapeSQLValue R value = Shared.valueLiteral R "NULL" columnType value
  /\ (Shared.isNull R "NULL" (Go.TrimSpace value) = false ->
      exists e, Helpers.escapeSQLValue R value = "'" +:+ e +:+ "'"
                /\ Sampling.unescape e = Go.TrimSpace value).
Proof.
  intros Hint Hdec.
  apply String.eqb_neq in Hint. apply String.eqb_neq in Hdec.
  assert (Heq : Helpers.escapeSQLValue R value
                = Shared.valueLiteral R "NULL" columnType value).
  { unfold Helpers.escapeSQLValue, Shared.valueLiteral, Shared.isNull, Shared.escape.
    rewrite Hint, Hdec. reflexivity. }
  split; [exact Heq|].
  intros Hnull. exists (Spec.escapeBytes (Go.TrimSpace value)).
  split; [|apply unescape_escapeBytes].
  rewrite Heq, (valueLiteral_not_null R _ _ _ Hnull), Hint, Hdec. reflexivity.
Qed.

Lemma escapeSQLValue_is_the_quoted_literal_witness :
  Helpers.escapeSQLValue RunAscii.runtime " O'Brien "
  = Shared.valueLiteral RunAscii.runtime "NULL" "VARCHAR(255)" " O'Brien "
  /\ (Shared.isNull RunAscii.runtime "NULL" (Go.TrimSpace " O'Brien ") = false ->
      exists e, Helpers.escapeSQLValue RunAscii.runtime " O'Brien " = "'" +:+ e +:+ "'"
                /\ Sampling.unescape e = Go.TrimSpace " O'Brien ").
Proof.
  exact (escapeSQLValue_is_the_quoted_literal RunAscii.runtime "VARCHAR(255)" " O'Brien "
           ltac:(discriminate) ltac:(discriminate)).
Defined.

(** ** The sanitized names *)

Lemma rev_onto_app (s acc : string) :
  Go.rev_onto s acc = Go.rev_onto s "" +:+ acc.
Proof.
  revert acc. induction s as [|c r IH]; intros acc; [reflexivity|].
  cbn [Go.rev_onto]. rewrite (IH (String c acc)), (IH (String c "")).
  now rewrite append_assoc.
Qed.

Lemma reverse_cons (c : ascii) (s : string) :
  Go.reverse (String c s) = Go.reverse s +:+ String c "".
Proof. unfold Go.reverse. cbn [Go.rev_onto]. apply rev_onto_app. Qed.

Lemma reverse_app_last (c : ascii) (s : string) :
  Go.reverse (s +:+ String c "") = String c (Go.reverse s).
Proof.
  induction s as [|x s IH]; [reflexivity|].
  rewrite append_cons, !reverse_cons, IH. reflexivity.
Qed.

Lemma reverse_involutive (s : string) : Go.reverse (Go.reverse s) = s.
Proof.
  induction s as [|c s IH]; [reflexivity|].
  now rewrite reverse_cons, reverse_app_last, IH.
Qed.

Lemma TrimLeftByte_app_last (p : ascii -> bool) (x : ascii) (s : string) :
  p x = false ->
  Go.TrimLeftByte p (s +:+ String x "") = Go.TrimLeftByte p s +:+ String x "".
Proof.
  intros Hx. induction s as [|c s IH].
  - rewrite append_nil_l. cbn [Go.TrimLeftByte]. now rewrite Hx.
  - rewrite append_cons. cbn [Go.TrimLeftByte]. destruct (p c); [exact IH|reflexivity].
Qed.

Lemma TrimLeftByte_idempotent (p : ascii -> bool) (s : string) :
  Go.TrimLeftByte p (Go.TrimLeftByte p s) = Go.TrimLeftByte p s.
Proof.
  induction s as [|c s IH]; [reflexivity|].
  cbn [Go.TrimLeftByte]. destruct (p c) eqn:Hc; [exact IH|].
  cbn [Go.TrimLeftByte]. now rewrite Hc.
Qed.

Lemma TrimUnderscores_cons (x : ascii) (u : string) :
  Go.isUnderscore x = false ->
  Go.TrimUnderscores (String x u)
  = String x (Go.reverse (Go.TrimLeftByte Go.isUnderscore (Go.reverse u))).
Proof.
  intros Hx. unfold Go.TrimUnderscores. cbn [Go.TrimLeftByte]. rewrite Hx.
  rewrite reverse_cons, (TrimLeftByte_app_last _ _ _ Hx).
  apply reverse_app_last.
Qed.

Lemma TrimUnderscores_skip (x : ascii) (u : string) :
  Go.isUnderscore x = true ->
  Go.TrimUnderscores (String x u) = Go.TrimUnderscores u.
Proof. intros Hx. unfold Go.TrimUnderscores. cbn [Go.TrimLeftByte]. now rewrite Hx. Qed.

(** What [strings.Trim(s, "_")] returns does not start with an
    underscore, and trimming it again changes nothing. *)
Lemma TrimUnderscores_shape (w : string) :
  (Go.TrimUnderscores w = ""
   \/ exists x rest, Go.TrimUnderscores w = String x rest /\ Go.isUnderscore x = false)
  /\ Go.TrimUnderscores (Go.TrimUnderscores w) = Go.TrimUnderscores w.
Proof.
  induction w as [|x u IH]; [split; [now left|reflexivity]|].
  destruct (Go.isUnderscore x) eqn:Hx.
  - now rewrite TrimUnderscores_skip.
  - rewrite (TrimUnderscores_cons x u Hx). split; [right; eauto|].
    rewrite (TrimUnderscores_cons x _ Hx).
    now rewrite reverse_involutive, TrimLeftByte_idempotent.
Qed.

Lemma word_bytes (c : ascii) :
  Go.isWord c = true ->
  (N_of_ascii c < 128)%N /\ Go.space1 c = false
  /\ Go.isWord (Go.lowerByte c) = true
  /\ Go.lowerByte (Go.lowerByte c) = Go.lowerByte c
  /\ Go.isUnderscore (Go.lowerByte c) = Go.isUnderscore c
  /\ Go.isLeading (Go.lowerByte c) = Go.isLeading c
  /\ (Go.isLeading c = true -> Go.isUnderscore c = false ->
      Go.isLower (Go.lowerByte c) = true)
  /\ (Go.isLeading c = false -> Go.isDigit (Go.lowerByte c) = true).
Proof.
  destruct c as [[|] [|] [|] [|] [|] [|] [|] [|]]; vm_compute; intros H;
    first [discriminate H
          | repeat split; intros; first [reflexivity | discriminate | assumption]].
Qed.

Lemma high_byteIs (n : N) (c : ascii) :
  (N_of_ascii c < 128)%N -> (128 <= n)%N -> Go.byteIs n c = false.
Proof. intros Hc Hn. unfold Go.byteIs. apply N.eqb_neq. lia. Qed.

Lemma high_byteIn (lo hi : N) (c : ascii) :
  (N_of_ascii c < 128)%N -> (128 <= lo)%N -> Go.byteIn lo hi c = false.
Proof.
  intros Hc Hn. unfold Go.byteIn. apply andb_false_iff. left. apply N.leb_gt. lia.
Qed.

(** A string that starts and ends with a byte of [a-zA-Z0-9_] has no
    white space to trim. *)
Lemma TrimLeftSpace_word (s : string) :
  Spec.startsWord s = true -> Go.TrimLeftSpace s = s.
Proof.
  destruct s as [|c1 r1]; [reflexivity|]. cbn [Spec.startsWord]. intros Hc.
  destruct (word_bytes c1 Hc) as (Hlt & Hs1 & _).
  cbn [Go.TrimLeftSpace]. rewrite Hs1.
  destruct r1 as [|c2 r2]; [reflexivity|].
  unfold Go.space2. rewrite (high_byteIs 194 c1 Hlt) by lia. cbn [andb].
  destruct r2 as [|c3 r3]; [reflexivity|].
  unfold Go.space3.
  rewrite (high_byteIs 225 c1 Hlt), (high_byteIs 226 c1 Hlt), (high_byteIs 227 c1 Hlt)
    by lia.
  reflexivity.
Qed.

Lemma TrimLeftSpaceRev_word (s : string) :
  Spec.startsWord s = true -> Go.TrimLeftSpaceRev s = s.
Proof.
  destruct s as [|c1 r1]; [reflexivity|]. cbn [Spec.startsWord]. intros Hc.
  destruct (word_bytes c1 Hc) as (Hlt & Hs1 & _).
  cbn [Go.TrimLeftSpaceRev]. rewrite Hs1.
  destruct r1 as [|c2 r2]; [reflexivity|].
  unfold Go.space2.
  rewrite (high_byteIs 133 c1 Hlt), (high_byteIs 160 c1 Hlt) by lia.
  rewrite andb_false_r.
  destruct r2 as [|c3 r3]; [reflexivity|].
  unfold Go.space3.
  rewrite (high_byteIs 128 c1 Hlt), (high_byteIs 159 c1 Hlt), (high_byteIs 168 c1 Hlt),
    (high_byteIs 169 c1 Hlt), (high_byteIs 175 c1 Hlt), (high_byteIn 128 138 c1 Hlt)
    by lia.
  now rewrite !andb_false_r.
Qed.

Lemma allBytes_startsWord (s : string) :
  Spec.allBytes Go.isWord s = true -> Spec.startsWord s = true.
Proof.
  destruct s as [|c r]; [reflexivity|]. cbn [Spec.allBytes Spec.startsWord].
  intros H. now apply andb_true_iff in H as [H _].
Qed.

Lemma TrimSpace_word (s : string) :
  Spec.allBytes Go.isWord s = true -> Go.TrimSpace s = s.
Proof.
  intros Hs. unfold Go.TrimSpace, Go.TrimRightSpace.
  rewrite TrimLeftSpace_word by now apply allBytes_startsWord.
  rewrite TrimLeftSpaceRev_word.
  - apply reverse_involutive.
  - apply allBytes_startsWord. now rewrite allBytes_reverse.
Qed.

Lemma replaceRuns_word_id (s : string) :
  Spec.allBytes Go.isWord s = true -> Shared.replaceRuns false s = s.
Proof.
  induction s as [|c r IH]; [reflexivity|].
  cbn [Spec.allBytes Shared.replaceRuns]. intros H.
  apply andb_true_iff in H as [Hc Hr]. now rewrite Hc, IH.
Qed.

Lemma ToLower_rev_onto (s acc : string) :
  Go.ToLower (Go.rev_onto s acc) = Go.rev_onto (Go.ToLower s) (Go.ToLower acc).
Proof.
  revert acc. induction s as [|c r IH]; intros acc; [reflexivity|].
  cbn [Go.rev_onto Go.ToLower]. now rewrite IH.
Qed.

Lemma ToLower_reverse (s : string) :
  Go.ToLower (Go.reverse s) = Go.reverse (Go.ToLower s).
Proof. unfold Go.reverse. now rewrite ToLower_rev_onto. Qed.

Lemma ToLower_TrimLeftByte (s : string) :
  Spec.allBytes Go.isWord s = true ->
  Go.ToLower (Go.TrimLeftByte Go.isUnderscore s)
  = Go.TrimLeftByte Go.isUnderscore (Go.ToLower s).
Proof.
  induction s as [|c r IH]; [reflexivity|].
  cbn [Spec.allBytes Go.TrimLeftByte Go.ToLower]. intros H.
  apply andb_true_iff in H as [Hc Hr].
  destruct (word_bytes c Hc) as (_ & _ & _ & _ & Hu & _). rewrite Hu.
  destruct (Go.isUnderscore c); [now apply IH|reflexivity].
Qed.

Lemma ToLower_TrimUnderscores (s : string) :
  Spec.allBytes Go.isWord s = true ->
  Go.ToLower (Go.TrimUnderscores s) = Go.TrimUnderscores (Go.ToLower s).
Proof.
  intros Hs. unfold Go.TrimUnderscores.
  rewrite ToLower_reverse, ToLower_TrimLeftByte, ToLower_reverse, ToLower_TrimLeftByte;
    [reflexivity|exact Hs|].
  rewrite allBytes_reverse. now apply allBytes_TrimLeftByte.
Qed.

Lemma ToLower_idempotent (s : string) :
  Spec.allBytes Go.isWord s = true -> Go.ToLower (Go.ToLower s) = Go.ToLower s.
Proof.
  induction s as [|c r IH]; [reflexivity|].
  cbn [Spec.allBytes Go.ToLower]. intros H. apply andb_true_iff in H as [Hc Hr].
  destruct (word_bytes c Hc) as (_ & _ & _ & Hl & _). now rewrite Hl, IH.
Qed.

Lemma ToLower_allWord (s : string) :
  Spec.allBytes Go.isWord s = true -> Spec.allBytes Go.isWord (Go.ToLower s) = true.
Proof.
  induction s as [|c r IH]; [reflexivity|].
  cbn [Spec.allBytes Go.ToLower]. intros H. apply andb_true_iff in H as [Hc Hr].
  destruct (word_bytes c Hc) as (_ & _ & Hw & _). now rewrite Hw, IH.
Qed.

Lemma leadingMatch_ToLower (s : string) :
  Spec.allBytes Go.isWord s = true ->
  Shared.leadingMatch (Go.ToLower s) = Shared.leadingMatch s.
Proof.
  destruct s as [|c r]; [reflexivity|].
  cbn [Spec.allBytes Go.ToLower Shared.leadingMatch]. intros H.
  apply andb_true_iff in H as [Hc _].
  destruct (word_bytes c Hc) as (_ & _ & _ & _ & _ & Hl & _). now rewrite Hl.
Qed.

(** The sanitized name as the trimmed word string it is made from. *)
Lemma sanitizeColumnName_parts (name : string) :
  exists t : string,
    Spec.allBytes Go.isWord t = true
    /\ Go.TrimUnderscores t = t
    /\ (t = "" \/ exists x rest, t = String x rest /\ Go.isUnderscore x = false)
    /\ Shared.sanitizeColumnName name
       = Go.ToLower (if Shared.leadingMatch t then "_" +:+ t else t).
Proof.
  exists (Go.TrimUnderscores (Shared.replaceRuns false (Go.TrimSpace name))).
  destruct (TrimUnderscores_shape (Shared.replaceRuns false (Go.TrimSpace name)))
    as [Hshape Hidem].
  split; [apply allBytes_TrimUnderscores, replaceRuns_word|].
  split; [exact Hidem|]. split; [exact Hshape|reflexivity].
Qed.

(** X14. A sanitized name is a valid lowercase identifier or empty: it is
    empty, or starts with a lowercase letter, or starts with an
    underscore followed by a digit. *)
Theorem sanitized_name_starts_like_an_identifier (name : string) :
  Shared.sanitizeColumnName name = ""
  \/ (exists c rest, Shared.sanitizeColumnName name = String c rest
                     /\ Go.isLower c = true)
  \/ (exists d rest, Shared.sanitizeColumnName name = String "_" (String d rest)
                     /\ Go.isDigit d = true).
Proof.
  destruct (sanitizeColumnName_parts name) as (t & Hw & _ & Hshape & ->).
  destruct Hshape as [-> | (x & rest & -> & Hx)]; [now left|]. right.
  cbn [Spec.allBytes] in Hw. apply andb_true_iff in Hw as [Hxw _].
  destruct (word_bytes x Hxw) as (_ & _ & _ & _ & _ & _ & Hlow & Hdig).
  cbn [Shared.leadingMatch]. destruct (Go.isLeading x) eqn:Hlead; cbn [negb].
  - left. cbn [Go.ToLower]. eexists _, _. split; [reflexivity|]. now apply Hlow.
  - right. rewrite append_cons, append_nil_l. cbn [Go.ToLower].
    eexists _, _. split; [reflexivity|]. now apply Hdig.
Qed.

(** X15. Sanitizing is idempotent: a sanitized name is left as it is. *)
Theorem sanitizing_twice_changes_nothing (name : string) :
  Shared.sanitizeColumnName (Shared.sanitizeColumnName name)
  = Shared.sanitizeColumnName name.
Proof.
  destruct (sanitizeColumnName_parts name) as (t & Hw & Htrim & Hshape & ->).
  assert (Hlt : Spec.allBytes Go.isWord (Go.ToLower t) = true) by now apply ToLower_allWord.
  assert (Htrim' : Go.TrimUnderscores (Go.ToLower t) = Go.ToLower t)
    by now rewrite <- ToLower_TrimUnderscores, Htrim.
  unfold Shared.sanitizeColumnName.
  destruct (Shared.leadingMatch t) eqn:Hlead.
  - rewrite append_cons, append_nil_l.
    change (Go.ToLower (String "_" t)) with (String "_" (Go.ToLower t)).
    assert (Hall : Spec.allBytes Go.isWord (String "_" (Go.ToLower t)) = true)
      by (cbn [Spec.allBytes]; now rewrite Hlt).
    rewrite (TrimSpace_word _ Hall), (replaceRuns_word_id _ Hall).
    rewrite TrimUnderscores_skip by reflexivity. rewrite Htrim'.
    rewrite leadingMatch_ToLower, Hlead by exact Hw.
    rewrite append_cons, append_nil_l.
    change (Go.ToLower (String "_" (Go.ToLower t)))
      with (String "_" (Go.ToLower (Go.ToLower t))).
    now rewrite ToLower_idempotent.
  - rewrite (TrimSpace_word _ Hlt), (replaceRuns_word_id _ Hlt), Htrim'.
    rewrite leadingMatch_ToLower, Hlead by exact Hw.
    now apply ToLower_idempotent.
Qed.

(** ** The header *)

Lemma columnName_not_empty (i : nat) : Shared.columnName i <> "".
Proof. unfold Shared.columnName. discriminate. Qed.

Lemma headerNames_facts (rawHeaders : list string) :
  forall i : nat,
    length (Part002.headerNames i rawHeaders) = length rawHeaders
    /\ Forall (fun h => h <> "") (Part002.headerNames i rawHeaders).
Proof.
  induction rawHeaders as [|h rest IH]; intros i; [split; [reflexivity|constructor]|].
  cbn [Part002.headerNames length]. destruct (IH (S i)) as [Hlen Hne].
  split; [now rewrite Hlen|]. constructor; [|exact Hne].
  destruct (String.eqb (Part002.sanitizeColumnName h) "") eqn:He.
  - apply columnName_not_empty.
  - now apply String.eqb_neq in He.
Qed.

Lemma syntheticNames_facts (firstRow : list string) :
  forall i : nat,
    length (Part002.syntheticNames i firstRow) = length firstRow
    /\ Forall (fun h => h <> "") (Part002.syntheticNames i firstRow).
Proof.
  induction firstRow as [|h rest IH]; intros i; [split; [reflexivity|constructor]|].
  cbn [Part002.syntheticNames length]. destruct (IH (S i)) as [Hlen Hne].
  split; [now rewrite Hlen|]. constructor; [apply columnName_not_empty|exact Hne].
Qed.

Lemma syntheticNames_count (firstRow firstRow' : list string) :
  length firstRow = length firstRow' ->
  forall i : nat, Part002.syntheticNames i firstRow = Part002.syntheticNames i firstRow'.
Proof.
  revert firstRow'. induction firstRow as [|h rest IH]; intros [|h' rest'] Hlen i;
    try discriminate; [reflexivity|].
  cbn [Part002.syntheticNames]. f_equal. apply IH. simpl in Hlen. congruence.
Qed.

Lemma readHeaders_ok (c : Part002.Config) (reader : csv.Reader)
    (headers : list string) (reader' : csv.Reader) :
  Part002.readHeaders c reader = (Ok headers, reader') ->
  exists fields : list string,
    csv.Read reader = (csv.Record fields, reader')
    /\ length headers = length fields
    /\ Forall (fun h => h <> "") headers
    /\ (csv.FieldsPerRecord reader = 0 ->
        csv.FieldsPerRecord reader' = Z.of_nat (length headers)).
Proof.
  unfold Part002.readHeaders.
  destruct (csv.Read reader) as [res r'] eqn:Hread.
  destruct res as [|fields|fields e].
  - destruct (Part002.HasHeader c); discriminate.
  - intros H. exists fields.
    assert (Hfpr : csv.FieldsPerRecord reader = 0 ->
                   csv.FieldsPerRecord r' = Z.of_nat (length fields)).
    { intros Hz. unfold csv.Read in Hread.
      destruct (csv.input reader) as [|l ls]; [discriminate|].
      rewrite Hz in Hread. destruct l as [fs|fs]; [|discriminate].
      unfold csv.readRecord in Hread. simpl in Hread.
      injection Hread as <- <-. reflexivity. }
    destruct (Part002.HasHeader c); injection H as <- <-.
    + destruct (headerNames_facts fields 0%nat) as [Hlen Hne].
      rewrite Hlen. auto.
    + destruct (syntheticNames_facts fields 0%nat) as [Hlen Hne].
      rewrite Hlen. auto.
  - destruct (Part002.HasHeader c); discriminate.
Qed.

(** X16. [readHeaders] succeeds only on a first record read without error;
    it then returns one name per field of that record, none of them
    empty, and leaves a fresh reader set to expect that number of
    fields. *)
Theorem readHeaders_names (c : Part002.Config) (reader : csv.Reader)
    (headers : list string) (reader' : csv.Reader) :
  Part002.readHeaders c reader = (Ok headers, reader') ->
  exists fields : list string,
    csv.Read reader = (csv.Record fields, reader')
    /\ length headers = length fields
    /\ Forall (fun h => h <> "") headers
    /\ (csv.FieldsPerRecord reader = 0 ->
        csv.FieldsPerRecord reader' = Z.of_nat (length headers)).
Proof. exact (readHeaders_ok c reader headers reader'). Qed.

Lemma readHeaders_names_witness :
  exists fields : list string,
    csv.Read (csv.NewReader [csv.Parsed ["Order ID"; " "; "9 lives"]])
    = (csv.Record fields, {| csv.input := []; csv.FieldsPerRecord := 3 |})
    /\ length ["order_id"; "column_2"; "_9_lives"] = length fields
    /\ Forall (fun h => h <> "") ["order_id"; "column_2"; "_9_lives"]
    /\ (csv.FieldsPerRecord (csv.NewReader [csv.Parsed ["Order ID"; " "; "9 lives"]]) = 0 ->
        csv.FieldsPerRecord {| csv.input := []; csv.FieldsPerRecord := 3 |}
        = Z.of_nat (length ["order_id"; "column_2"; "_9_lives"])).
Proof.
  exact (readHeaders_names (Ex.config "t")
           (csv.NewReader [csv.Parsed ["Order ID"; " "; "9 lives"]])
           ["order_id"; "column_2"; "_9_lives"]
           {| csv.input := []; csv.FieldsPerRecord := 3 |} eq_refl).
Defined.



(** ** The whole conversion *)

(** X18. A conversion never logs a skipped row: when the first record has
    at least one field, as every record of a csv reader has, the log of
    [Convert] is empty whatever the file holds. *)
Theorem conversion_logs_nothing (R : GoRuntime) (c : Part002.Config) (file : File) :
  (forall rest, records file true <> csv.Parsed [] :: rest) ->
  snd (Part002.Convert R c file) = [].
Proof.
  intros Hfirst. unfold Part002.Convert.
  destruct (Part002.readHeaders c (csv.NewReader (records file true)))
    as [[headers|e|] reader'] eqn:Hread; try reflexivity.
  destruct (readHeaders_ok c _ headers reader' Hread)
    as (fields & Hrec & Hlen & _ & Hfpr).
  specialize (Hfpr eq_refl).
  assert (Hpos : (0 < length headers)%nat).
  { unfold csv.Read, csv.NewReader in Hrec. cbn [csv.input csv.FieldsPerRecord] in Hrec.
    destruct (records file true) as [|l ls] eqn:Hrecs; [discriminate|].
    destruct l as [fs|fs]; [|discriminate].
    unfold csv.readRecord in Hrec. simpl in Hrec. injection Hrec as <- _.
    destruct fs as [|f fs]; [now specialize (Hfirst ls)|].
    rewrite Hlen. simpl. lia. }
  pose proof (sampling_logs_nothing R c reader' headers Hpos Hfpr) as Hlog.
  destruct (Part002.determineColumnTypes R c reader' headers) as [[types|e|] log];
    simpl in Hlog; subst log; try reflexivity.
  destruct (Part002.generateCreateTable c headers types); [|reflexivity].
  destruct (Part002.generateInsertStatements R c file headers types); reflexivity.
Qed.

Lemma conversion_logs_nothing_witness :
  snd (Part002.Convert RunAscii.runtime (Ex.config "t")
         (Spec.fileOf [["id"; "v"]; ["1"]; ["2"; "b"]])) = [].
Proof.
  apply (conversion_logs_nothing RunAscii.runtime (Ex.config "t")
           (Spec.fileOf [["id"; "v"]; ["1"]; ["2"; "b"]])).
  intros rest. discriminate.
Defined.

(* ================================================================== *)
(** * Further properties of main.go                                     *)
(* ================================================================== *)

(** ** The fast path *)

(** X19. In main.go type inference runs only when some column is forced to
    a type that neither starts with VARCHAR nor is SKIP.  Otherwise, and
    so with the default empty [ForceTypes], every column starts at
    VARCHAR(255), SKIP or a forced VARCHAR, the test "all forced" holds,
    and the initial types are returned without reading a row. *)
Theorem main_go_infers_nothing_by_default (R : GoRuntime) (m : MainGo.Config)
    (reader : csv.Reader) (headers : list string) :
  (forall h t, In h headers -> MainGo.ForceTypes m !! h = Some t ->
               Go.HasPrefix t "VARCHAR" = true \/ t = "SKIP") ->
  MainGo.determineColumnTypes R m reader headers
  = Ok (map (fun h => match MainGo.ForceTypes m !! h with
                      | Some t => t
                      | None => if MainGo.skipped m h then "SKIP" else "VARCHAR(255)"
                      end) headers).
Proof.
  intros Hforced. unfold MainGo.determineColumnTypes.
  assert (Hall : MainGo.allForced (MainGo.initialTypes m headers) = true).
  { unfold MainGo.allForced, MainGo.initialTypes. apply forallb_forall.
    intros t Ht. apply List.in_map_iff in Ht as (h & <- & Hh).
    unfold MainGo.initialType.
    destruct (MainGo.ForceTypes m !! h) as [t|] eqn:Hf.
    - destruct (Hforced h t Hh Hf) as [Hp | ->]; [now rewrite Hp|reflexivity].
    - destruct (MainGo.skipped m h); reflexivity. }
  now rewrite Hall.
Qed.

Lemma main_go_infers_nothing_by_default_witness :
  MainGo.determineColumnTypes RunAscii.runtime MainGo.DefaultConfig
    {| csv.input := [csv.Parsed ["1"; "2.5"]; csv.Parsed ["2"; "x"]];
       csv.FieldsPerRecord := 2 |}
    ["id"; "price"]
  = Ok ["VARCHAR(255)"; "VARCHAR(255)"].
Proof.
  apply (main_go_infers_nothing_by_default RunAscii.runtime MainGo.DefaultConfig
           {| csv.input := [csv.Parsed ["1"; "2.5"]; csv.Parsed ["2"; "x"]];
              csv.FieldsPerRecord := 2 |}
           ["id"; "price"]).
  intros h t _ Hf. discriminate Hf.
Defined.

(** ** Reading a VARCHAR capacity back *)

Lemma digitsValue_acc (d : Decimal.uint) :
  forall acc : positive,
    Go.digitsValue (Z.pos acc) (NilEmpty.string_of_uint d)
    = Z.pos (Pos.of_uint_acc d acc).
Proof.
  induction d as [|d IH|d IH|d IH|d IH|d IH|d IH|d IH|d IH|d IH|d IH]; intros acc;
    [reflexivity|..];
    cbn [NilEmpty.string_of_uint Go.digitsValue Pos.of_uint_acc];
    rewrite <- IH; f_equal;
    match goal with
    | |- context [Z.of_N (N_of_ascii ?c) - 48] =>
        let v := eval vm_compute in (Z.of_N (N_of_ascii c) - 48) in
        change (Z.of_N (N_of_ascii c) - 48) with v
    end; lia.
Qed.

Lemma digitsValue_uint (d : Decimal.uint) :
  Go.digitsValue 0 (NilEmpty.string_of_uint d) = Z.of_N (Pos.of_uint d).
Proof.
  induction d as [|d IH|d IH|d IH|d IH|d IH|d IH|d IH|d IH|d IH|d IH];
    [reflexivity|exact IH|..];
    cbn [NilEmpty.string_of_uint Go.digitsValue Pos.of_uint];
    apply digitsValue_acc.
Qed.

Lemma allDigits_uint (d : Decimal.uint) :
  Go.allDigits (NilEmpty.string_of_uint d) = true.
Proof.
  induction d as [|d IH|d IH|d IH|d IH|d IH|d IH|d IH|d IH|d IH|d IH];
    [reflexivity|..]; cbn [NilEmpty.string_of_uint Go.allDigits]; rewrite IH;
    reflexivity.
Qed.

(** The decimal text [%d] writes for a number that is not negative:
    digits only, at least one, with the number as value. *)
Lemma itoa_digits (n : Z) :
  0 <= n ->
  Go.allDigits (Go.itoa n) = true
  /\ Go.itoa n <> ""
  /\ Go.digitsValue 0 (Go.itoa n) = n.
Proof.
  intros Hn. unfold Go.itoa.
  pose proof (DecimalZ.of_to n) as Hof.
  destruct n as [|p|p]; [repeat split; discriminate| |lia].
  cbn [Z.to_int NilZero.string_of_int] in *. unfold Z.of_int, Z.of_uint in Hof.
  unfold NilZero.string_of_uint.
  destruct (Pos.to_uint p) as [|d|d|d|d|d|d|d|d|d|d] eqn:Hd;
    try (split; [apply allDigits_uint|]; split; [discriminate|];
         rewrite digitsValue_uint; exact Hof).
  simpl in Hof. discriminate Hof.
Qed.

Lemma digit_not_sign (c : ascii) :
  Go.isDigit c = true ->
  Go.byteIs 43 c = false /\ Go.byteIs 45 c = false /\ Ascii.eqb c ")" = false.
Proof.
  destruct c as [[|] [|] [|] [|] [|] [|] [|] [|]]; vm_compute; intros H;
    first [discriminate H | repeat split].
Qed.

(** [Atoi] reads back what [%d] wrote. *)
Lemma Atoi_itoa (n : Z) : 0 <= n < 2 ^ 63 -> Go.Atoi (Go.itoa n) = Some n.
Proof.
  intros Hn. destruct (itoa_digits n ltac:(lia)) as (Hall & Hne & Hval).
  unfold Go.Atoi, Go.ParseInt64.
  destruct (Go.itoa n) as [|c r] eqn:Hs; [congruence|].
  assert (Hc : Go.isDigit c = true).
  { cbn [Go.allDigits] in Hall. now apply andb_true_iff in Hall as [Hc _]. }
  destruct (digit_not_sign c Hc) as (-> & -> & _).
  rewrite Hall, Hval.
  assert (Hlt : (n <? 2 ^ 63) = true) by (apply Z.ltb_lt; lia).
  now rewrite Hlt.
Qed.

Lemma IndexByte_after_digits (s t : string) :
  Go.allDigits s = true ->
  Go.IndexByte ")" (s +:+ String ")" t) = Some (String.length s).
Proof.
  induction s as [|c r IH]; intros Hs; [reflexivity|].
  cbn [Go.allDigits] in Hs. apply andb_true_iff in Hs as [Hc Hr].
  rewrite append_cons. cbn [Go.IndexByte String.length].
  destruct (digit_not_sign c Hc) as (_ & _ & ->). now rewrite IH.
Qed.

Lemma substring_prefix (s t : string) :
  String.substring 0 (String.length s) (s +:+ t) = s.
Proof.
  induction s as [|c r IH]; [now destruct t|].
  rewrite append_cons. cbn [String.length String.substring]. now rewrite IH.
Qed.

Lemma extractVarcharLength_itoa (m : MainGo.Config) (n : Z) :
  0 <= n < 2 ^ 63 ->
  MainGo.extractVarcharLength m ("VARCHAR(" +:+ Go.itoa n +:+ ")") = Some n.
Proof.
  intros Hn. destruct (itoa_digits n ltac:(lia)) as (Hall & _ & _).
  unfold MainGo.extractVarcharLength.
  rewrite !append_cons, append_nil_l.
  cbn [Go.IndexByte Ascii.eqb Bool.eqb]. cbv iota.
  rewrite (IndexByte_after_digits _ _ Hall).
  cbn [Nat.ltb Nat.leb Nat.sub String.substring]. rewrite Nat.sub_0_r, substring_prefix.
  now rewrite Atoi_itoa.
Qed.

(** X20. [extractVarcharLength] reads back the capacity that the widening
    wrote with [fmt.Sprintf("VARCHAR(%d)", newLength)]. *)
Theorem extractVarcharLength_reads_back (m : MainGo.Config) (n : Z) :
  0 <= n < 2 ^ 63 ->
  MainGo.extractVarcharLength m ("VARCHAR(" +:+ Go.itoa n +:+ ")") = Some n.
Proof. exact (extractVarcharLength_itoa m n). Qed.

Lemma extractVarcharLength_reads_back_witness :
  MainGo.extractVarcharLength MainGo.DefaultConfig ("VARCHAR(" +:+ Go.itoa 350 +:+ ")")
  = Some 350.
Proof.
  apply (extractVarcharLength_reads_back MainGo.DefaultConfig 350). lia.
Defined.

(** ** Widening of a VARCHAR in main.go *)

Lemma widened_grows (L : Z) :
  0 <= L ->
  MainGo.widened L = "TEXT"
  \/ exists k, MainGo.widened L = "VARCHAR(" +:+ Go.itoa k +:+ ")" /\ L < k <= 65535.
Proof.
  intros HL. unfold MainGo.widened.
  destruct (widened_capacity L HL) as [Hk _].
  pose proof (Z.mod_pos_bound L 50 ltac:(lia)) as Hmod.
  destruct (65535 <? (L `quot` 50 + 1) * 50) eqn:Hcap; [now left|].
  apply Z.ltb_ge in Hcap. right. eexists. split; [reflexivity|]. lia.
Qed.

Lemma len_nonneg (s : string) : 0 <= Go.len s.
Proof. unfold Go.len. lia. Qed.

(** X21. In main.go a text value never narrows a VARCHAR: the type stays as
    it is, becomes TEXT, or becomes a VARCHAR whose capacity is above
    the value's length, itself above the old capacity.  (For the
    initial VARCHAR(255) the length is compared with [VarcharLength],
    so this needs a [VarcharLength] of at least 255.) *)
Theorem main_go_varchar_never_narrows (R : GoRuntime) (m : MainGo.Config)
    (n : Z) (value : string) :
  0 <= n < 2 ^ 63 ->
  (n = 255 -> 255 <= MainGo.VarcharLength m) ->
  Go.ParseInt64 value = false ->
  ParseFloat64 R value = false ->
  Shared.isDate value = false ->
  MainGo.classify R m ("VARCHAR(" +:+ Go.itoa n +:+ ")") value
  = Some ("VARCHAR(" +:+ Go.itoa n +:+ ")")
  \/ MainGo.classify R m ("VARCHAR(" +:+ Go.itoa n +:+ ")") value = Some "TEXT"
  \/ exists k,
       MainGo.classify R m ("VARCHAR(" +:+ Go.itoa n +:+ ")") value
       = Some ("VARCHAR(" +:+ Go.itoa k +:+ ")")
       /\ n < Go.len value < k /\ k <= 65535.
Proof.
  intros Hn H255 Hint Hfloat Hdate.
  pose proof (extractVarcharLength_itoa m n Hn) as Hext.
  pose proof (len_nonneg value) as HL.
  unfold MainGo.classify. rewrite Hint, Hfloat, Hdate.
  destruct (String.eqb ("VARCHAR(" +:+ Go.itoa n +:+ ")") "VARCHAR(255)") eqn:He.
  - apply String.eqb_eq in He. rewrite He in Hext.
    assert (Hn255 : n = 255).
    { vm_compute in Hext. now injection Hext as <-. }
    specialize (H255 Hn255).
    destruct (MainGo.TextThreshold m <? Go.len value); [right; now left|].
    destruct (MainGo.VarcharLength m <? Go.len value) eqn:Hv; [|now left].
    apply Z.ltb_lt in Hv.
    destruct (widened_grows (Go.len value) HL) as [-> | (k & -> & Hk)];
      [right; now left|].
    right. right. exists k. split; [reflexivity|lia].
  - assert (Hp : Go.HasPrefix ("VARCHAR(" +:+ Go.itoa n +:+ ")") "VARCHAR(" = true).
    { rewrite !append_cons, append_nil_l. unfold Go.HasPrefix. cbn [String.prefix].
      repeat (destruct (ascii_dec _ _) as [_|Hne]; [|now elim Hne]).
      now destruct (Go.itoa n +:+ ")"). }
    rewrite Hp, Hext.
    destruct (n <? Go.len value) eqn:Hlt; [|now left].
    apply Z.ltb_lt in Hlt.
    destruct (MainGo.TextThreshold m <? Go.len value); [right; now left|].
    destruct (widened_grows (Go.len value) HL) as [-> | (k & -> & Hk)];
      [right; now left|].
    right. right. exists k. split; [reflexivity|lia].
Qed.

Lemma main_go_varchar_never_narrows_witness :
  MainGo.classify RunAscii.runtime MainGo.DefaultConfig
    ("VARCHAR(" +:+ Go.itoa 260 +:+ ")") Ex.text300
  = Some ("VARCHAR(" +:+ Go.itoa 260 +:+ ")")
  \/ MainGo.classify RunAscii.runtime MainGo.DefaultConfig
       ("VARCHAR(" +:+ Go.itoa 260 +:+ ")") Ex.text300 = Some "TEXT"
  \/ exists k,
       MainGo.classify RunAscii.runtime MainGo.DefaultConfig
         ("VARCHAR(" +:+ Go.itoa 260 +:+ ")") Ex.text300
       = Some ("VARCHAR(" +:+ Go.itoa k +:+ ")")
       /\ 260 < Go.len Ex.text300 < k /\ k <= 65535.
Proof.
  apply (main_go_varchar_never_narrows RunAscii.runtime MainGo.DefaultConfig
           260 Ex.text300).
  - lia.
  - intros H. discriminate H.
  - vm_compute. reflexivity.
  - vm_compute. reflexivity.
  - vm_compute. reflexivity.
Defined.

(** ** The sanitizer of main.go *)

Lemma keepRunes_word (name result : string) :
  MainGo.keepRunes name = Some result -> Spec.allBytes Go.isWord result = true.
Proof.
  revert result. induction name as [|r rest IH]; intros result H.
  - injection H as <-. reflexivity.
  - cbn [MainGo.keepRunes] in H.
    destruct (Go.byteIn 128 255 r); [discriminate|].
    destruct (MainGo.keepRunes rest) as [sb|]; [|discriminate].
    specialize (IH sb eq_refl).
    destruct (Go.isLetter r || Go.isDigit r || Go.isUnderscore r) eqn:Hw.
    + injection H as <-. cbn [Spec.allBytes].
      assert (Hr : Go.isWord r = true) by exact Hw. now rewrite Hr, IH.
    + destruct (Go.space1 r); injection H as <-; [|exact IH].
      cbn [Spec.allBytes]. now rewrite IH.
Qed.

Lemma lowerByte_not_digit (c : ascii) :
  Go.isDigit c = false -> Go.isDigit (Go.lowerByte c) = false.
Proof.
  destruct c as [[|] [|] [|] [|] [|] [|] [|] [|]]; vm_compute; intros H;
    first [reflexivity | discriminate H].
Qed.



(* ================================================================== *)
(** * Further properties of part_001                                    *)
(* ================================================================== *)

Lemma readRecord_after_header (headers : list string) (l : csv.Line) :
  (0 < length headers)%nat ->
  (exists record, l = csv.Parsed record /\ length record = length headers
                  /\ csv.readRecord (Z.of_nat (length headers)) l
                     = (csv.Record record, Z.of_nat (length headers)))
  \/ (Sampling.accepted (length headers) l = false
      /\ exists record e,
           csv.readRecord (Z.of_nat (length headers)) l
           = (csv.Failed record e, Z.of_nat (length headers))).
Proof.
  intros Hpos.
  assert (Hz : (Z.of_nat (length headers) =? 0) = false) by (apply Z.eqb_neq; lia).
  assert (Hp : (0 <? Z.of_nat (length headers)) = true) by (apply Z.ltb_lt; lia).
  destruct l as [fs|fs]; unfold csv.readRecord; rewrite Hz.
  - rewrite Hp. destruct (length fs =? length headers)%nat eqn:He.
    + apply Nat.eqb_eq in He. left. exists fs. rewrite He, Z.eqb_refl. auto.
    + right. split; [exact He|]. apply Nat.eqb_neq in He.
      assert (Hn : (Z.of_nat (length fs) =? Z.of_nat (length headers)) = false)
        by (apply Z.eqb_neq; lia).
      rewrite Hn. simpl. eauto.
  - right. split; [reflexivity|eauto].
Qed.

Lemma emptyRow_Some (R : GoRuntime) (c : Part001.CSVToMySQLConverter)
    (headers record : list string) :
  (0 < length headers)%nat ->
  length record = length headers -> exists b, Part001.emptyRow R c record = Some b.
Proof.
  intros Hpos Hr. destruct record as [|f0 [|f1 rest]]; simpl in *; [lia|eauto|eauto].
Qed.

Section Part001Serializer.
Variable R : GoRuntime.
Variable c : Part001.CSVToMySQLConverter.
Variables headers columnTypes : list string.
Hypothesis Htypes : length columnTypes = length headers.
Hypothesis Hpos : (0 < length headers)%nat.

(** Batch mode. *)
Lemma part001_insertLoop_batch (lines : list csv.Line) :
  Part001.NoBatchInsert c = false ->
  forall (sb : string) (buf : list string),
    Part001.insertLoop R c headers columnTypes lines (Z.of_nat (length headers)) sb buf
    = Ok (sb +:+ Spec.concatText
                   (map (Spec.batchStatement (Part001.TableName c) headers columnTypes)
                        (Spec.chunksFrom (Part001.BatchSize c) buf
                           (map (Spec.tupleOf R (Part001.NullString c) headers columnTypes)
                                (Part001Types.writtenRows R c (length headers) lines))))).
Proof.
  intros Hbatch. induction lines as [|l lines IH]; intros sb buf.
  - cbn [Part001.insertLoop Part001Types.writtenRows map Spec.chunksFrom].
    destruct buf as [|x buf].
    + simpl. now rewrite append_nil_r.
    + change (0 <? Z.of_nat (length (x :: buf))) with true. cbv iota.
      unfold Part001.formatBatchInsert.
      rewrite formatBatchInsert_statement by exact Htypes.
      cbn [map Spec.concatText]. now rewrite append_nil_r.
  - cbn [Part001.insertLoop Part001Types.writtenRows].
    destruct (readRecord_after_header headers l Hpos) as [(r & -> & Hr & ->) | (Hacc & r & e & ->)].
    + rewrite Hr, Nat.eqb_refl. cbn [negb andb].
      destruct (emptyRow_Some R c headers r Hpos Hr) as [[|] ->];
        cbn [default from_option id negb].
      * apply IH.
      * rewrite (prepareValues_kept R (Part001.NullString c) headers columnTypes r
                   Htypes Hr).
        rewrite Hbatch. cbn [negb map Spec.chunksFrom].
        change ("(" +:+ Go.Join (map (Spec.literalOf R (Part001.NullString c))
                                     (Spec.keptColumns headers columnTypes r)) ", "
                +:+ ")")
          with (Spec.tupleOf R (Part001.NullString c) headers columnTypes r).
        destruct (Part001.BatchSize c <=? _).
        -- unfold Part001.formatBatchInsert.
           rewrite formatBatchInsert_statement by exact Htypes.
           rewrite IH. cbn [map Spec.concatText]. now rewrite append_assoc.
        -- apply IH.
    + destruct l as [fs|fs]; [|apply IH].
      simpl in Hacc. rewrite Hacc. cbn [andb]. apply IH.
Qed.

(** Single-row mode. *)
Lemma part001_insertLoop_single (lines : list csv.Line) :
  Part001.NoBatchInsert c = true ->
  forall sb : string,
    Part001.insertLoop R c headers columnTypes lines (Z.of_nat (length headers)) sb []
    = Ok (sb +:+ Spec.concatText
                   (map (fun r => Spec.singleStatement (Part001.TableName c) headers
                                    columnTypes
                                    (Spec.tupleOf R (Part001.NullString c) headers
                                       columnTypes r))
                        (Part001Types.writtenRows R c (length headers) lines))).
Proof.
  intros Hbatch. induction lines as [|l lines IH]; intros sb.
  - simpl. now rewrite append_nil_r.
  - cbn [Part001.insertLoop Part001Types.writtenRows].
    destruct (readRecord_after_header headers l Hpos) as [(r & -> & Hr & ->) | (Hacc & r & e & ->)].
    + rewrite Hr, Nat.eqb_refl. cbn [negb andb].
      destruct (emptyRow_Some R c headers r Hpos Hr) as [[|] ->];
        cbn [default from_option id negb].
      * apply IH.
      * rewrite (prepareValues_kept R (Part001.NullString c) headers columnTypes r
                   Htypes Hr).
        rewrite Hbatch. cbn [negb map].
        rewrite (formatSingleInsert_statement R _ _ headers columnTypes r Htypes Hr).
        rewrite IH. cbn [Spec.concatText]. now rewrite append_assoc.
    + destruct l as [fs|fs]; [|apply IH].
      simpl in Hacc. rewrite Hacc. cbn [andb]. apply IH.
Qed.


End Part001Serializer.


(** ** Type sampling and the whole conversion in part_001 *)

Section Part001Sampling.
Variable R : GoRuntime.
Variable c : Part001.CSVToMySQLConverter.
Variable o : Part001Types.OptsT.

Lemma part001_refineRecord_same (headers : list string) :
  forall columnTypes record : list string,
    Part001Types.refineRecord R c o headers columnTypes record
    = Part002.refineRecord R (Part001Types.asConfig c o) headers columnTypes record.
Proof.
  induction headers as [|h hs IH]; intros [|t ts] [|v vs]; reflexivity.
Qed.

Lemma part001_sample_agrees (headers : list string) (lines : list csv.Line) :
  (0 < length headers)%nat ->
  forall (columnTypes : list string) (sampleCount : Z)
         (warnings : list Part001Types.warning) (log : list string),
    Part002.sample R (Part001Types.asConfig c o) headers
      (List.filter (Sampling.accepted (length headers)) lines)
      (Z.of_nat (length headers)) columnTypes sampleCount log
    = (Ok (fst (Part001Types.sample R c o headers lines (Z.of_nat (length headers))
                  columnTypes sampleCount warnings)),
       log).
Proof.
  intros Hpos. induction lines as [|l lines IH]; intros ts n ws log; [reflexivity|].
  cbn [List.filter Part001Types.sample].
  destruct (readRecord_after_header headers l Hpos)
    as [(r & -> & Hr & Hread) | (Hacc & r & e & Hread)].
  - cbn [Sampling.accepted]. rewrite Hr, Nat.eqb_refl.
    cbn [Part002.sample]. rewrite Hread, Hr, Nat.eqb_refl. cbn [negb].
    rewrite part001_refineRecord_same.
    change (Part002.MaxSampleSize (Part001Types.asConfig c o))
      with (Part001Types.MaxSampleSize o).
    destruct (Part001Types.MaxSampleSize o <=? n + 1); [reflexivity|apply IH].
  - rewrite Hacc, Hread. apply IH.
Qed.

Lemma part001_sample_warnings (headers : list string) (lines : list csv.Line) :
  (0 < length headers)%nat ->
  forall (columnTypes : list string) (sampleCount : Z)
         (warnings : list Part001Types.warning),
    Forall (fun w => exists e r, w = Part001Types.ReadWarning e r) warnings ->
    Forall (fun w => exists e r, w = Part001Types.ReadWarning e r)
           (snd (Part001Types.sample R c o headers lines (Z.of_nat (length headers))
                   columnTypes sampleCount warnings)).
Proof.
  intros Hpos. induction lines as [|l lines IH]; intros ts n ws Hws; [exact Hws|].
  cbn [Part001Types.sample].
  destruct (readRecord_after_header headers l Hpos)
    as [(r & -> & Hr & ->) | (Hacc & r & e & ->)].
  - rewrite Hr, Nat.eqb_refl. cbn [negb].
    destruct (Part001Types.MaxSampleSize o <=? n + 1); [exact Hws|now apply IH].
  - apply IH. apply Forall_app. split; [exact Hws|]. repeat constructor. eauto.
Qed.


Lemma part001_sample_length (headers : list string) (lines : list csv.Line) :
  forall (fpr : Z) (columnTypes : list string) (sampleCount : Z)
         (warnings : list Part001Types.warning),
    length (fst (Part001Types.sample R c o headers lines fpr columnTypes sampleCount
                   warnings))
    = length columnTypes.
Proof.
  induction lines as [|l lines IH]; intros fpr ts n ws; [reflexivity|].
  cbn [Part001Types.sample].
  destruct (csv.readRecord fpr l) as [[|record|record e] fpr']; [reflexivity| |apply IH].
  destruct (negb (length record =? length headers)%nat); [apply IH|].
  destruct (Part001Types.MaxSampleSize o <=? n + 1).
  - cbn [fst]. rewrite part001_refineRecord_same. apply refineRecord_length.
  - rewrite IH, part001_refineRecord_same. apply refineRecord_length.
Qed.

Lemma part001_insertLoop_total (headers columnTypes : list string)
    (lines : list csv.Line) :
  length columnTypes = length headers ->
  (0 < length headers)%nat ->
  forall (fpr : Z) (sb : string) (buf : list string),
    exists out, Part001.insertLoop R c headers columnTypes lines fpr sb buf = Ok out.
Proof.
  intros Htypes Hpos. induction lines as [|l lines IH]; intros fpr sb buf.
  - cbn [Part001.insertLoop]. destruct (0 <? Z.of_nat (length buf)); [|eauto].
    unfold Part001.formatBatchInsert.
    rewrite formatBatchInsert_statement by exact Htypes. eauto.
  - cbn [Part001.insertLoop].
    destruct (csv.readRecord fpr l) as [[|record|record e] fpr']; [eauto| |apply IH].
    destruct (length record =? length headers)%nat eqn:He; cbn [negb]; [|apply IH].
    apply Nat.eqb_eq in He.
    destruct (emptyRow_Some R c headers record Hpos He) as [[|] ->]; [apply IH|].
    rewrite (prepareValues_kept R (Part001.NullString c) headers columnTypes record
               Htypes He).
    destruct (negb (Part001.NoBatchInsert c)).
    + destruct (Part001.BatchSize c <=? _); [|apply IH].
      unfold Part001.formatBatchInsert.
      rewrite formatBatchInsert_statement by exact Htypes. apply IH.
    + rewrite (formatSingleInsert_statement R _ _ headers columnTypes record Htypes He).
      apply IH.
Qed.


End Part001Sampling.



(** ** Dates *)

Lemma matchToks_length (p : list Go.tok) :
  forall s r : string,
    Go.matchToks p s = Some r ->
    String.length s = (length p + String.length r)%nat.
Proof.
  induction p as [|t p IH]; intros s r H.
  - cbn in H. now inversion H.
  - destruct s as [|ch s]; [discriminate H|]. cbn [Go.matchToks] in H.
    destruct (match t with Go.D => Go.isDigit ch | Go.C c' => Ascii.eqb ch c' end);
      [|discriminate H].
    cbn [String.length length Nat.add]. f_equal. now apply IH.
Qed.

Lemma fullMatch_length (p : list Go.tok) (s : string) :
  Go.fullMatch p s = true -> String.length s = length p.
Proof.
  unfold Go.fullMatch. destruct (Go.matchToks p s) as [[|ch r]|] eqn:H;
    try discriminate.
  intros _. rewrite (matchToks_length p s "" H). cbn. lia.
Qed.

Lemma fullMatchOptZ_length (p : list Go.tok) (s : string) :
  Go.fullMatchOptZ p s = true ->
  String.length s = length p \/ String.length s = S (length p).
Proof.
  unfold Go.fullMatchOptZ. destruct (Go.matchToks p s) as [r|] eqn:H;
    [|discriminate].
  intros Hr. apply orb_true_iff in Hr as [Hr|Hr]; apply String.eqb_eq in Hr; subst r;
    rewrite (matchToks_length p s _ H); cbn; lia.
Qed.

(** A pattern with a separator that is no digit matches no digit string. *)
Lemma matchToks_not_digits (p : list Go.tok) :
  Exists (fun t => match t with
                   | Go.C c' => Go.isDigit c' = false
                   | Go.D => False
                   end) p ->
  forall s r : string, Go.matchToks p s = Some r -> Go.allDigits s = false.
Proof.
  induction 1 as [t p Ht | t p _ IH]; intros s r H;
    (destruct s as [|ch s]; [discriminate H|]); cbn [Go.matchToks] in H;
    cbn [Go.allDigits].
  - destruct t as [|c']; [contradiction|].
    destruct (Ascii.eqb ch c') eqn:He; [|discriminate H].
    apply Ascii.eqb_eq in He. subst ch. now rewrite Ht.
  - destruct (match t with Go.D => Go.isDigit ch | Go.C c' => Ascii.eqb ch c' end);
      [|discriminate H].
    rewrite (IH s r H). apply andb_false_r.
Qed.

Lemma matchToks_not_integer (p : list Go.tok) (s r : string) :
  match p with Go.D :: _ => True | _ => False end ->
  Exists (fun t => match t with
                   | Go.C c' => Go.isDigit c' = false
                   | Go.D => False
                   end) p ->
  Go.matchToks p s = Some r -> Go.ParseInt64 s = false.
Proof.
  intros Hhd Hp H. pose proof (matchToks_not_digits _ Hp s r H) as Hd.
  destruct p as [|[|c'] p]; try contradiction.
  destruct s as [|ch s]; [reflexivity|]. cbn [Go.matchToks] in H.
  destruct (Go.isDigit ch) eqn:Hc; [|discriminate H].
  destruct (digit_not_sign ch Hc) as (Hplus & Hminus & _).
  unfold Go.ParseInt64. now rewrite Hplus, Hminus, Hd.
Qed.

Lemma isDate_shape (s : string) :
  Shared.isDate s = true ->
  Go.ParseInt64 s = false
  /\ ((Go.fullMatch Shared.date_ymd s || Go.fullMatch Shared.date_mdy s = true
       /\ Go.len s = 10)
      \/ (Go.fullMatch Shared.date_ymd s || Go.fullMatch Shared.date_mdy s = false
          /\ (Go.len s = 19 \/ Go.len s = 20))).
Proof.
  assert (Hfm : forall p, Go.fullMatch p s = true ->
                          exists r, Go.matchToks p s = Some r).
  { intros p. unfold Go.fullMatch. destruct (Go.matchToks p s); [eauto|discriminate]. }
  assert (Hfz : forall p, Go.fullMatchOptZ p s = true ->
                          exists r, Go.matchToks p s = Some r).
  { intros p. unfold Go.fullMatchOptZ. destruct (Go.matchToks p s); [eauto|discriminate]. }
  assert (Hshort : forall p, length p <> 10%nat -> Go.fullMatch p s = true ->
             Go.fullMatch Shared.date_ymd s || Go.fullMatch Shared.date_mdy s = false).
  { intros p Hp Hm. apply fullMatch_length in Hm.
    apply orb_false_iff. split.
    - destruct (Go.fullMatch Shared.date_ymd s) eqn:H1; [|reflexivity].
      apply fullMatch_length in H1. cbn in H1. congruence.
    - destruct (Go.fullMatch Shared.date_mdy s) eqn:H1; [|reflexivity].
      apply fullMatch_length in H1. cbn in H1. congruence. }
  unfold Shared.isDate. intros H.
  repeat (apply orb_true_iff in H as [H|H]).
  - split.
    + destruct (Hfm _ H) as [r Hr]. refine (matchToks_not_integer _ s r _ _ Hr); [exact I|].
      unfold Shared.date_ymd, Shared.date_mdy, Shared.clock. cbn [app].
      repeat first [apply Exists_cons_hd; reflexivity | apply Exists_cons_tl].
    + left. rewrite H. split; [reflexivity|].
      unfold Go.len. now rewrite (fullMatch_length _ _ H).
  - split.
    + destruct (Hfm _ H) as [r Hr]. refine (matchToks_not_integer _ s r _ _ Hr); [exact I|].
      unfold Shared.date_ymd, Shared.date_mdy, Shared.clock. cbn [app].
      repeat first [apply Exists_cons_hd; reflexivity | apply Exists_cons_tl].
    + left. rewrite H, orb_true_r. split; [reflexivity|].
      unfold Go.len. now rewrite (fullMatch_length _ _ H).
  - split.
    + destruct (Hfm _ H) as [r Hr]. refine (matchToks_not_integer _ s r _ _ Hr); [exact I|].
      unfold Shared.date_ymd, Shared.date_mdy, Shared.clock. cbn [app].
      repeat first [apply Exists_cons_hd; reflexivity | apply Exists_cons_tl].
    + right. split; [refine (Hshort _ _ H); vm_compute; lia|].
      left. unfold Go.len. now rewrite (fullMatch_length _ _ H).
  - split.
    + destruct (Hfm _ H) as [r Hr]. refine (matchToks_not_integer _ s r _ _ Hr); [exact I|].
      unfold Shared.date_ymd, Shared.date_mdy, Shared.clock. cbn [app].
      repeat first [apply Exists_cons_hd; reflexivity | apply Exists_cons_tl].
    + right. split; [refine (Hshort _ _ H); vm_compute; lia|].
      left. unfold Go.len. now rewrite (fullMatch_length _ _ H).
  - split.
    + destruct (Hfz _ H) as [r Hr]. refine (matchToks_not_integer _ s r _ _ Hr); [exact I|].
      unfold Shared.date_ymd, Shared.date_mdy, Shared.clock. cbn [app].
      repeat first [apply Exists_cons_hd; reflexivity | apply Exists_cons_tl].
    + right. pose proof (fullMatchOptZ_length _ _ H) as Hl. cbn in Hl. split.
      * apply orb_false_iff. split.
        -- destruct (Go.fullMatch Shared.date_ymd s) eqn:H1; [|reflexivity].
           apply fullMatch_length in H1. cbn in H1. lia.
        -- destruct (Go.fullMatch Shared.date_mdy s) eqn:H1; [|reflexivity].
           apply fullMatch_length in H1. cbn in H1. lia.
      * unfold Go.len. lia.
Qed.

(** X6. A value of one of the five date shapes that [ParseFloat] rejects is
    typed by its shape alone: DATE for the two shapes without a time,
    DATETIME for the three with one.  The digits are not checked, so
    9999-99-99 is a DATE; and such a value is never typed BIGINT. *)
Theorem date_shapes_give_DATE_or_DATETIME (R : GoRuntime) (c : Part002.Config)
    (currentType value : string) :
  Shared.isDate value = true ->
  ParseFloat64 R value = false ->
  Part002.refineType R c currentType value
  = (if Go.fullMatch Shared.date_ymd value || Go.fullMatch Shared.date_mdy value
     then "DATE" else "DATETIME").
Proof.
  intros Hd Hf. unfold Part002.refineType, Shared.isInteger, Shared.isDecimal.
  destruct (isDate_shape value Hd) as (Hi & [(-> & Hl) | (-> & [Hl|Hl])]);
    rewrite Hi, Hf, Hd, Hl; reflexivity.
Qed.

Lemma date_shapes_give_DATE_or_DATETIME_witness :
  Part002.refineType RunAscii.runtime (Ex.config "t") "TEXT" "9999-99-99" = "DATE"
  /\ Part002.refineType RunAscii.runtime (Ex.config "t") "TEXT" "2024-01-02T03:04:05Z"
     = "DATETIME".
Proof.
  split.
  - exact (date_shapes_give_DATE_or_DATETIME RunAscii.runtime (Ex.config "t") "TEXT"
             "9999-99-99" eq_refl eq_refl).
  - exact (date_shapes_give_DATE_or_DATETIME RunAscii.runtime (Ex.config "t") "TEXT"
             "2024-01-02T03:04:05Z" eq_refl eq_refl).
Defined.
